(** * pragma-sdk: the fetch / publish pipeline

    A shallow embedding of
      - pragma/core/mixins/oracle.py                (module [Oracle])
      - pragma/publisher/fetchers/cex.py            (module [Cex])
      - pragma/publisher/fetchers/coinbase.py       (module [Coinbase])
      - pragma/publisher/future_fetchers/okx.py     (module [Okx])
      - pragma/publisher/future_fetchers/binance.py (module [Binance])
    together with the pieces of the Python run time these functions rely
    on (module [Py]): exceptions as values, list slices, [int], [float]
    and float arithmetic, [str.split], [datetime.strptime].

    The definitions come first. The properties follow, in [OracleFacts]
    (pagination, the write guard, the read path) and in [FetcherFacts]
    (shape of the result lists, not-found, prices, expiry). *)

From Stdlib Require Import ZArith String Ascii Bool Lia Arith List.
From Stdlib Require Import Floats.SpecFloat.
From Stdlib Require Import Permutation.
Import ListNotations.
Local Open Scope string_scope.
Local Open Scope list_scope.
Local Open Scope Z_scope.

(* ===================================================================== *)
(** * Python run time *)
(* ===================================================================== *)

Module Py.

(** Exceptions raised by the modelled code, with their message. *)
Inductive exn : Type :=
| AttributeError (msg : string)
| ValueError (msg : string)
| TypeError (msg : string)
| KeyError (key : string)
| IndexError
| UnboundLocalError (name : string)
| ZeroDivisionError
| OverflowError
| ContentTypeError.

(** A computation without side effects either returns or raises. *)
Inductive py (A : Type) : Type :=
| Return (a : A)
| Raise (e : exn).
Arguments Return {A} a.
Arguments Raise {A} e.

Definition py_bind {A B} (r : py A) (k : A -> py B) : py B :=
  match r with
  | Return a => k a
  | Raise e => Raise e
  end.

(** [for x in l: acc = f acc x], stopping at the first exception. *)
Fixpoint for_each {A B} (f : B -> A -> py B) (l : list A) (acc : B)
  : py B :=
  match l with
  | [] => Return acc
  | x :: l' => py_bind (f acc x) (for_each f l')
  end.

(** [len(l)] as a Python integer. *)
Definition len {A} (l : list A) : Z := Z.of_nat (length l).

(** Index normalisation of [l[lo:hi]] (PySlice_AdjustIndices, step 1). *)
Definition clamp_index (n i : Z) : Z :=
  if i <? 0 then Z.max 0 (i + n) else Z.min i n.

(** [l[lo:hi]] *)
Definition slice {A} (l : list A) (lo hi : Z) : list A :=
  let lo' := clamp_index (len l) lo in
  let hi' := clamp_index (len l) hi in
  firstn (Z.to_nat (hi' - lo')) (skipn (Z.to_nat lo') l).


(** ** Strings *)

(** [sub in s] for two strings. *)
Fixpoint contains (sub s : string) : bool :=
  String.prefix sub s
  || match s with
     | EmptyString => false
     | String _ s' => contains sub s'
     end.

(** [s.split(sep)] for a separator of one character. *)
Fixpoint split (sep : ascii) (s : string) : list string :=
  match s with
  | EmptyString => [EmptyString]
  | String ch s' =>
      if Ascii.eqb ch sep then EmptyString :: split sep s'
      else match split sep s' with
           | [] => [String ch EmptyString]
           | w :: ws => String ch w :: ws
           end
  end.

(** [sep.join(parts)] *)
Definition join (sep : string) (parts : list string) : string :=
  String.concat sep parts.

Definition digit_of (ch : ascii) : option Z :=
  let n := Z.of_N (N_of_ascii ch) in
  if (48 <=? n) && (n <=? 57) then Some (n - 48) else None.

(** The digits at the head of [s], as a number and a count, and the rest
    of [s]; [acc] and [k] are the number and the count read so far. *)
Fixpoint read_digits (s : string) (acc : Z) (k : nat) : Z * nat * string :=
  match s with
  | EmptyString => (acc, k, s)
  | String ch s' =>
      match digit_of ch with
      | Some d => read_digits s' (10 * acc + d) (S k)
      | None => (acc, k, s)
      end
  end.

(** An optional sign at the head of [s]: is it a minus, and the rest. *)
Definition read_sign (s : string) : bool * string :=
  match s with
  | String "-" s' => (true, s')
  | String "+" s' => (false, s')
  | _ => (false, s)
  end.

(** The white space that [float] and [int] ignore at the two ends of a
    string (a string is a sequence of code points below 256): the code
    points 9 to 13 and 32, and the two above 127 that are spaces, 133 and
    160. *)
Definition is_space (ch : ascii) : bool :=
  let n := N_of_ascii ch in
  ((9 <=? n) && (n <=? 13) || (n =? 32) || (n =? 133) || (n =? 160))%N.

Fixpoint lstrip (s : string) : string :=
  match s with
  | String ch s' => if is_space ch then lstrip s' else s
  | EmptyString => s
  end.

Fixpoint rstrip (s : string) : string :=
  match s with
  | String ch s' =>
      match rstrip s' with
      | EmptyString => if is_space ch then EmptyString else String ch EmptyString
      | r => String ch r
      end
  | EmptyString => s
  end.

(** [s.strip()] *)
Definition strip (s : string) : string := rstrip (lstrip s).

(** ** Floats

    A Python float is an IEEE 754 binary64 value: [spec_float] at
    precision 53 and maximal exponent 1024, rounding to nearest, ties to
    even. *)
Definition prec : Z := 53.
Definition emax : Z := 1024.

Definition float : Type := spec_float.

(** The float nearest to the integer [z] (no overflow check). *)
Definition float_of_Z (z : Z) : float := binary_normalize prec emax z 0 false.

(** The float nearest to the quotient n / d of two integers, [0 < d]. *)
Definition float_of_quotient (n d : Z) : float :=
  match n with
  | Z0 => S754_zero false
  | Zpos _ =>
      let '(m, e, l) := SFdiv_core_binary prec emax n 0 d 0 in
      binary_round_aux prec emax false m e l
  | Zneg a =>
      let '(m, e, l) := SFdiv_core_binary prec emax (Zpos a) 0 d 0 in
      binary_round_aux prec emax true m e l
  end.

Definition is_finite (x : float) : bool :=
  match x with
  | S754_zero _ | S754_finite _ _ _ => true
  | _ => false
  end.

(** [float(z)] on an integer: OverflowError beyond the range of floats. *)
Definition float_of_int (z : Z) : py float :=
  let x := float_of_Z z in
  if is_finite x then Return x else Raise OverflowError.

(** [float(s)] on a string: between white space that is ignored, an
    optional sign, digits with an optional fraction, an optional exponent.
    The value denoted is rounded once, to the nearest float. (The
    spellings "inf", "infinity" and "nan" and underscores between digits,
    which Python accepts too, are not modelled: the model raises on them.) *)
Definition float_of_str (s : string) : py float :=
  let bad := Raise (ValueError ("could not convert string to float: " ++ s)%string) in
  let '(neg, s1) := read_sign (strip s) in
  let '(ip, ik, s2) := read_digits s1 0 0 in
  let '(m, fk, s3) :=
    match s2 with
    | String "." s2' => let '(m, k, r) := read_digits s2' ip 0 in (m, k, r)
    | _ => (ip, 0%nat, s2)
    end in
  if (ik + fk =? 0)%nat then bad
  else
    let exponent :=
      match s3 with
      | EmptyString => Some 0
      | String ch s3' =>
          if (Ascii.eqb ch "e" || Ascii.eqb ch "E")%bool then
            let '(eneg, s4) := read_sign s3' in
            let '(ev, ek, s5) := read_digits s4 0 0 in
            match ek, s5 with
            | S _, EmptyString => Some (if eneg then - ev else ev)
            | _, _ => None
            end
          else None
      end in
    match exponent with
    | None => bad
    | Some ex =>
        let e10 := ex - Z.of_nat fk in
        let n := if neg then - m else m in
        Return
          (if m =? 0 then S754_zero neg
           else if 0 <=? e10 then float_of_Z (n * 10 ^ e10)
           else float_of_quotient n (10 ^ (- e10)))
    end.

(** [x * y] and [x / y] on floats. *)
Definition fmul (x y : float) : float := SFmul prec emax x y.

Definition is_zero (x : float) : bool :=
  match x with S754_zero _ => true | _ => false end.

Definition fdiv (x y : float) : py float :=
  if is_zero y then Raise ZeroDivisionError else Return (SFdiv prec emax x y).

(** [a / b] on two integers: the float nearest to the quotient. *)
Definition int_truediv (a b : Z) : py float :=
  if b =? 0 then Raise ZeroDivisionError
  else
    let x := if b <? 0 then float_of_quotient (- a) (- b) else float_of_quotient a b in
    if is_finite x then Return x else Raise OverflowError.

(** [int(x)] on a float: truncation toward zero. *)
Definition int_of_float (x : float) : py Z :=
  match x with
  | S754_zero _ => Return 0
  | S754_finite s m e =>
      let a := if 0 <=? e then Z.shiftl (Zpos m) e else Z.shiftr (Zpos m) (- e) in
      Return (if s then - a else a)
  | S754_infinity _ => Raise OverflowError
  | S754_nan => Raise (ValueError "cannot convert float NaN to integer")
  end.

(** [int(s)] on a string: between white space that is ignored, an optional
    sign and decimal digits. (Underscores between digits, which Python
    accepts too, are not modelled: the model raises on them.) *)
Definition int_of_str (s : string) : py Z :=
  let '(neg, s1) := read_sign (strip s) in
  let '(v, k, rest) := read_digits s1 0 0 in
  match k, rest with
  | S _, EmptyString => Return (if neg then - v else v)
  | _, _ => Raise (ValueError ("invalid literal for int() with base 10: " ++ s)%string)
  end.


(** ** Values decoded from JSON *)

#[local] Unset Elimination Schemes.
Inductive value : Type :=
| VNone
| VBool (b : bool)
| VInt (z : Z)
| VFloat (x : float)
| VStr (s : string)
| VList (l : list value)
| VDict (d : list (string * value)).
#[local] Set Elimination Schemes.

Fixpoint lookup (k : string) (d : list (string * value)) : option value :=
  match d with
  | [] => None
  | (k', v) :: d' => if String.eqb k k' then Some v else lookup k d'
  end.

(** [v[k]] with a string key. *)
Definition getitem (v : value) (k : string) : py value :=
  match v with
  | VDict d =>
      match lookup k d with
      | Some x => Return x
      | None => Raise (KeyError k)
      end
  | VList _ => Raise (TypeError "list indices must be integers or slices, not str")
  | VStr _ => Raise (TypeError "string indices must be integers, not 'str'")
  | _ => Raise (TypeError "object is not subscriptable")
  end.

(** [v[i]] with a natural index. *)
Definition getindex (v : value) (i : nat) : py value :=
  match v with
  | VList l =>
      match nth_error l i with
      | Some x => Return x
      | None => Raise IndexError
      end
  | VDict _ => Raise (KeyError "")
  | _ => Raise (TypeError "object is not subscriptable")
  end.

Definition is_str (s : string) (v : value) : bool :=
  match v with
  | VStr s' => String.eqb s s'
  | _ => false
  end.

(** [k in v] for a string [k]: a key of a dict, an element of a list, a
    substring of a string. *)
Definition str_in (k : string) (v : value) : py bool :=
  match v with
  | VDict d => Return (match lookup k d with Some _ => true | None => false end)
  | VList l => Return (existsb (is_str k) l)
  | VStr s => Return (contains k s)
  | _ => Raise (TypeError "argument is not iterable")
  end.

(** [for element in v] over a decoded array. Iterating a dict or a string
    yields keys or characters; the fetchers then index them by a string,
    which raises TypeError at the first element, and nothing when empty. *)
Definition elements (v : value) : py (list value) :=
  match v with
  | VList l => Return l
  | VDict d => Return (map (fun kv => VStr (fst kv)) d)
  | VStr s => Return (map (fun ch => VStr (String ch EmptyString)) (list_ascii_of_string s))
  | _ => Raise (TypeError "object is not iterable")
  end.

(** [len(v)] *)
Definition len_value (v : value) : py nat :=
  match v with
  | VList l => Return (List.length l)
  | VDict d => Return (List.length d)
  | VStr s => Return (String.length s)
  | _ => Raise (TypeError "object has no len()")
  end.

(** [int(v)] *)
Definition to_int (v : value) : py Z :=
  match v with
  | VInt z => Return z
  | VBool b => Return (if b then 1 else 0)
  | VFloat x => int_of_float x
  | VStr s => int_of_str s
  | _ => Raise (TypeError "int() argument must be a string, a bytes-like object or a real number")
  end.

(** [float(v)] *)
Definition to_float (v : value) : py float :=
  match v with
  | VFloat x => Return x
  | VInt z => float_of_int z
  | VBool b => Return (float_of_Z (if b then 1 else 0))
  | VStr s => float_of_str s
  | _ => Raise (TypeError "float() argument must be a string or a real number")
  end.

(** [v == s] for a string [s]. *)
Definition eq_str (v : value) (s : string) : bool := is_str s v.

(** ** Dates

    [datetime.strptime(s, "%y%m%d")] compiles the format to the regular
    expression (\d\d)(1[0-2]|0[1-9]|[1-9])(3[01]|[12]\d|0[1-9]|[1-9]| [1-9]),
    matches it at the start of [s] with the alternatives tried in order,
    and rejects input left over. *)
Definition digit_between (lo hi : Z) (ch : ascii) : option Z :=
  match digit_of ch with
  | Some d => if (lo <=? d) && (d <=? hi) then Some d else None
  | None => None
  end.

(** One alternative of a group: an optional fixed first character, with
    the value it contributes, then a digit in a range. *)
Definition alt (first : option (ascii * Z)) (lo hi : Z) (s : string)
  : option (Z * string) :=
  match first with
  | Some (ch, v) =>
      match s with
      | String c1 (String c2 r) =>
          if Ascii.eqb c1 ch then
            match digit_between lo hi c2 with
            | Some d => Some (10 * v + d, r)
            | None => None
            end
          else None
      | _ => None
      end
  | None =>
      match s with
      | String c1 r =>
          match digit_between lo hi c1 with
          | Some d => Some (d, r)
          | None => None
          end
      | EmptyString => None
      end
  end.

(** The alternatives of the month group and of the day group, in order. *)
Definition month_alts : list (string -> option (Z * string)) :=
  [alt (Some ("1"%char, 1)) 0 2; alt (Some ("0"%char, 0)) 1 9; alt None 1 9].

Definition day_alts : list (string -> option (Z * string)) :=
  [alt (Some ("3"%char, 3)) 0 1; alt (Some ("1"%char, 1)) 0 9;
   alt (Some ("2"%char, 2)) 0 9; alt (Some ("0"%char, 0)) 1 9;
   alt None 1 9; alt (Some (" "%char, 0)) 1 9].

(** The first alternative that matches. *)
Fixpoint first_match {A} (alts : list (string -> option A)) (s : string) : option A :=
  match alts with
  | [] => None
  | a :: alts' =>
      match a s with
      | Some r => Some r
      | None => first_match alts' s
      end
  end.

(** The match of the whole expression: the first month alternative after
    which some day alternative matches. *)
Definition match_yymmdd (s : string) : option (Z * Z * Z * string) :=
  match s with
  | String c1 (String c2 r) =>
      match digit_of c1, digit_of c2 with
      | Some d1, Some d2 =>
          first_match
            (map (fun (m_alt : string -> option (Z * string)) (r : string) =>
                    match m_alt r with
                    | Some (m, r') =>
                        match first_match day_alts r' with
                        | Some (d, r'') => Some (10 * d1 + d2, m, d, r'')
                        | None => None
                        end
                    | None => None
                    end)
               month_alts)
            r
      | _, _ => None
      end
  | _ => None
  end.

Definition is_leap (y : Z) : bool :=
  (y mod 4 =? 0) && (negb (y mod 100 =? 0) || (y mod 400 =? 0)).

Definition days_in_month (y m : Z) : Z :=
  if m =? 2 then (if is_leap y then 29 else 28)
  else if (m =? 4) || (m =? 6) || (m =? 9) || (m =? 11) then 30
  else 31.

(** A calendar date with its time of day, in UTC. *)
Record datetime : Type := mkDatetime {
  year : Z; month : Z; day : Z; hour : Z; minute : Z; second : Z
}.

(** [datetime.strptime(s, "%y%m%d")]: two-digit years up to 68 are in the
    2000s, the others in the 1900s; the day must exist in the month. *)
Definition strptime_yymmdd (s : string) : py datetime :=
  match match_yymmdd s with
  | Some (yy, m, d, EmptyString) =>
      let y := if yy <=? 68 then yy + 2000 else yy + 1900 in
      if d <=? days_in_month y m then Return (mkDatetime y m d 0 0 0)
      else Raise (ValueError "day is out of range for month")
  | Some (_, _, _, _) => Raise (ValueError "unconverted data remains")
  | None => Raise (ValueError "time data does not match format '%y%m%d'")
  end.

(** datetime.py: [_days_before_year], [_days_before_month], [_ymd2ord]. *)
Definition days_before_year (y : Z) : Z :=
  let y := y - 1 in y * 365 + y / 4 - y / 100 + y / 400.

Definition days_before_month (y m : Z) : Z :=
  nth (Z.to_nat m) [0; 0; 31; 59; 90; 120; 151; 181; 212; 243; 273; 304; 334] 0
  + (if (2 <? m) && is_leap y then 1 else 0).

Definition ymd2ord (y m d : Z) : Z :=
  days_before_year y + days_before_month y m + d.

(** [int(dt.timestamp())] for a datetime whose tzinfo is UTC: the whole
    seconds between 1970-01-01T00:00:00Z and [dt]. *)
Definition timestamp_utc (dt : datetime) : Z :=
  (ymd2ord (year dt) (month dt) (day dt) - ymd2ord 1970 1 1) * 86400
  + hour dt * 3600 + minute dt * 60 + second dt.

End Py.
Export Py.

Declare Scope py_scope.
Delimit Scope py_scope with py.
Notation "x <- c ;; k" := (py_bind c (fun x => k))
  (at level 61, c at next level, right associativity) : py_scope.

(* ===================================================================== *)
(** * Entry model *)
(* ===================================================================== *)

Inductive DataTypes : Type := SPOT | FUTURE.

Definition DataTypes_eqb (a b : DataTypes) : bool :=
  match a, b with
  | SPOT, SPOT | FUTURE, FUTURE => true
  | _, _ => false
  end.

(** Modelled from the spec: pragma/core/entry.py is not among the sources.
    Section 3 gives an entry the fields below; [kind] records whether the
    object is a SpotEntry or a FutureEntry ("kind is intrinsic to each
    Entry"), and [expiry_timestamp] is 0 on a spot entry. The volume is a
    Python float and is kept as a binary64 value. *)
Record Entry : Type := mkEntry {
  kind : DataTypes;
  pair_id : Z;
  price : Z;
  timestamp : Z;
  volume : spec_float;
  source : string;
  publisher : string;
  expiry_timestamp : Z
}.

Definition isinstance_SpotEntry (e : Entry) : bool := DataTypes_eqb (kind e) SPOT.
Definition isinstance_FutureEntry (e : Entry) : bool := DataTypes_eqb (kind e) FUTURE.

(** Modelled from the spec: pragma/publisher/types.py is not among the
    sources. Section 3: a FetchFailure is the value [{message: string}];
    the fetchers build it from the message alone. *)
Record PublisherFetchError : Type := mkFetchError { message : string }.

(* ===================================================================== *)
(** * pragma/core/mixins/oracle.py *)
(* ===================================================================== *)

Module Oracle.

(** pragma/core/types.py, pragma/core/utils.py and the [serialize] methods
    of pragma/core/entry.py are not among the sources: the publisher only
    passes their results on, so they are the operations of an interface. *)
Class Serialization : Type := {
  serialized_entry : Type;
  Entry_serialize : Entry -> serialized_entry;
  serialized_data_type : Type;
  DataType_serialize : DataTypes -> Z -> option Z -> serialized_data_type;
  AggregationMode : Type;
  MEDIAN : AggregationMode;
  serialized_mode : Type;
  AggregationMode_serialize : AggregationMode -> serialized_mode;
  str_to_felt : string -> Z
}.

Section Contract.
Context {Ser : Serialization}.

(** [{"Spot": entry}] and [{"Future": entry}] *)
Inductive envelope : Type :=
| Spot (entry : serialized_entry)
| Future (entry : serialized_entry).

(** Values handed to a contract function. *)
Inductive arg : Type :=
| A_entries (new_entries : list envelope)
| A_data_type (d : serialized_data_type)
| A_data_types (ds : list serialized_data_type)
| A_mode (m : serialized_mode)
| A_ints (l : list Z).

(** One remote operation on the oracle contract:
    [functions[fn].invoke(args.., max_fee=max_fee)] is a write and
    [functions[fn].call(args..)] a read. *)
Inductive rpc : Type :=
| Invoke (fn : string) (args : list arg) (max_fee : Z)
| Call (fn : string) (args : list arg).

(** The operations issued so far, oldest first. *)
Definition chain : Type := list rpc.

(** starknet_py's InvokeResult: the transaction hash and what was sent. *)
Record InvokeResult : Type := mkInvokeResult {
  hash : Z;
  invoke_transaction : rpc
}.

Record OracleResponse : Type := mkOracleResponse {
  resp_price : Z;
  resp_decimals : Z;
  last_updated_timestamp : Z;
  num_sources_aggregated : Z;
  expiration_timestamp : option Z
}.

(** What the remote contract answers: the hash of a submitted transaction
    and the aggregate of a read, both functions of the operations issued
    before and of the operation itself. *)
Class Contract : Type := {
  tx_hash : chain -> rpc -> Z;
  view : chain -> rpc -> OracleResponse
}.
Context {Ctr : Contract}.

(** ** Stateful computations

    A method of the mixin runs against the chain. It returns, raises, or,
    for a loop, runs out of the fuel given to it. *)
Inductive outcome (A : Type) : Type :=
| Done (a : A) (c : chain)
| Raised (e : exn) (c : chain)
| OutOfFuel.
Arguments Done {A} a c.
Arguments Raised {A} e c.
Arguments OutOfFuel {A}.

Definition M (A : Type) : Type := chain -> outcome A.

Definition ret {A} (a : A) : M A := fun c => Done a c.
Definition raise {A} (e : exn) : M A := fun c => Raised e c.
Definition bind {A B} (m : M A) (k : A -> M B) : M B :=
  fun c =>
    match m c with
    | Done a c' => k a c'
    | Raised e c' => Raised e c'
    | OutOfFuel => OutOfFuel
    end.

(** [await f.invoke(...)]: the transaction is appended to the chain. The
    contract layer (pragma/core/contract.py over starknet_py) is not among
    the sources: a write that reaches it is taken to be accepted, and what
    it does for a client without an account is not modelled; the guards
    that are modelled are those the mixin itself has. *)
Definition invoke (fn : string) (args : list arg) (max_fee : Z) : M InvokeResult :=
  fun c =>
    let op := Invoke fn args max_fee in
    Done (mkInvokeResult (tx_hash c op) op) (c ++ [op]).

(** [await f.call(...)]: the read is recorded and answered. *)
Definition call (fn : string) (args : list arg) : M OracleResponse :=
  fun c =>
    let op := Call fn args in
    Done (view c op) (c ++ [op]).

(** [while cond: body] over the local variables [s]. *)
Fixpoint while {S : Type} (fuel : nat) (cond : S -> bool) (body : S -> M S)
  (s : S) : M S :=
  fun c =>
    match fuel with
    | O => OutOfFuel
    | Datatypes.S fuel' =>
        if cond s then
          match body s c with
          | Done s' c' => while fuel' cond body s' c'
          | Raised e c' => Raised e c'
          | OutOfFuel => OutOfFuel
          end
        else Done s c
    end.

End Contract.

Arguments Done {Ser A} a c.
Arguments Raised {Ser A} e c.
Arguments OutOfFuel {Ser A}.

Declare Scope oracle_scope.
Delimit Scope oracle_scope with oracle.
Notation "x <- c ;; k" := (bind c (fun x => k))
  (at level 61, c at next level, right associativity) : oracle_scope.
Notation "' pat <- c ;; k" := (bind c (fun x => match x with pat => k end))
  (at level 61, pat pattern, c at next level, right associativity) : oracle_scope.

Section Mixin.
Context {Ser : Serialization} {Ctr : Contract}.
Local Open Scope oracle_scope.

(** The part of [self] the methods read: whether an account was set up
    ([is_user_client]). *)
Record Client : Type := mkClient { is_user_client : bool }.

Definition must_set_account : string :=
  "Must set account.  You may do this by invoking self._setup_account_client(private_key, account_contract_address)".

(** Modelled from the spec: [SpotEntry.serialize_entries] and
    [FutureEntry.serialize_entries] live in pragma/core/entry.py, which is
    not among the sources. Section 4.3: the publisher "partitions entries
    into spot and future groups", each entry going to the group of its
    kind, in the order of the input. *)
Definition SpotEntry_serialize_entries (entries : list Entry) : list serialized_entry :=
  map Entry_serialize (filter isinstance_SpotEntry entries).

Definition FutureEntry_serialize_entries (entries : list Entry) : list serialized_entry :=
  map Entry_serialize (filter isinstance_FutureEntry entries).

(** [if pagination:] on an [Optional[int]] *)
Definition truthy (pagination : option Z) : bool :=
  match pagination with
  | None => false
  | Some p => negb (p =? 0)
  end.

(** The integer of a truthy [pagination]. *)
Definition int_of (pagination : option Z) : Z :=
  match pagination with
  | None => 0
  | Some p => p
  end.

(** [publish_many], lines 66-129. The result is [None] on the empty-input
    return and the list [invocations] otherwise. *)
Definition publish_many (fuel : nat) (self : Client) (entries : list Entry)
  (pagination : option Z) (max_fee : Z) : M (option (list InvokeResult)) :=
  if len entries =? 0 then
    (* logger.warning("Skipping publishing as entries array is empty") *)
    ret None
  else
    let invocations : list InvokeResult := [] in
    let serialized_spot_entries := SpotEntry_serialize_entries entries in
    invocations <-
      (if truthy pagination then
         let ix := 0 in
         '(ix, invocations) <-
           while fuel
             (fun '(ix, _) => ix <? len serialized_spot_entries)
             (fun '(ix, invocations) =>
                let entries_subset :=
                  slice serialized_spot_entries ix (ix + int_of pagination) in
                invocation <-
                  invoke "publish_data_entries"
                    [A_entries (map Spot entries_subset)] max_fee ;;
                let ix := ix + int_of pagination in
                let invocations := invocations ++ [invocation] in
                ret (ix, invocations))
             (ix, invocations) ;;
         ret invocations
       else if len serialized_spot_entries >? 0 then
         invocation <-
           invoke "publish_data_entries"
             [A_entries (map Spot serialized_spot_entries)] max_fee ;;
         ret (invocations ++ [invocation])
       else ret invocations) ;;
    let serialized_future_entries := FutureEntry_serialize_entries entries in
    invocations <-
      (if truthy pagination then
         let ix := 0 in
         '(ix, invocations) <-
           while fuel
             (fun '(ix, _) => ix <? len serialized_future_entries)
             (fun '(ix, invocations) =>
                let entries_subset :=
                  slice serialized_future_entries ix (ix + int_of pagination) in
                invocation <-
                  invoke "publish_data_entries"
                    [A_entries (map Future entries_subset)] max_fee ;;
                let ix := ix + int_of pagination in
                let invocations := invocations ++ [invocation] in
                ret (ix, invocations))
             (ix, invocations) ;;
         ret invocations
       else if len serialized_future_entries >? 0 then
         invocation <-
           invoke "publish_data_entries"
             [A_entries (map Future serialized_future_entries)] max_fee ;;
         ret (invocations ++ [invocation])
       else ret invocations) ;;
    ret (Some invocations).

(** A pair id as a caller may pass it: a symbol string, an integer, or a
    value of any other type (a float, say). *)
Inductive pair_id_arg : Type :=
| PairStr (s : string)
| PairInt (z : Z)
| PairOther.

(** The head shared by the read operations:
    [isinstance(pair_id, str)] / [isinstance(pair_id, int)]. *)
Definition normalize_pair_id (pair_id : pair_id_arg) : M Z :=
  match pair_id with
  | PairStr s => ret (str_to_felt s)
  | PairInt z => ret z
  | PairOther =>
      raise (TypeError "Pair ID must be string (will be converted to felt) or integer")
  end.

(** [get_spot], lines 162-194. *)
Definition get_spot (pair_id : pair_id_arg) (aggregation_mode : AggregationMode)
  (sources : option (list Z)) : M OracleResponse :=
  pair_id <- normalize_pair_id pair_id ;;
  response <-
    match sources with
    | None =>
        call "get_data"
          [A_data_type (DataType_serialize SPOT pair_id None);
           A_mode (AggregationMode_serialize aggregation_mode)]
    | Some sources =>
        call "get_data_for_sources"
          [A_data_type (DataType_serialize SPOT pair_id None);
           A_mode (AggregationMode_serialize aggregation_mode);
           A_ints sources]
    end ;;
  ret (mkOracleResponse (resp_price response) (resp_decimals response)
         (last_updated_timestamp response) (num_sources_aggregated response)
         (expiration_timestamp response)).

(** [get_future], lines 196-230. *)
Definition get_future (pair_id : pair_id_arg) (expiry_timestamp : Z)
  (aggregation_mode : AggregationMode) (sources : option (list Z))
  : M OracleResponse :=
  pair_id <- normalize_pair_id pair_id ;;
  response <-
    match sources with
    | None =>
        call "get_data"
          [A_data_type (DataType_serialize FUTURE pair_id (Some expiry_timestamp));
           A_mode (AggregationMode_serialize aggregation_mode)]
    | Some sources =>
        call "get_data_for_sources"
          [A_data_type (DataType_serialize FUTURE pair_id (Some expiry_timestamp));
           A_mode (AggregationMode_serialize aggregation_mode);
           A_ints sources]
    end ;;
  ret (mkOracleResponse (resp_price response) (resp_decimals response)
         (last_updated_timestamp response) (num_sources_aggregated response)
         (expiration_timestamp response)).

(** [publish_spot_entry] (deprecated), lines 34-64. The single entry is
    sent as the [new_entry] argument. *)
Definition publish_spot_entry (self : Client) (new_entry : serialized_entry)
  (max_fee : Z) : M InvokeResult :=
  if negb (is_user_client self) then raise (AttributeError must_set_account)
  else invoke "publish_data" [A_entries [Spot new_entry]] max_fee.

(** [set_checkpoint] (deprecated), lines 239-255. *)
Definition set_checkpoint (self : Client) (pair_id : Z)
  (aggregation_mode : AggregationMode) (max_fee : Z) : M InvokeResult :=
  if negb (is_user_client self) then raise (AttributeError must_set_account)
  else
    invoke "set_checkpoint"
      [A_data_type (DataType_serialize SPOT pair_id None);
       A_mode (AggregationMode_serialize aggregation_mode)] max_fee.

(** [set_future_checkpoint] (deprecated), lines 257-274. *)
Definition set_future_checkpoint (self : Client) (pair_id : Z)
  (expiry_timestamp : Z) (aggregation_mode : AggregationMode) (max_fee : Z)
  : M InvokeResult :=
  if negb (is_user_client self) then raise (AttributeError must_set_account)
  else
    invoke "set_checkpoint"
      [A_data_type (DataType_serialize FUTURE pair_id (Some expiry_timestamp));
       A_mode (AggregationMode_serialize aggregation_mode)] max_fee.

(** [return invocation] of a local that is bound only inside the loop. *)
Definition return_local (name : string) (v : option InvokeResult) : M InvokeResult :=
  match v with
  | Some invocation => ret invocation
  | None => raise (UnboundLocalError name)
  end.

(** [set_future_checkpoints], lines 276-313. Every page carries the whole
    of [expiry_timestamps]. *)
Definition set_future_checkpoints (fuel : nat) (self : Client)
  (pair_ids : list Z) (expiry_timestamps : list Z)
  (aggregation_mode : AggregationMode) (max_fee : Z) (pagination : option Z)
  : M InvokeResult :=
  if negb (is_user_client self) then raise (AttributeError must_set_account)
  else
    invocation <-
      (if truthy pagination then
         let ix := 0 in
         '(ix, invocation) <-
           while fuel
             (fun '(ix, _) => ix <? len pair_ids)
             (fun '(ix, invocation) =>
                let pair_ids_subset := slice pair_ids ix (ix + int_of pagination) in
                invocation <-
                  invoke "set_checkpoints"
                    [A_ints pair_ids_subset; A_ints expiry_timestamps;
                     A_mode (AggregationMode_serialize aggregation_mode)] max_fee ;;
                let ix := ix + int_of pagination in
                ret (ix, Some invocation))
             (ix, @None InvokeResult) ;;
         ret invocation
       else
         invocation <-
           invoke "set_checkpoints"
             [A_ints pair_ids; A_ints expiry_timestamps;
              A_mode (AggregationMode_serialize aggregation_mode)] max_fee ;;
         ret (Some invocation)) ;;
    return_local "invocation" invocation.

(** [set_checkpoints], lines 315-353. *)
Definition set_checkpoints (fuel : nat) (self : Client)
  (pair_ids : list Z) (aggregation_mode : AggregationMode) (max_fee : Z)
  (pagination : option Z) : M InvokeResult :=
  if negb (is_user_client self) then raise (AttributeError must_set_account)
  else
    invocation <-
      (if truthy pagination then
         let ix := 0 in
         '(ix, invocation) <-
           while fuel
             (fun '(ix, _) => ix <? len pair_ids)
             (fun '(ix, invocation) =>
                let pair_ids_subset := slice pair_ids ix (ix + int_of pagination) in
                invocation <-
                  invoke "set_checkpoints"
                    [A_data_types
                       (map (fun pair_id => DataType_serialize SPOT pair_id None)
                          pair_ids_subset);
                     A_mode (AggregationMode_serialize aggregation_mode)] max_fee ;;
                let ix := ix + int_of pagination in
                ret (ix, Some invocation))
             (ix, @None InvokeResult) ;;
         ret invocation
       else
         invocation <-
           invoke "set_checkpoints"
             [A_data_types
                (map (fun pair_id => DataType_serialize SPOT pair_id None) pair_ids);
              A_mode (AggregationMode_serialize aggregation_mode)] max_fee ;;
         ret (Some invocation)) ;;
    return_local "invocation" invocation.

(** Default arguments of the signatures. *)
Definition default_max_fee : Z := 10 ^ 18.
Definition publish_many_default_pagination : option Z := Some 40.
Definition set_checkpoints_default_pagination : option Z := Some 15.

(** ** Vocabulary of the statements *)

(** ceil(n / p) *)
Definition ceil_div (n p : nat) : nat := ((n + p - 1) / p)%nat.

(** Page [i] of [l] at page size [p], and the list of all pages. *)
Definition page {A} (p : nat) (l : list A) (i : nat) : list A :=
  firstn p (skipn (i * p) l).

Definition pages {A} (p : nat) (l : list A) : list (list A) :=
  map (page p l) (seq 0 (ceil_div (length l) p)).

(** The pages a group is cut into under a [pagination] setting: pages of
    that size when it is truthy, the whole group as one page otherwise,
    and nothing for an empty group. *)
Definition paged {A} (pagination : option Z) (l : list A) : list (list A) :=
  if truthy pagination then pages (Z.to_nat (int_of pagination)) l
  else if len l >? 0 then [l] else [].

(** A setting the loops terminate on: no page size, or one that is not
    negative. *)
Definition valid_pagination (pagination : option Z) : Prop :=
  match pagination with
  | None => True
  | Some p => 0 <= p
  end.

(** The handles the chain gives back when [ops] are submitted one after
    the other, starting from chain [c]. *)
Fixpoint handles_from (c : chain) (ops : list rpc) : list InvokeResult :=
  match ops with
  | [] => []
  | op :: ops' => mkInvokeResult (tx_hash c op) op :: handles_from (c ++ [op]) ops'
  end.

(** The write carrying one page of spot (future) entries. *)
Definition spot_page_op (max_fee : Z) (pg : list serialized_entry) : rpc :=
  Invoke "publish_data_entries" [A_entries (map Spot pg)] max_fee.

Definition future_page_op (max_fee : Z) (pg : list serialized_entry) : rpc :=
  Invoke "publish_data_entries" [A_entries (map Future pg)] max_fee.

(** The write carrying one page of spot checkpoints, and of future ones. *)
Definition checkpoint_page_op (aggregation_mode : AggregationMode) (max_fee : Z)
  (pg : list Z) : rpc :=
  Invoke "set_checkpoints"
    [A_data_types (map (fun pair_id => DataType_serialize SPOT pair_id None) pg);
     A_mode (AggregationMode_serialize aggregation_mode)] max_fee.

Definition future_checkpoint_page_op (expiry_timestamps : list Z)
  (aggregation_mode : AggregationMode) (max_fee : Z) (pg : list Z) : rpc :=
  Invoke "set_checkpoints"
    [A_ints pg; A_ints expiry_timestamps;
     A_mode (AggregationMode_serialize aggregation_mode)] max_fee.

(** The pair ids carried by a write of [set_future_checkpoints]: its first
    argument. *)
Definition checkpoint_pair_ids (op : rpc) : list Z :=
  match op with
  | Invoke _ (A_ints ids :: _) _ => ids
  | _ => []
  end.

(** The reading of "one submission handle per page": the transactions of
    the returned handles are the writes added to the chain [c]. *)
Definition one_handle_per_page (returned : list InvokeResult) (c c' : chain) : Prop :=
  map invoke_transaction returned = skipn (length c) c'.

(** The read operation section 4.5 of the specification selects: the
    restricted one for a non-empty source subset, the unrestricted one
    otherwise. *)
Definition spec_read_operation (sources : option (list Z)) : string :=
  match sources with
  | Some (_ :: _) => "get_data_for_sources"
  | _ => "get_data"
  end.

(** The read operation the code selects ([if sources is None]). *)
Definition read_operation (sources : option (list Z)) : string :=
  match sources with
  | None => "get_data"
  | Some _ => "get_data_for_sources"
  end.

(** Is the operation a write? *)
Definition is_invoke (op : rpc) : bool :=
  match op with Invoke _ _ _ => true | Call _ _ => false end.

(** The entries carried by a write of [publish_data_entries]. *)
Definition payload (op : rpc) : list envelope :=
  match op with
  | Invoke _ [A_entries es] _ => es
  | _ => []
  end.

End Mixin.
End Oracle.

(** ** A concrete oracle

    The simplest instance of the two interfaces, for running the methods:
    an entry is serialized to itself, a data type to its three fields, a
    symbol to the length of its name; the hash of a transaction is its
    position on the chain. *)
Module Demo.
Import Oracle.

Inductive mode : Type := Median | Mean.

#[export] Instance serialization : Serialization := {|
  serialized_entry := Entry;
  Entry_serialize := fun e => e;
  serialized_data_type := DataTypes * Z * option Z;
  DataType_serialize := fun k i x => (k, i, x);
  AggregationMode := mode;
  MEDIAN := Median;
  serialized_mode := mode;
  AggregationMode_serialize := fun m => m;
  str_to_felt := fun s => Z.of_nat (String.length s)
|}.

#[export] Instance contract : Contract := {|
  tx_hash := fun c _ => len c;
  view := fun c _ => mkOracleResponse (len c) 8 0 1 None
|}.

Definition spot_entry (i : Z) : Entry :=
  mkEntry SPOT i (100 + i) 1700000000 (S754_zero false) "CEX" "PRAGMA" 0.

Definition future_entry (i : Z) : Entry :=
  mkEntry FUTURE i (200 + i) 1700000000 (S754_zero false) "OKX" "PRAGMA"
    1703836800000.

End Demo.

(* ===================================================================== *)
(** * The fetchers *)
(* ===================================================================== *)

(** Modelled from the spec: pragma/core/assets.py is not among the sources.
    Section 3: an asset has a kind, a pair of symbols (base, quote) and a
    non-negative number of decimals. The fetchers read it as the dict
    [{"type": ..., "pair": (..., ...), "decimals": ...}], with the kind as
    the string "SPOT" or "FUTURE" (pragma/tests/constants.py). *)
Record Asset : Type := mkAsset {
  asset_type : string;
  pair : string * string;
  decimals : nat
}.

(** What one fetch of one asset contributes to a result list. *)
Inductive item : Type :=
| ItemEntry (e : Entry)
| ItemError (e : PublisherFetchError).

(** The outcome of [_fetch_pair] in the future fetchers: an error value or
    a list of entries. *)
Inductive pair_result : Type :=
| PairError (e : PublisherFetchError)
| PairEntries (l : list Entry).

(** An HTTP response: the status, the content type as aiohttp reports it,
    and the JSON document the body decodes to, if it is one. *)
Record Response : Type := mkResponse {
  status : Z;
  content_type : string;
  body : option value
}.

(** The world outside the fetchers: what a GET of a URL answers (for
    aiohttp's session and for requests alike), aiohttp's test of a content
    type in [resp.json()], the clock, the id of a pair from
    pragma/core/utils.py with its rendering in an f-string, and the
    rendering of a decoded JSON value in an f-string. *)
Class World : Type := {
  http_get : string -> Response;
  json_content_type : string -> bool;
  time_time : Z;
  currency_pair_to_pair_id : string -> string -> Z;
  str_pair_id : Z -> string;
  str_value : value -> string
}.

Section Http.
Context {W : World}.
Local Open Scope py_scope.

(** [json.loads(resp.text)], and [resp.json()] of requests *)
Definition json_loads (resp : Response) : py value :=
  match body resp with
  | Some v => Return v
  | None => Raise (ValueError "Expecting value")
  end.

(** [await resp.json()] of aiohttp: the content type is checked first.
    (On an empty body aiohttp returns None where [json.loads] raises; a
    [Response] does not tell an empty body from one that is not JSON, so
    what is stated of the two variants together assumes a body that
    decodes.) *)
Definition aiohttp_json (resp : Response) : py value :=
  if json_content_type (content_type resp) then json_loads resp
  else Raise ContentTypeError.

(** [content_type and "json" in content_type] *)
Definition is_json (content_type : string) : bool :=
  negb (String.eqb content_type "") && contains "json" content_type.

(** [x * (10 ** decimals)] *)
Definition scale (x : float) (decimals : nat) : py float :=
  factor <- float_of_int (10 ^ Z.of_nat decimals) ;;
  Return (fmul x factor).

(** [int(price * (10 ** asset["decimals"]))] *)
Definition price_int_of (price : float) (decimals : nat) : py Z :=
  scaled <- scale price decimals ;;
  int_of_float scaled.

(** ["/".join(pair)] *)
Definition pair_str (pair : string * string) : string :=
  join "/" [fst pair; snd pair].

End Http.

(** ** pragma/publisher/fetchers/cex.py *)
Module Cex.
Section Fetcher.
Context {W : World}.
Local Open Scope py_scope.

Definition BASE_URL : string := "https://cex.io/api/ticker".
Definition SOURCE : string := "CEX".

Record CexFetcher : Type := mkFetcher {
  assets : list Asset;
  publisher : string
}.

Definition no_data (pair : string * string) : PublisherFetchError :=
  mkFetchError ("No data found for " ++ pair_str pair ++ " from CEX")%string.

(** [_construct], lines 95-113 *)
Definition _construct (self : CexFetcher) (asset : Asset) (result : value) : py Entry :=
  let pair := pair asset in
  timestamp <- (v <- getitem result "timestamp" ;; to_int v) ;;
  price <- (v <- getitem result "last" ;; to_float v) ;;
  price_int <- price_int_of price (decimals asset) ;;
  volume <- (v <- getitem result "volume" ;; to_float v) ;;
  let pair_id := currency_pair_to_pair_id (fst pair) (snd pair) in
  Return (mkEntry SPOT pair_id price_int timestamp volume SOURCE (publisher self) 0).

(** [if "error" in result and result["error"] == "Invalid Symbols Pair"] *)
Definition invalid_symbols (result : value) : py bool :=
  present <- str_in "error" result ;;
  if present then (v <- getitem result "error" ;; Return (eq_str v "Invalid Symbols Pair"))
  else Return false.

(** [_fetch_pair], lines 27-51 *)
Definition _fetch_pair (self : CexFetcher) (asset : Asset) : py item :=
  let pair := pair asset in
  let url := (BASE_URL ++ "/" ++ fst pair ++ "/" ++ snd pair)%string in
  let resp := http_get url in
  if status resp =? 404 then Return (ItemError (no_data pair))
  else
    let content_type := content_type resp in
    result <-
      (if is_json content_type then json_loads resp
       else Raise (ValueError ("CEX: Unexpected content type: " ++ content_type)%string)) ;;
    invalid <- invalid_symbols result ;;
    if invalid then Return (ItemError (no_data pair))
    else (e <- _construct self asset result ;; Return (ItemEntry e)).

(** [_fetch_pair_sync], lines 53-69 *)
Definition _fetch_pair_sync (self : CexFetcher) (asset : Asset) : py item :=
  let pair := pair asset in
  let url := (BASE_URL ++ "/" ++ fst pair ++ "/" ++ snd pair)%string in
  let resp := http_get url in
  if status resp =? 404 then Return (ItemError (no_data pair))
  else
    result <- json_loads resp ;;
    invalid <- invalid_symbols result ;;
    if invalid then Return (ItemError (no_data pair))
    else (e <- _construct self asset result ;; Return (ItemEntry e)).

(** [fetch], lines 71-80: one task per spot asset, then
    [asyncio.gather(..., return_exceptions=True)], which puts the value or
    the exception of each task at the position of the task. *)
Definition fetch (self : CexFetcher) : list (py item) :=
  fold_left
    (fun entries asset =>
       if negb (String.eqb (asset_type asset) "SPOT") then entries
       else entries ++ [_fetch_pair self asset])
    (assets self) [].

(** [fetch_sync], lines 82-89 *)
Definition fetch_sync (self : CexFetcher) : py (list item) :=
  for_each
    (fun entries asset =>
       if negb (String.eqb (asset_type asset) "SPOT") then Return entries
       else (e <- _fetch_pair_sync self asset ;; Return (entries ++ [e])))
    (assets self) [].

(** [format_url], lines 91-93 *)
Definition format_url (quote_asset base_asset : string) : string :=
  (BASE_URL ++ "/" ++ quote_asset ++ "/" ++ base_asset)%string.

End Fetcher.
End Cex.

(** ** pragma/publisher/fetchers/coinbase.py *)
Module Coinbase.
Section Fetcher.
Context {W : World}.
Local Open Scope py_scope.

Definition BASE_URL : string := "https://api.coinbase.com/v2/exchange-rates?currency=".
Definition SOURCE : string := "COINBASE".

Record CoinbaseFetcher : Type := mkFetcher {
  assets : list Asset;
  publisher : string
}.

Definition no_data (pair : string * string) : PublisherFetchError :=
  mkFetchError ("No data found for " ++ pair_str pair ++ " from Coinbase")%string.

(** [_construct], lines 82-102. A spot entry built without a volume has
    volume 0. *)
Definition _construct (self : CoinbaseFetcher) (asset : Asset) (result : value) : py item :=
  let pair := pair asset in
  let pair_id := currency_pair_to_pair_id (fst pair) (snd pair) in
  rates <- (data <- getitem result "data" ;; getitem data "rates") ;;
  present <- str_in (fst pair) rates ;;
  if present then
    rate <- (v <- getitem rates (fst pair) ;; to_float v) ;;
    price <- fdiv (float_of_Z 1) rate ;;
    price_int <- price_int_of price (decimals asset) ;;
    let timestamp := time_time in
    Return (ItemEntry (mkEntry SPOT pair_id price_int timestamp (S754_zero false)
                         SOURCE (publisher self) 0))
  else
    Return (ItemError (mkFetchError
      ("No entry found for " ++ str_pair_id pair_id ++ " from Coinbase")%string)).

(** [_fetch_pair], lines 27-39 *)
Definition _fetch_pair (self : CoinbaseFetcher) (asset : Asset) : py item :=
  let pair := pair asset in
  let currency := snd pair in
  let resp := http_get (BASE_URL ++ currency)%string in
  if status resp =? 404 then Return (ItemError (no_data pair))
  else
    result <- aiohttp_json resp ;;
    _construct self asset result.

(** [_fetch_pair_sync], lines 41-54 *)
Definition _fetch_pair_sync (self : CoinbaseFetcher) (asset : Asset) : py item :=
  let pair := pair asset in
  let currency := snd pair in
  let resp := http_get (BASE_URL ++ currency)%string in
  if status resp =? 404 then Return (ItemError (no_data pair))
  else
    result <- json_loads resp ;;
    _construct self asset result.

(** [fetch], lines 56-66 *)
Definition fetch (self : CoinbaseFetcher) : list (py item) :=
  fold_left
    (fun entries asset =>
       if negb (String.eqb (asset_type asset) "SPOT") then entries
       else entries ++ [_fetch_pair self asset])
    (assets self) [].

(** [fetch_sync], lines 68-76 *)
Definition fetch_sync (self : CoinbaseFetcher) : py (list item) :=
  for_each
    (fun entries asset =>
       if negb (String.eqb (asset_type asset) "SPOT") then Return entries
       else (e <- _fetch_pair_sync self asset ;; Return (entries ++ [e])))
    (assets self) [].

(** [format_url], lines 78-80 *)
Definition format_url (quote_asset base_asset : string) : string :=
  (BASE_URL ++ base_asset)%string.

End Fetcher.
End Coinbase.

(** ** pragma/publisher/future_fetchers/okx.py *)
Module Okx.
Section Fetcher.
Context {W : World}.
Local Open Scope py_scope.

Definition BASE_URL : string := "https://okx.com/api/v5/market/tickers".
Definition SOURCE : string := "OKX".
Definition TIMESTAMP_URL : string := "https://www.okx.com/api/v5/public/instruments".

Record OkxFutureFetcher : Type := mkFetcher {
  assets : list Asset;
  publisher : string
}.

Definition no_data (pair : string * string) : PublisherFetchError :=
  mkFetchError ("No data found for " ++ pair_str pair ++ " from OKX")%string.

(** [format_expiry_timestamp_url], lines 44-45 *)
Definition format_expiry_timestamp_url (id : value) : string :=
  (TIMESTAMP_URL ++ "?instType=FUTURES&instId=" ++ str_value id)%string.

(** [result["code"] == "51001" or result["msg"] == "Instrument ID does not exist"] *)
Definition unknown_instrument (result : value) : py bool :=
  code <- getitem result "code" ;;
  if eq_str code "51001" then Return true
  else (msg <- getitem result "msg" ;; Return (eq_str msg "Instrument ID does not exist")).

(** [result["data"][0]["expTime"]] *)
Definition first_expTime (result : value) : py value :=
  data <- getitem result "data" ;;
  first <- getindex data 0 ;;
  getitem first "expTime".

(** [fetch_expiry_timestamp], lines 26-42: the error value or the JSON
    value of the expiry time. *)
Definition fetch_expiry_timestamp (self : OkxFutureFetcher) (asset : Asset) (id : value)
  : py (PublisherFetchError + value) :=
  let pair := pair asset in
  let url := format_expiry_timestamp_url id in
  let resp := http_get url in
  if status resp =? 404 then Return (inl (no_data pair))
  else
    result <- aiohttp_json resp ;;
    unknown <- unknown_instrument result ;;
    if unknown then Return (inl (no_data pair))
    else (v <- first_expTime result ;; Return (inr v)).

(** [fetch_sync_expiry_timestamp], lines 47-56 *)
Definition fetch_sync_expiry_timestamp (self : OkxFutureFetcher) (asset : Asset)
  (id : value) : py (PublisherFetchError + value) :=
  let pair := pair asset in
  let url := format_expiry_timestamp_url id in
  let resp := http_get url in
  if status resp =? 404 then Return (inl (no_data pair))
  else
    result <- json_loads resp ;;
    unknown <- unknown_instrument result ;;
    if unknown then Return (inl (no_data pair))
    else (v <- first_expTime result ;; Return (inr v)).

(** [int(expiry_timestamp)] on what the expiry lookup returned: an error
    value is not a number. *)
Definition int_of_expiry (expiry_timestamp : PublisherFetchError + value) : py Z :=
  match expiry_timestamp with
  | inr v => to_int v
  | inl _ => Raise (TypeError "int() argument must be a string, a bytes-like object or a real number, not 'PublisherFetchError'")
  end.

(** [_construct], lines 151-168 *)
Definition _construct (self : OkxFutureFetcher) (asset : Asset) (data : value)
  (expiry_timestamp : PublisherFetchError + value) : py Entry :=
  let pair := pair asset in
  timestamp <-
    (v <- getitem data "ts" ;; ts <- to_int v ;;
     q <- int_truediv ts 1000 ;; int_of_float q) ;;
  price <- (v <- getitem data "last" ;; to_float v) ;;
  price_int <- price_int_of price (decimals asset) ;;
  let pair_id := currency_pair_to_pair_id (fst pair) (snd pair) in
  volume <- (v <- getitem data "volCcy24h" ;; to_float v) ;;
  expiry <- int_of_expiry expiry_timestamp ;;
  Return (mkEntry FUTURE pair_id price_int timestamp volume SOURCE (publisher self) expiry).

(** The loop [for i in range(0, result_len)] shared by the two variants,
    over the instruments [result["data"][i]]. *)
Definition construct_all (self : OkxFutureFetcher) (asset : Asset)
  (lookup_expiry : value -> py (PublisherFetchError + value))
  (result : value) (result_len : nat) : py (list Entry) :=
  for_each
    (fun future_entries i =>
       data <- getitem result "data" ;;
       data_i <- getindex data i ;;
       id <- getitem data_i "instId" ;;
       expiry_timestamp <- lookup_expiry id ;;
       e <- _construct self asset data_i expiry_timestamp ;;
       Return (future_entries ++ [e]))
    (seq 0 result_len) [].

(** [_fetch_pair], lines 58-91 *)
Definition _fetch_pair (self : OkxFutureFetcher) (asset : Asset) : py pair_result :=
  let pair := pair asset in
  let url := (BASE_URL ++ "?instType=FUTURES&uly=" ++ fst pair ++ "-" ++ snd pair)%string in
  let resp := http_get url in
  if status resp =? 404 then Return (PairError (no_data pair))
  else
    let content_type := content_type resp in
    result <-
      (if is_json content_type then json_loads resp
       else Raise (ValueError ("OKX: Unexpected content type: " ++ content_type)%string)) ;;
    unknown <- unknown_instrument result ;;
    if unknown then Return (PairError (no_data pair))
    else
      result_len <- (data <- getitem result "data" ;; len_value data) ;;
      if (1 <? result_len)%nat then
        future_entries <-
          construct_all self asset (fetch_expiry_timestamp self asset) result result_len ;;
        Return (PairEntries future_entries)
      else Return (PairEntries []).

(** [_fetch_pair_sync], lines 93-119 *)
Definition _fetch_pair_sync (self : OkxFutureFetcher) (asset : Asset) : py pair_result :=
  let pair := pair asset in
  let url := (BASE_URL ++ "?instType=FUTURES&uly=" ++ fst pair ++ "-" ++ snd pair)%string in
  let resp := http_get url in
  if status resp =? 404 then Return (PairError (no_data pair))
  else
    result <- json_loads resp ;;
    unknown <- unknown_instrument result ;;
    if unknown then Return (PairError (no_data pair))
    else
      result_len <- (data <- getitem result "data" ;; len_value data) ;;
      if (1 <? result_len)%nat then
        future_entries <-
          construct_all self asset (fetch_sync_expiry_timestamp self asset) result
            result_len ;;
        Return (PairEntries future_entries)
      else Return (PairEntries []).

(** [entries.extend(future_entries)] for a list, [entries.append(...)] for
    an error value. *)
Definition collect (entries : list item) (future_entries : pair_result) : list item :=
  match future_entries with
  | PairEntries l => entries ++ map ItemEntry l
  | PairError e => entries ++ [ItemError e]
  end.

(** [fetch_sync], lines 121-132 *)
Definition fetch_sync (self : OkxFutureFetcher) : py (list item) :=
  for_each
    (fun entries asset =>
       if negb (String.eqb (asset_type asset) "FUTURE") then Return entries
       else
         (future_entries <- _fetch_pair_sync self asset ;;
          Return (collect entries future_entries)))
    (assets self) [].

(** [fetch], lines 134-145: each pair is awaited before the next. *)
Definition fetch (self : OkxFutureFetcher) : py (list item) :=
  for_each
    (fun entries asset =>
       if negb (String.eqb (asset_type asset) "FUTURE") then Return entries
       else
         (future_entries <- _fetch_pair self asset ;;
          Return (collect entries future_entries)))
    (assets self) [].

(** [format_url], lines 147-149 *)
Definition format_url (quote_asset base_asset : string) : string :=
  (BASE_URL ++ "?instType=FUTURES&uly=" ++ quote_asset ++ "-" ++ base_asset)%string.

End Fetcher.
End Okx.

(** ** pragma/publisher/future_fetchers/binance.py *)
Module Binance.
Section Fetcher.
Context {W : World}.
Local Open Scope py_scope.

Definition BASE_URL : string := "https://fapi.binance.com/fapi/v1/premiumIndex".
Definition VOLUME_URL : string := "https://fapi.binance.com/fapi/v1/ticker/24hr".
Definition SOURCE : string := "BINANCE".

Record BinanceFutureFetcher : Type := mkFetcher {
  assets : list Asset;
  publisher : string
}.

Definition no_data (pair : string * string) : PublisherFetchError :=
  mkFetchError ("No data found for " ++ pair_str pair ++ " from Binance")%string.

(** The loop of [fetch_volume]: the (symbol, volume) of every element
    whose symbol contains [selection]. *)
Definition select_volumes (selection : string) (result : value)
  : py (list (value * value)) :=
  l <- elements result ;;
  for_each
    (fun volume_arr element =>
       symbol <- getitem element "symbol" ;;
       selected <- str_in selection symbol ;;
       if selected then
         (symbol <- getitem element "symbol" ;;
          volume <- getitem element "volume" ;;
          Return (volume_arr ++ [(symbol, volume)]))
       else Return volume_arr)
    l [].

(** [fetch_volume], lines 28-42 *)
Definition fetch_volume (self : BinanceFutureFetcher) (asset : Asset)
  : py (PublisherFetchError + list (value * value)) :=
  let pair := pair asset in
  let url := VOLUME_URL in
  let selection := (fst pair ++ snd pair)%string in
  let resp := http_get url in
  if status resp =? 404 then Return (inl (no_data pair))
  else
    result <- aiohttp_json resp ;;
    volume_arr <- select_volumes selection result ;;
    Return (inr volume_arr).

(** [fetch_volume_sync], lines 44-58 *)
Definition fetch_volume_sync (self : BinanceFutureFetcher) (asset : Asset)
  : py (PublisherFetchError + list (value * value)) :=
  let pair := pair asset in
  let url := VOLUME_URL in
  let selection := (fst pair ++ snd pair)%string in
  let resp := http_get url in
  if status resp =? 404 then Return (inl (no_data pair))
  else
    result <- json_loads resp ;;
    volume_arr <- select_volumes selection result ;;
    Return (inr volume_arr).

(** [retrieve_volume], lines 138-142, for a symbol that is a string: the
    volume listed for it, or the integer 0. Iterating an error value
    raises. *)
Definition retrieve_volume (asset : string)
  (volume_arr : PublisherFetchError + list (value * value)) : py value :=
  match volume_arr with
  | inr l =>
      Return
        (match find (fun av => eq_str (fst av) asset) l with
         | Some (_, list_vol) => list_vol
         | None => VInt 0
         end)
  | inl _ => Raise (TypeError "'PublisherFetchError' object is not iterable")
  end.

(** The symbol of an instrument record as a string. The code compares the
    symbol and calls [split] on it; a symbol that is not a string makes it
    raise at [split] at the latest, and the model raises when the symbol
    is first read. *)
Definition symbol_of (data : value) : py string :=
  v <- getitem data "symbol" ;;
  match v with
  | VStr s => Return s
  | _ => Raise (AttributeError "object has no attribute 'split'")
  end.

(** The expiry of an instrument, in seconds: lines 156-168. *)
Definition expiry_of (symbol selection : string) : py Z :=
  if String.eqb symbol selection then Return 0
  else
    let date_arr := split "_"%char symbol in
    if (1 <? List.length date_arr)%nat then
      let date_part := nth 1 date_arr "" in
      expiry_date <- strptime_yymmdd date_part ;;
      let expiry_date :=
        mkDatetime (year expiry_date) (month expiry_date) (day expiry_date) 8 0 0 in
      Return (timestamp_utc expiry_date)
    else Return 0.

(** The body of the loop of [_construct], lines 150-179: the entry of one
    instrument record [data = result[i]]. *)
Definition construct_one (self : BinanceFutureFetcher) (asset : Asset)
  (volume_arr : PublisherFetchError + list (value * value)) (data : value) : py Entry :=
  let pair := pair asset in
  let selection := (fst pair ++ snd pair)%string in
  timestamp <- (v <- getitem data "time" ;; to_int v) ;;
  price <- (v <- getitem data "markPrice" ;; to_float v) ;;
  price_int <- price_int_of price (decimals asset) ;;
  let pair_id := currency_pair_to_pair_id (fst pair) (snd pair) in
  symbol <- symbol_of data ;;
  volume <- (v <- retrieve_volume symbol volume_arr ;; to_float v) ;;
  expiry_timestamp <- expiry_of symbol selection ;;
  timestamp_s <- (q <- int_truediv timestamp 1000 ;; int_of_float q) ;;
  Return (mkEntry FUTURE pair_id price_int timestamp_s volume SOURCE
            (publisher self) (expiry_timestamp * 1000)).

(** [_construct], lines 144-180 *)
Definition _construct (self : BinanceFutureFetcher) (asset : Asset)
  (result : list value) (volume_arr : PublisherFetchError + list (value * value))
  : py (list Entry) :=
  for_each
    (fun result_arr data =>
       e <- construct_one self asset volume_arr data ;;
       Return (result_arr ++ [e]))
    result [].

(** The loop of [_fetch_pair]: the elements whose symbol contains
    [selection]. *)
Definition select_data (selection : string) (result : value) : py (list value) :=
  l <- elements result ;;
  for_each
    (fun filtered_data element =>
       symbol <- getitem element "symbol" ;;
       selected <- str_in selection symbol ;;
       if selected then Return (filtered_data ++ [element])
       else Return filtered_data)
    l [].

(** [_fetch_pair], lines 60-84 *)
Definition _fetch_pair (self : BinanceFutureFetcher) (asset : Asset) : py pair_result :=
  let pair := pair asset in
  let url := BASE_URL in
  let selection := (fst pair ++ snd pair)%string in
  let resp := http_get url in
  if status resp =? 404 then Return (PairError (no_data pair))
  else
    let content_type := content_type resp in
    result <-
      (if is_json content_type then json_loads resp
       else Raise (ValueError ("Binance: Unexpected content type: " ++ content_type)%string)) ;;
    filtered_data <- select_data selection result ;;
    volume_arr <- fetch_volume self asset ;;
    l <- _construct self asset filtered_data volume_arr ;;
    Return (PairEntries l).

(** [_fetch_pair_sync], lines 86-107 *)
Definition _fetch_pair_sync (self : BinanceFutureFetcher) (asset : Asset) : py pair_result :=
  let pair := pair asset in
  let url := BASE_URL in
  let selection := (fst pair ++ snd pair)%string in
  let resp := http_get url in
  if status resp =? 404 then Return (PairError (no_data pair))
  else
    result <- json_loads resp ;;
    filtered_data <- select_data selection result ;;
    volume_arr <- fetch_volume_sync self asset ;;
    l <- _construct self asset filtered_data volume_arr ;;
    Return (PairEntries l).

Definition collect (entries : list item) (future_entries : pair_result) : list item :=
  match future_entries with
  | PairEntries l => entries ++ map ItemEntry l
  | PairError e => entries ++ [ItemError e]
  end.

(** [fetch_sync], lines 109-120 *)
Definition fetch_sync (self : BinanceFutureFetcher) : py (list item) :=
  for_each
    (fun entries asset =>
       if negb (String.eqb (asset_type asset) "FUTURE") then Return entries
       else
         (future_entries <- _fetch_pair_sync self asset ;;
          Return (collect entries future_entries)))
    (assets self) [].

(** [fetch], lines 122-133 *)
Definition fetch (self : BinanceFutureFetcher) : py (list item) :=
  for_each
    (fun entries asset =>
       if negb (String.eqb (asset_type asset) "FUTURE") then Return entries
       else
         (future_entries <- _fetch_pair self asset ;;
          Return (collect entries future_entries)))
    (assets self) [].

(** [format_url], lines 135-136 *)
Definition format_url (quote_asset base_asset : string) : string := BASE_URL.

End Fetcher.
End Binance.

(* ===================================================================== *)
(** * Vocabulary of the statements about the fetchers *)
(* ===================================================================== *)

Module Spec.

(** The items a pair result adds to the result list. *)
Definition items_of (r : pair_result) : list item :=
  match r with
  | PairError e => [ItemError e]
  | PairEntries l => map ItemEntry l
  end.

Definition is_spot (a : Asset) : bool := String.eqb (asset_type a) "SPOT".
Definition is_future (a : Asset) : bool := String.eqb (asset_type a) "FUTURE".

(** The message of a not-found: "No data found for BASE/QUOTE from SOURCE". *)
Definition not_found_message (base quote source : string) : string :=
  ("No data found for " ++ base ++ "/" ++ quote ++ " from " ++ source)%string.

(** The integer nearest to the fraction n / d, [0 < d], halves upwards. *)
Definition round_fraction (n d : Z) : Z := (2 * n + d) / (2 * d).

(** round(x * 10^decimals) for the decimal number x = digits / 10^places,
    as section 3 of the specification defines the price of an entry. *)
Definition spec_price (digits : Z) (places : nat) (decimals : nat) : Z :=
  round_fraction (digits * 10 ^ Z.of_nat decimals) (10 ^ Z.of_nat places).

(** The calendar, counted day by day: the days of the years from 1970 up
    to [y] (down from 1970 when [y] is earlier), of the months before [m],
    and of the month so far. *)
Definition year_length (y : Z) : Z := if is_leap y then 366 else 365.

Definition sum_Z (f : Z -> Z) (from : Z) (count : nat) : Z :=
  fold_left (fun acc i => acc + f (from + Z.of_nat i)) (seq 0 count) 0.

Definition days_since_epoch (y m d : Z) : Z :=
  (if 1970 <=? y then sum_Z year_length 1970 (Z.to_nat (y - 1970))
   else - sum_Z year_length y (Z.to_nat (1970 - y)))
  + sum_Z (days_in_month y) 1 (Z.to_nat (m - 1))
  + (d - 1).

(** Seconds from 1970-01-01T00:00:00Z to the given instant of UTC. *)
Definition epoch_seconds (y m d hh mm ss : Z) : Z :=
  days_since_epoch y m d * 86400 + hh * 3600 + mm * 60 + ss.

(** The six characters YYMMDD of a date suffix. *)
Definition two_digits (n : Z) : string :=
  String (ascii_of_N (Z.to_N (48 + n / 10)))
    (String (ascii_of_N (Z.to_N (48 + n mod 10))) EmptyString).

Definition yymmdd (yy mm dd : Z) : string :=
  (two_digits yy ++ two_digits mm ++ two_digits dd)%string.

(** The year a two-digit year stands for. *)
Definition full_year (yy : Z) : Z := if yy <=? 68 then 2000 + yy else 1900 + yy.

Definition valid_date (yy mm dd : Z) : bool :=
  (0 <=? yy) && (yy <=? 99) && (1 <=? mm) && (mm <=? 12) && (1 <=? dd)
  && (dd <=? days_in_month (full_year yy) mm).

(** Does the string hold an underscore? *)
Fixpoint has_underscore (s : string) : bool :=
  match s with
  | EmptyString => false
  | String ch s' => Ascii.eqb ch "_" || has_underscore s'
  end.

(** The check, for one date, that [strptime] reads the six characters
    back as that date and that they hold no underscore. *)
Definition date_ok (yy mm dd : Z) : bool :=
  if valid_date yy mm dd then
    match strptime_yymmdd (yymmdd yy mm dd) with
    | Return dt =>
        (year dt =? full_year yy) && (month dt =? mm) && (day dt =? dd)
        && negb (has_underscore (yymmdd yy mm dd))
    | Raise _ => false
    end
  else true.

(** The check, for one month, that the ordinal of datetime.py and the
    count of days of the calendar agree on its first day. *)
Definition month_ok (yy mm : Z) : bool :=
  ymd2ord (full_year yy) mm 1 - ymd2ord 1970 1 1
  =? days_since_epoch (full_year yy) mm 1.

(** The integers from..from+count-1. *)
Definition range (from : Z) (count : nat) : list Z :=
  map (fun i => from + Z.of_nat i) (seq 0 count).

End Spec.

(** ** A concrete world

    Canned answers of the four exchanges for BTC/USD, for running the
    fetchers; every other URL answers 404. *)
Module DemoWorld.

Definition json_ct : string := "application/json".

Definition cex_btc (last : string) : value :=
  VDict [("timestamp", VStr "1696594576"); ("last", VStr last);
         ("volume", VStr "12.5"); ("pair", VStr "BTC:USD")].

Definition coinbase_usd : value :=
  VDict [("data", VDict [("currency", VStr "USD");
                         ("rates", VDict [("BTC", VStr "0.000025");
                                          ("ETH", VStr "0.0004")])])].

Definition okx_instrument (id last : string) : value :=
  VDict [("instType", VStr "FUTURES"); ("instId", VStr id); ("last", VStr last);
         ("volCcy24h", VStr "2222"); ("ts", VStr "1597026383085")].

Definition okx_btc : value :=
  VDict [("code", VStr "0"); ("msg", VStr "");
         ("data", VList [okx_instrument "BTC-USD-231229" "42000.5";
                         okx_instrument "BTC-USD-240329" "42100.5"])].

Definition okx_expiry (expTime : string) : value :=
  VDict [("code", VStr "0"); ("msg", VStr "");
         ("data", VList [VDict [("expTime", VStr expTime)]])].

Definition binance_record (symbol markPrice : string) : value :=
  VDict [("symbol", VStr symbol); ("markPrice", VStr markPrice);
         ("time", VInt 1703000000123)].

Definition binance_index : value :=
  VList [binance_record "BTCUSD" "42000.12";
         binance_record "BTCUSD_231229" "42500.00";
         binance_record "ETHUSD" "2200.5"].

Definition binance_volumes : value :=
  VList [VDict [("symbol", VStr "BTCUSD"); ("volume", VStr "1000.0")];
         VDict [("symbol", VStr "ETHUSD"); ("volume", VStr "500.0")]].

Definition answers : list (string * Response) :=
  [("https://cex.io/api/ticker/BTC/USD",
    mkResponse 200 json_ct (Some (cex_btc "42000.12")));
   ("https://api.coinbase.com/v2/exchange-rates?currency=USD",
    mkResponse 200 json_ct (Some coinbase_usd));
   ("https://okx.com/api/v5/market/tickers?instType=FUTURES&uly=BTC-USD",
    mkResponse 200 json_ct (Some okx_btc));
   ("https://www.okx.com/api/v5/public/instruments?instType=FUTURES&instId=BTC-USD-231229",
    mkResponse 200 json_ct (Some (okx_expiry "1703836800000")));
   ("https://www.okx.com/api/v5/public/instruments?instType=FUTURES&instId=BTC-USD-240329",
    mkResponse 200 json_ct (Some (okx_expiry "1711699200000")));
   ("https://fapi.binance.com/fapi/v1/premiumIndex",
    mkResponse 200 json_ct (Some binance_index));
   ("https://fapi.binance.com/fapi/v1/ticker/24hr",
    mkResponse 200 json_ct (Some binance_volumes))].

Fixpoint answer (url : string) (l : list (string * Response)) : Response :=
  match l with
  | [] => mkResponse 404 "text/html" None
  | (u, r) :: l' => if String.eqb url u then r else answer url l'
  end.

Definition world (answers : list (string * Response)) : World := {|
  http_get := fun url => answer url answers;
  json_content_type := String.eqb json_ct;
  time_time := 12345;
  currency_pair_to_pair_id := fun b q => Z.of_nat (String.length b + String.length q);
  str_pair_id := fun _ => "pair";
  str_value := fun v => match v with VStr s => s | _ => "" end
|}.

(** The exchanges answering, and every exchange answering 404. *)
Definition up : World := world answers.
Definition down : World := world [].

Definition btc_spot : Asset := mkAsset "SPOT" ("BTC", "USD") 8.
Definition eth_spot : Asset := mkAsset "SPOT" ("ETH", "USD") 8.
Definition btc_future : Asset := mkAsset "FUTURE" ("BTC", "USD") 8.
Definition eth_future : Asset := mkAsset "FUTURE" ("ETH", "USD") 8.

End DemoWorld.

(* ===================================================================== *)
(** * More of oracle.py: the reads of raw entries and of decimals *)
(* ===================================================================== *)

Module OracleReads.
Import Oracle.

(** What the contract answers to the reads that do not return an
    aggregate, and [SpotEntry.from_dict] / [FutureEntry.from_dict] of
    pragma/core/entry.py, which is not among the sources: the raw entries
    of [get_data_entries_for_sources] (the first component of its
    response) and the integer of [get_decimals]. *)
Class RawReads {Ser : Serialization} : Type := {
  raw_entry : Type;
  view_entries : chain -> rpc -> list raw_entry;
  view_decimals : chain -> rpc -> Z;
  SpotEntry_from_dict : raw_entry -> Entry;
  FutureEntry_from_dict : raw_entry -> Entry
}.

Section Reads.
Context {Ser : Serialization} {Ctr : Contract} {Raw : RawReads}.
Local Open Scope oracle_scope.

(** [await f.call(...)] answered by [answer]. *)
Definition call_with {A} (answer : chain -> rpc -> A) (fn : string) (args : list arg)
  : M A :=
  fun c =>
    let op := Call fn args in
    Done (answer c op) (c ++ [op]).

(** A [DataType] object: kind, pair id, expiration. *)
Record DataType : Type := mkDataType {
  dt_kind : DataTypes;
  dt_pair_id : Z;
  dt_expiration : option Z
}.

(** [get_spot_entries] (deprecated), lines 131-143; [sources] defaults to
    the empty list. *)
Definition get_spot_entries (pair_id : pair_id_arg) (sources : list Z) : M (list Entry) :=
  pair_id <- normalize_pair_id pair_id ;;
  entries <-
    call_with view_entries "get_data_entries_for_sources"
      [A_data_type (DataType_serialize SPOT pair_id None); A_ints sources] ;;
  ret (map SpotEntry_from_dict entries).

(** [get_future_entries] (deprecated), lines 145-160 *)
Definition get_future_entries (pair_id : pair_id_arg) (expiration_timestamp : Z)
  (sources : list Z) : M (list Entry) :=
  pair_id <- normalize_pair_id pair_id ;;
  entries <-
    call_with view_entries "get_data_entries_for_sources"
      [A_data_type (DataType_serialize FUTURE pair_id (Some expiration_timestamp));
       A_ints sources] ;;
  ret (map FutureEntry_from_dict entries).

(** [get_decimals], lines 232-237 *)
Definition get_decimals (data_type : DataType) : M Z :=
  call_with view_decimals "get_decimals"
    [A_data_type (DataType_serialize (dt_kind data_type)
                    (dt_pair_id data_type) (dt_expiration data_type))].

(** ** Vocabulary of the statements *)

(** The envelope an entry is sent in: that of its kind. *)
Definition envelope_of (e : Entry) : envelope :=
  if isinstance_SpotEntry e then Spot (Entry_serialize e)
  else Future (Entry_serialize e).

(** The writes of a chain. *)
Definition writes (c : chain) : list rpc := filter is_invoke c.

(** The handles of what [publish_many] returned. *)
Definition handles_of (r : option (list InvokeResult)) : list InvokeResult :=
  match r with
  | Some l => l
  | None => []
  end.

(** The expiry list carried by a write of [set_future_checkpoints]: its
    second argument. *)
Definition checkpoint_expiries (op : rpc) : option (list Z) :=
  match op with
  | Invoke _ (_ :: A_ints expiries :: _) _ => Some expiries
  | _ => None
  end.

(** The name of the contract function of an operation. *)
Definition function_name (op : rpc) : string :=
  match op with
  | Invoke fn _ _ => fn
  | Call fn _ => fn
  end.

End Reads.

(** A concrete answer to the raw reads: two raw entries, read back as
    entries of the demo oracle. *)
#[export] Instance demo_raw : @RawReads Demo.serialization := {|
  raw_entry := Z;
  view_entries := fun _ _ => [1; 2];
  view_decimals := fun _ _ => 8;
  SpotEntry_from_dict := Demo.spot_entry;
  FutureEntry_from_dict := Demo.future_entry
|}.

End OracleReads.

(* ===================================================================== *)
(** * Test support: pragma/tests/constants.py, pragma/tests/fixtures/clients.py *)
(* ===================================================================== *)

Module Tests.
Local Open Scope py_scope.

(** A directory as pathlib sees it for [.parent]: its components, the
    innermost first; the empty list is the root (or "." for a relative
    path), which is its own parent. *)
Definition Path : Type := list string.

Definition parent (p : Path) : Path := tl p.

(** [find_repo_root], lines 10-19, on a file system given by [is_file],
    the test of [(directory / name).is_file()]: the loop runs while the
    directory differs from its parent. *)
Fixpoint find_repo_root (is_file : Path -> string -> bool) (start_directory : Path)
  : py Path :=
  match start_directory with
  | [] => Raise (ValueError "Repository root not found!")
  | _ :: parent_directory =>
      if is_file start_directory "pyproject.toml" then Return start_directory
      else find_repo_root is_file parent_directory
  end.

(** [x in argv] *)
Definition mem (x : string) (argv : list string) : bool := existsb (String.eqb x) argv.

(** [set(nets).isdisjoint(sys.argv)] *)
Definition isdisjoint (nets argv : list string) : bool :=
  negb (existsb (fun n => mem n argv) nets).

(** [net_to_clients], clients.py lines 29-43, on the command line [argv]. *)
Definition net_to_clients (argv : list string) : list string :=
  if mem "--client=gateway" argv then ["gateway_client"]
  else if mem "--client=full_node" argv then ["full_node_client"]
  else
    let clients := ["gateway_client"] in
    let nets := ["--net=integration"; "--net=testnet"; "testnet"; "integration"] in
    if isdisjoint nets argv then clients ++ ["full_node_client"] else clients.

(** [U128_MAX], [U256_MAX] and [MAX_FEE = int(1e16)] of constants.py *)
Definition U128_MAX : Z := Z.shiftl 1 128 - 1.
Definition U256_MAX : Z := Z.shiftl 1 256 - 1.
Definition MAX_FEE : Z := 10 ^ 16.

(** [SAMPLE_ASSETS] and [SAMPLE_FUTURE_ASSETS] of constants.py *)
Definition SAMPLE_ASSETS : list Asset :=
  [mkAsset "SPOT" ("BTC", "USD") 8; mkAsset "SPOT" ("ETH", "USD") 8].

Definition SAMPLE_FUTURE_ASSETS : list Asset :=
  [mkAsset "FUTURE" ("BTC", "USD") 8; mkAsset "FUTURE" ("ETH", "USD") 8].

End Tests.

(* ===================================================================== *)
(** * More vocabulary of the statements about the fetchers *)
(* ===================================================================== *)

Module Vocab.
Import Spec.

(** The FetchFailure of an asset at a source. *)
Definition failure_of (source : string) (a : Asset) : PublisherFetchError :=
  mkFetchError (not_found_message (fst (pair a)) (snd (pair a)) source).

(** Every asset of [others] that the fetcher keeps has a pair fetch that
    returns. *)
Definition others_return {X} (keep : Asset -> bool) (fetch_pair : Asset -> py X)
  (others : list Asset) : Prop :=
  Forall (fun b => keep b = true -> exists x, fetch_pair b = Return x) others.

(** The symbol of an instrument record, when it is a string. *)
Definition symbol_field (element : value) : option string :=
  match element with
  | VDict d =>
      match lookup "symbol" d with
      | Some (VStr s) => Some s
      | _ => None
      end
  | _ => None
  end.

Definition has_symbol (element : value) : bool :=
  match symbol_field element with Some _ => true | None => false end.

(** An element of the volume listing: a record with a string symbol and a
    volume. *)
Definition has_symbol_and_volume (element : value) : bool :=
  has_symbol element
  && match element with
     | VDict d => match lookup "volume" d with Some _ => true | None => false end
     | _ => false
     end.

(** Does the symbol of the record contain [selection]; is it [symbol]? *)
Definition symbol_contains (selection : string) (element : value) : bool :=
  match symbol_field element with
  | Some s => contains selection s
  | None => false
  end.

Definition symbol_is (symbol : string) (element : value) : bool :=
  match symbol_field element with
  | Some s => String.eqb s symbol
  | None => false
  end.

(** The volume listed for [symbol]: that of the first record with this
    symbol, and the integer 0 when there is none. *)
Definition listed_volume (symbol : string) (listing : list value) : value :=
  match find (symbol_is symbol) listing with
  | Some (VDict d) =>
      match lookup "volume" d with
      | Some v => v
      | None => VInt 0
      end
  | _ => VInt 0
  end.

(** The (symbol, volume) pair [fetch_volume] keeps of a record. *)
Definition volume_entry (element : value) : value * value :=
  match element with
  | VDict d =>
      (match lookup "symbol" d with Some s => s | None => VNone end,
       match lookup "volume" d with Some v => v | None => VNone end)
  | _ => (VNone, VNone)
  end.

(** The sign bit of a float (false on NaN). *)
Definition sign_bit (x : float) : bool :=
  match x with
  | S754_zero s | S754_infinity s | S754_finite s _ _ => s
  | S754_nan => false
  end.

(** Is the quoted number written with a minus sign, after the white space
    that [float] ignores (a string), below zero (an integer), or with the
    sign bit set (a float)? *)
Definition negative_quote (v : value) : bool :=
  match v with
  | VStr s => fst (read_sign (strip s))
  | VInt z => z <? 0
  | VFloat x => sign_bit x
  | _ => false
  end.

(** The asset type that goes with a kind of entry. *)
Definition kind_name (k : DataTypes) : string :=
  match k with SPOT => "SPOT" | FUTURE => "FUTURE" end.

(** What a fetcher stamps on the entries it builds for an asset. *)
Definition stamped {W : World} (k : DataTypes) (source_name publisher_name : string)
  (a : Asset) (e : Entry) : Prop :=
  kind e = k /\ source e = source_name /\ publisher e = publisher_name
  /\ pair_id e = currency_pair_to_pair_id (fst (pair a)) (snd (pair a))
  /\ (k = SPOT -> expiry_timestamp e = 0).

(** Does the string start with two decimal digits? *)
Definition starts_with_two_digits (s : string) : bool :=
  match s with
  | String c1 (String c2 _) =>
      match digit_of c1, digit_of c2 with
      | Some _, Some _ => true
      | _, _ => false
      end
  | _ => false
  end.

(** Midnight of 2000-01-01, in seconds from the epoch. *)
Definition y2k : Z := 946684800.

(** The check, for one month, of where its first day lies with respect
    to the epoch and to 2000-01-01. *)
Definition window_ok (yy mm : Z) : bool :=
  let days := days_since_epoch (full_year yy) mm 1 in
  if yy <=? 68 then 10957 <=? days
  else if yy =? 69 then days + 30 <? 0
  else (0 <=? days) && (days + 30 <? 10957).

End Vocab.

(** ** Further canned answers

    Worlds in which one exchange answers in one of the ways the fetchers
    treat specially; every other URL answers 404. *)
Module Scenarios.
Import DemoWorld.

Definition cex_url : string := "https://cex.io/api/ticker/BTC/USD".
Definition coinbase_url : string := "https://api.coinbase.com/v2/exchange-rates?currency=USD".
Definition okx_url : string :=
  "https://okx.com/api/v5/market/tickers?instType=FUTURES&uly=BTC-USD".
Definition binance_url : string := "https://fapi.binance.com/fapi/v1/premiumIndex".
Definition binance_volume_url : string := "https://fapi.binance.com/fapi/v1/ticker/24hr".

Definition invalid_pair : list (string * value) :=
  [("error", VStr "Invalid Symbols Pair")].

Definition cex_invalid : World :=
  world [(cex_url, mkResponse 200 json_ct (Some (VDict invalid_pair)))].

Definition unknown_underlying : list (string * value) :=
  [("code", VStr "51001"); ("msg", VStr "Instrument ID does not exist");
   ("data", VList [])].

Definition okx_unknown : World :=
  world [(okx_url, mkResponse 200 json_ct (Some (VDict unknown_underlying)))].

Definition one_instrument : list (string * value) :=
  [("code", VStr "0"); ("msg", VStr "");
   ("data", VList [okx_instrument "BTC-USD-231229" "42000.5"])].

Definition okx_single : World :=
  world [(okx_url, mkResponse 200 json_ct (Some (VDict one_instrument)))].

Definition two_instruments : list (string * value) :=
  [("code", VStr "0"); ("msg", VStr "");
   ("data", VList [okx_instrument "BTC-USD-231229" "42000.5";
                   okx_instrument "BTC-USD-240329" "42100.5"])].

(** The listing answers, the instruments endpoint does not. *)
Definition okx_no_expiry : World :=
  world [(okx_url, mkResponse 200 json_ct (Some (VDict two_instruments)))].

Definition index_records : list value :=
  [binance_record "BTCUSD" "42000.12";
   binance_record "BTCUSD_231229" "42500.00";
   binance_record "ETHUSD" "2200.5"].

Definition volume_records : list value :=
  [VDict [("symbol", VStr "BTCUSD"); ("volume", VStr "1000.0")];
   VDict [("symbol", VStr "ETHUSD"); ("volume", VStr "500.0")]].

(** The index answers, the volume listing does not. *)
Definition binance_no_volumes : World :=
  world [(binance_url, mkResponse 200 json_ct (Some (VList index_records)))].

Definition perpetual : value := binance_record "BTCUSD_PERP" "42000.12".

Definition zero_rates : value :=
  VDict [("data", VDict [("currency", VStr "USD");
                         ("rates", VDict [("BTC", VStr "0.0")])])].

Definition coinbase_zero : World :=
  world [(coinbase_url, mkResponse 200 json_ct (Some zero_rates))].

Definition no_entry : Entry := mkEntry SPOT 0 0 0 (S754_zero false) "" "" 0.

(** The entries CEX builds from its canned ticker, and from the same
    ticker quoting a negative price after a blank. *)
Definition cex_entry : Entry :=
  Eval vm_compute in
  match @Cex._construct up (Cex.mkFetcher [btc_spot] "PRAGMA") btc_spot
          (cex_btc "42000.12") with
  | Return e => e
  | Raise _ => no_entry
  end.

Definition cex_negative_entry : Entry :=
  Eval vm_compute in
  match @Cex._construct up (Cex.mkFetcher [btc_spot] "PRAGMA") btc_spot
          (cex_btc " -42000.12") with
  | Return e => e
  | Raise _ => no_entry
  end.

End Scenarios.

(* ===================================================================== *)
(** * The run time on known values *)
(* ===================================================================== *)

Module PyExamples.

(** Slices clamp their bounds and count negative bounds from the end. *)
Example slice_inside : slice [1; 2; 3; 4; 5] 1 3 = [2; 3].
Proof. reflexivity. Qed.

Example slice_past_the_end : slice [1; 2; 3; 4; 5] 3 9 = [4; 5].
Proof. reflexivity. Qed.

Example slice_negative : slice [1; 2; 3; 4; 5] 0 (-1) = [1; 2; 3; 4].
Proof. reflexivity. Qed.

Example slice_empty : slice [1; 2; 3; 4; 5] (-1) (-2) = [].
Proof. reflexivity. Qed.

(** [float("42000.12")] is 0x1.48203d70a3d71p+15, that is 5772452538498417 * 2^-37. *)
Example float_42000_12 :
  float_of_str "42000.12" = Return (S754_finite false 5772452538498417 (-37)).
Proof. vm_compute. reflexivity. Qed.

Example float_tenth :
  float_of_str "0.1" = Return (S754_finite false 7205759403792794 (-56)).
Proof. vm_compute. reflexivity. Qed.

Example float_exponent :
  float_of_str "-3.5e-3" = Return (S754_finite true 8070450532247929 (-61)).
Proof. vm_compute. reflexivity. Qed.

Example float_ties_to_even :
  float_of_str "9007199254740993" = Return (S754_finite false 4503599627370496 1).
Proof. vm_compute. reflexivity. Qed.

Example float_ignores_white_space :
  float_of_str "  -3.5e-3 " = float_of_str "-3.5e-3"
  /\ exists e, float_of_str "- 3.5" = Raise e.
Proof. split; [reflexivity|eexists; reflexivity]. Qed.

Example float_rejects_words : exists e, float_of_str "abc" = Raise e.
Proof. eexists. reflexivity. Qed.

(** [int(0.29 * 10 ** 2)] is 28, [int(1562306400123 / 1000)] is 1562306400. *)
Example int_of_product :
  py_bind (float_of_str "0.29") (fun x => int_of_float (fmul x (float_of_Z 100)))
  = Return 28.
Proof. vm_compute. reflexivity. Qed.

Example int_of_quotient :
  py_bind (int_truediv 1562306400123 1000) int_of_float = Return 1562306400.
Proof. vm_compute. reflexivity. Qed.

Example split_dated : split "_" "BTCUSD_231229" = ["BTCUSD"; "231229"].
Proof. reflexivity. Qed.

Example split_keeps_empty_parts : split "_" "a__b_" = ["a"; ""; "b"; ""].
Proof. reflexivity. Qed.

Example contains_inside : contains "BTCUSD" "XBTCUSDT" = true.
Proof. reflexivity. Qed.

(** [strptime] takes the first alternatives that match: "23129" is the
    9th of December, "231 1" the 1st of January. *)
Example strptime_six_digits :
  strptime_yymmdd "231229" = Return (mkDatetime 2023 12 29 0 0 0).
Proof. reflexivity. Qed.

Example strptime_five_digits :
  strptime_yymmdd "23129" = Return (mkDatetime 2023 12 9 0 0 0).
Proof. reflexivity. Qed.

Example strptime_space_day :
  strptime_yymmdd "231 1" = Return (mkDatetime 2023 1 1 0 0 0).
Proof. reflexivity. Qed.

Example strptime_last_century :
  strptime_yymmdd "691231" = Return (mkDatetime 1969 12 31 0 0 0).
Proof. reflexivity. Qed.

Example strptime_no_such_day : exists e, strptime_yymmdd "230229" = Raise e.
Proof. eexists. reflexivity. Qed.

Example strptime_leftover : exists e, strptime_yymmdd "2312299" = Raise e.
Proof. eexists. reflexivity. Qed.

Example timestamp_of_settlement :
  timestamp_utc (mkDatetime 2023 12 29 8 0 0) = 1703836800.
Proof. reflexivity. Qed.

Example timestamp_before_epoch :
  timestamp_utc (mkDatetime 1969 12 31 8 0 0) = -57600.
Proof. reflexivity. Qed.

End PyExamples.

(* ===================================================================== *)
(** * Properties of the publisher (oracle.py) *)
(* ===================================================================== *)

Module OracleFacts.
Import Oracle.

Section Pages.
Context {A : Type}.
Implicit Types (l : list A) (p n : nat).

Lemma ceil_div_upper n p : (0 < p)%nat -> (n <= ceil_div n p * p)%nat.
Proof.
  intros Hp. unfold ceil_div.
  pose proof (Nat.div_mod (n + p - 1) p ltac:(lia)) as E.
  pose proof (Nat.mod_upper_bound (n + p - 1) p ltac:(lia)) as B.
  nia.
Qed.

Lemma ceil_div_lower n p k :
  (0 < p)%nat -> (k < ceil_div n p)%nat -> (k * p < n)%nat.
Proof.
  intros Hp Hk. unfold ceil_div in Hk.
  pose proof (Nat.div_mod (n + p - 1) p ltac:(lia)) as E.
  pose proof (Nat.mod_upper_bound (n + p - 1) p ltac:(lia)) as B.
  nia.
Qed.

Lemma ceil_div_0 p : ceil_div 0 p = 0%nat.
Proof.
  unfold ceil_div. destruct p as [|p]; [reflexivity|].
  apply Nat.div_small. lia.
Qed.

Lemma length_pages p l : length (pages p l) = ceil_div (length l) p.
Proof. unfold pages. now rewrite length_map, length_seq. Qed.

Lemma length_page p l i :
  length (page p l i) = Nat.min p (length l - i * p).
Proof. unfold page. now rewrite length_firstn, length_skipn. Qed.

Lemma pages_bounded p l :
  (0 < p)%nat ->
  Forall (fun pg => (0 < length pg <= p)%nat) (pages p l).
Proof.
  intros Hp. unfold pages. apply Forall_forall. intros pg Hin.
  apply in_map_iff in Hin. destruct Hin as (i & <- & Hi).
  apply in_seq in Hi. rewrite length_page.
  pose proof (ceil_div_lower (length l) p i Hp ltac:(lia)). lia.
Qed.

(** Concatenating the first [k] pages gives the first [k * p] elements. *)
Lemma concat_first_pages p l k :
  concat (map (page p l) (seq 0 k)) = firstn (k * p) l.
Proof.
  induction k as [|k IH]; [reflexivity|].
  rewrite seq_S, map_app, concat_app, IH. cbn [map concat Nat.add].
  rewrite app_nil_r. unfold page.
  replace (S k * p)%nat with (k * p + p)%nat by lia.
  rewrite <- (firstn_skipn (k * p) (firstn (k * p + p) l)).
  f_equal.
  - rewrite firstn_firstn. f_equal. lia.
  - rewrite skipn_firstn_comm. f_equal. lia.
Qed.

Lemma concat_pages p l : (0 < p)%nat -> concat (pages p l) = l.
Proof.
  intros Hp. unfold pages. rewrite concat_first_pages.
  apply firstn_all2. now apply ceil_div_upper.
Qed.

End Pages.

(** ** Slices at natural indices *)

Lemma slice_nat {A} (l : list A) (a b : nat) :
  slice l (Z.of_nat a) (Z.of_nat a + Z.of_nat b) = firstn b (skipn a l).
Proof.
  unfold slice, clamp_index, len.
  destruct (Z.ltb_spec (Z.of_nat a) 0); [lia|].
  destruct (Z.ltb_spec (Z.of_nat a + Z.of_nat b) 0); [lia|].
  destruct (Nat.le_gt_cases a (length l)) as [Hle|Hgt].
  - rewrite (Z.min_l (Z.of_nat a)) by lia. rewrite Nat2Z.id.
    destruct (Nat.le_gt_cases (a + b) (length l)).
    + rewrite Z.min_l by lia. f_equal. lia.
    + rewrite Z.min_r by lia.
      rewrite (firstn_all2 (n := b)) by (rewrite length_skipn; lia).
      apply firstn_all2. rewrite length_skipn. lia.
  - rewrite !Z.min_r by lia. rewrite Z.sub_diag. cbn [Z.to_nat firstn].
    rewrite (skipn_all2 (n := a)) by lia. now rewrite firstn_nil.
Qed.

Section WithContract.
Context {Ser : Serialization} {Ctr : Contract}.

Lemma handles_from_app c ops1 ops2 :
  handles_from c (ops1 ++ ops2)
  = handles_from c ops1 ++ handles_from (c ++ ops1) ops2.
Proof.
  revert c. induction ops1 as [|op ops1 IH]; intros c; cbn.
  - now rewrite app_nil_r.
  - rewrite IH. now rewrite <- app_assoc.
Qed.

Lemma length_handles_from c ops : length (handles_from c ops) = length ops.
Proof. revert c. induction ops; intros; cbn; auto. Qed.

Lemma map_invoke_transaction_handles c ops :
  map invoke_transaction (handles_from c ops) = ops.
Proof. revert c. induction ops; intros; cbn; f_equal; auto. Qed.

(** ** The paging loop

    All four paged writers run the same loop: a cursor [ix] that advances
    by the page size, a body that submits the slice at the cursor and
    folds the handle into the local state. *)
Section PagingLoop.
Variables (S X : Type) (s : list X) (p : nat).
Variables (ix_of : S -> Z) (cond : S -> bool) (body : S -> M S).
Variables (mkop : list X -> rpc) (step : S -> InvokeResult -> S).
Hypothesis p_pos : (0 < p)%nat.
Hypothesis cond_spec : forall st, cond st = (ix_of st <? len s).
Hypothesis body_spec : forall st c,
  let op := mkop (slice s (ix_of st) (ix_of st + Z.of_nat p)) in
  body st c = Done (step st (mkInvokeResult (tx_hash c op) op)) (c ++ [op]).
Hypothesis step_ix : forall st h, ix_of (step st h) = ix_of st + Z.of_nat p.

Lemma paging_loop_from m : forall k fuel st c,
  ix_of st = Z.of_nat (k * p) ->
  (k + m = ceil_div (length s) p)%nat ->
  (m < fuel)%nat ->
  let ops := map mkop (map (page p s) (seq k m)) in
  while fuel cond body st c
  = Done (fold_left step (handles_from c ops) st) (c ++ ops).
Proof.
  induction m as [|m IH]; intros k fuel st c Hix Hk Hfuel ops; subst ops.
  - destruct fuel as [|fuel]; [lia|]. cbn.
    rewrite cond_spec, Hix.
    pose proof (ceil_div_upper (length s) p p_pos).
    destruct (Z.ltb_spec (Z.of_nat (k * p)) (len s)) as [Hlt|_].
    + unfold len in Hlt. replace k with (ceil_div (length s) p) in Hlt by lia. lia.
    + now rewrite app_nil_r.
  - destruct fuel as [|fuel]; [lia|]. cbn [while].
    rewrite cond_spec, Hix.
    pose proof (ceil_div_lower (length s) p k p_pos ltac:(lia)).
    destruct (Z.ltb_spec (Z.of_nat (k * p)) (len s)) as [_|Hge];
      [|unfold len in Hge; lia].
    rewrite body_spec, Hix, slice_nat.
    rewrite IH with (k := Datatypes.S k); try lia.
    + cbn [seq map handles_from fold_left]. unfold page at 3.
      now rewrite <- app_assoc.
    + rewrite step_ix, Hix. lia.
Qed.

Lemma paging_loop fuel st c :
  ix_of st = 0 ->
  (length s < fuel)%nat ->
  let ops := map mkop (pages p s) in
  while fuel cond body st c
  = Done (fold_left step (handles_from c ops) st) (c ++ ops).
Proof.
  intros Hix Hfuel. unfold pages.
  apply paging_loop_from with (k := 0%nat); auto.
  pose proof (ceil_div_lower (length s) p (ceil_div (length s) p - 1) p_pos).
  destruct (ceil_div (length s) p); nia.
Qed.

End PagingLoop.

(** ** [publish_many] *)

Lemma fold_collect (p : Z) (hs : list InvokeResult) : forall ix invs,
  fold_left (fun (st : Z * list InvokeResult) h => (fst st + p, snd st ++ [h]))
    hs (ix, invs)
  = (ix + len hs * p, invs ++ hs).
Proof.
  unfold len. induction hs as [|h hs IH]; intros ix invs.
  - cbn. rewrite app_nil_r. f_equal. lia.
  - cbn [fold_left fst snd]. rewrite IH. rewrite <- app_assoc. cbn [app].
    f_equal. cbn [length]. lia.
Qed.

(** One paged group of [publish_many]: the loop submits the pages of the
    group in order and appends their handles to [invocations]. *)
Lemma publish_loop (tag : serialized_entry -> envelope)
  (s : list serialized_entry) (p : Z) (max_fee : Z) fuel invs c :
  0 < p -> (length s < fuel)%nat ->
  let ops :=
    map (fun pg => Invoke "publish_data_entries" [A_entries (map tag pg)] max_fee)
      (pages (Z.to_nat p) s) in
  bind
    (while fuel
       (fun '(ix, _) => ix <? len s)
       (fun '(ix, invocations) =>
          bind (invoke "publish_data_entries"
                  [A_entries (map tag (slice s ix (ix + p)))] max_fee)
            (fun invocation => ret (ix + p, invocations ++ [invocation])))
       (0, invs))
    (fun '(_, invocations) => ret invocations) c
  = Done (invs ++ handles_from c ops) (c ++ ops).
Proof.
  intros Hp Hfuel ops. unfold bind at 1.
  rewrite (paging_loop (Z * list InvokeResult) serialized_entry s (Z.to_nat p) fst
             _ _
             (fun pg => Invoke "publish_data_entries" [A_entries (map tag pg)] max_fee)
             (fun st h => (fst st + p, snd st ++ [h]))).
  - fold ops. rewrite fold_collect. reflexivity.
  - lia.
  - now intros [ix invs'].
  - intros [ix invs'] c'. cbn. unfold bind, invoke, ret. cbn.
    rewrite Z2Nat.id by lia. reflexivity.
  - intros [ix invs'] h. cbn. lia.
  - reflexivity.
  - exact Hfuel.
Qed.

(** One group of [publish_many] under any valid setting. *)
Lemma publish_group (tag : serialized_entry -> envelope)
  (s : list serialized_entry) (pagination : option Z) (max_fee : Z) fuel invs c :
  valid_pagination pagination -> (length s < fuel)%nat ->
  let ops :=
    map (fun pg => Invoke "publish_data_entries" [A_entries (map tag pg)] max_fee)
      (paged pagination s) in
  (if truthy pagination then
     bind
       (while fuel
          (fun '(ix, _) => ix <? len s)
          (fun '(ix, invocations) =>
             bind (invoke "publish_data_entries"
                     [A_entries (map tag (slice s ix (ix + int_of pagination)))]
                     max_fee)
               (fun invocation =>
                  ret (ix + int_of pagination, invocations ++ [invocation])))
          (0, invs))
       (fun '(_, invocations) => ret invocations)
   else if len s >? 0 then
     bind (invoke "publish_data_entries" [A_entries (map tag s)] max_fee)
       (fun invocation => ret (invs ++ [invocation]))
   else ret invs) c
  = Done (invs ++ handles_from c ops) (c ++ ops).
Proof.
  intros Hv Hfuel ops. subst ops. unfold paged.
  destruct (truthy pagination) eqn:Ht.
  - destruct pagination as [p|]; [|discriminate]. cbn in Ht, Hv. cbn [int_of].
    apply publish_loop; [|exact Hfuel].
    destruct (Z.eqb_spec p 0); [discriminate|lia].
  - destruct (len s >? 0); cbn; unfold ret.
    + reflexivity.
    + now rewrite !app_nil_r.
Qed.

(** What [publish_many] does on a non-empty input. *)
Lemma publish_many_run self entries pagination max_fee fuel c :
  entries <> [] -> valid_pagination pagination ->
  (length entries < fuel)%nat ->
  let ops :=
    map (spot_page_op max_fee) (paged pagination (SpotEntry_serialize_entries entries))
    ++ map (future_page_op max_fee)
         (paged pagination (FutureEntry_serialize_entries entries)) in
  publish_many fuel self entries pagination max_fee c
  = Done (Some (handles_from c ops)) (c ++ ops).
Proof.
  intros Hne Hv Hfuel ops. unfold publish_many.
  destruct (Z.eqb_spec (len entries) 0) as [E|_].
  { destruct entries; [congruence|]. unfold len in E. cbn in E. lia. }
  assert (Hs : (length (SpotEntry_serialize_entries entries) < fuel)%nat).
  { unfold SpotEntry_serialize_entries. rewrite length_map.
    pose proof (filter_length_le isinstance_SpotEntry entries). lia. }
  assert (Hf : (length (FutureEntry_serialize_entries entries) < fuel)%nat).
  { unfold FutureEntry_serialize_entries. rewrite length_map.
    pose proof (filter_length_le isinstance_FutureEntry entries). lia. }
  unfold bind at 1.
  rewrite (publish_group Spot _ pagination max_fee fuel [] c Hv Hs).
  unfold bind at 1.
  rewrite (publish_group Future _ pagination max_fee fuel _ _ Hv Hf).
  unfold ret. subst ops. unfold spot_page_op, future_page_op.
  rewrite handles_from_app, app_assoc. reflexivity.
Qed.

Lemma kind_exclusive (e : Entry) :
  isinstance_FutureEntry e = negb (isinstance_SpotEntry e).
Proof. unfold isinstance_FutureEntry, isinstance_SpotEntry. now destruct (kind e). Qed.

Lemma groups_partition (entries : list Entry) :
  (length (SpotEntry_serialize_entries entries)
   + length (FutureEntry_serialize_entries entries) = length entries)%nat.
Proof.
  unfold SpotEntry_serialize_entries, FutureEntry_serialize_entries.
  rewrite !length_map.
  induction entries as [|e entries IH]; [reflexivity|].
  cbn [filter]. rewrite kind_exclusive.
  destruct (isinstance_SpotEntry e); cbn [negb length]; lia.
Qed.

Lemma filter_all {A} (f : A -> bool) (l : list A) :
  forallb f l = true -> filter f l = l.
Proof.
  induction l as [|a l IH]; [reflexivity|]. cbn.
  destruct (f a); [|discriminate]. cbn. intros H. now rewrite IH.
Qed.

Lemma filter_none {A} (f g : A -> bool) (l : list A) :
  (forall a, g a = negb (f a)) -> forallb f l = true -> filter g l = [].
Proof.
  intros Hfg. induction l as [|a l IH]; [reflexivity|]. cbn.
  rewrite Hfg. destruct (f a); [|discriminate]. cbn. exact IH.
Qed.

(** The sizes of the pages depend on the length of the group only. *)
Lemma page_sizes {A} (p : nat) (l : list A) :
  map (@length A) (pages p l)
  = map (fun i => Nat.min p (length l - i * p)) (seq 0 (ceil_div (length l) p)).
Proof.
  unfold pages. rewrite map_map. apply map_ext. intros i. apply length_page.
Qed.

Lemma payload_spot_page max_fee pg :
  length (payload (spot_page_op max_fee pg)) = length pg.
Proof. cbn. apply length_map. Qed.

Lemma payload_future_page max_fee pg :
  length (payload (future_page_op max_fee pg)) = length pg.
Proof. cbn. apply length_map. Qed.

Lemma pages_nil {A} (p : nat) : pages p (@nil A) = [].
Proof. unfold pages. cbn [length]. now rewrite ceil_div_0. Qed.

Lemma sizes_85 {A} (l : list A) :
  length l = 85%nat -> map (@length A) (pages 40 l) = [40; 40; 5]%nat.
Proof. intros H. rewrite page_sizes, H. reflexivity. Qed.

(** C1. On a non-empty entry list and a positive page size [p],
    [publish_many] splits the entries into the spot group and the future
    group (every entry in exactly one of them), and for each group of size
    n submits ceil(n/p) writes, one after the other, spot pages first: each
    page holds between 1 and [p] entries, and the pages of a group
    concatenated in the order of submission are the group itself, so they
    do not overlap and cover it exactly once in the original order. With
    the default page size 40, 85 entries of one kind are sent as three
    writes of 40, 40 and 5 entries. *)
Theorem publish_many_paginates (self : Client) (entries : list Entry) (p max_fee : Z)
  (fuel : nat) (c : chain) :
  entries <> [] -> 0 < p -> (length entries < fuel)%nat ->
  let spot := SpotEntry_serialize_entries entries in
  let future := FutureEntry_serialize_entries entries in
  let spot_pages := pages (Z.to_nat p) spot in
  let future_pages := pages (Z.to_nat p) future in
  let ops := map (spot_page_op max_fee) spot_pages
             ++ map (future_page_op max_fee) future_pages in
  (length spot + length future = length entries)%nat
  /\ publish_many fuel self entries (Some p) max_fee c
     = Done (Some (handles_from c ops)) (c ++ ops)
  /\ length spot_pages = ceil_div (length spot) (Z.to_nat p)
  /\ length future_pages = ceil_div (length future) (Z.to_nat p)
  /\ Forall (fun pg => (0 < length pg <= Z.to_nat p)%nat) (spot_pages ++ future_pages)
  /\ concat spot_pages = spot
  /\ concat future_pages = future
  /\ (length entries = 85%nat -> Some p = publish_many_default_pagination ->
      (forallb isinstance_SpotEntry entries = true ->
       map (fun op => length (payload op)) ops = [40; 40; 5]%nat)
      /\ (forallb isinstance_FutureEntry entries = true ->
          map (fun op => length (payload op)) ops = [40; 40; 5]%nat)).
Proof.
  intros Hne Hp Hfuel spot future spot_pages future_pages ops.
  assert (Hpn : (0 < Z.to_nat p)%nat) by lia.
  split; [apply groups_partition|].
  split.
  { pose proof (publish_many_run self entries (Some p) max_fee fuel c Hne) as R.
    cbn [valid_pagination] in R. specialize (R ltac:(lia) Hfuel).
    unfold paged in R. cbn [truthy int_of] in R.
    destruct (Z.eqb_spec p 0); [lia|]. exact R. }
  split; [apply length_pages|].
  split; [apply length_pages|].
  split; [apply Forall_app; split; now apply pages_bounded|].
  split; [now apply concat_pages|].
  split; [now apply concat_pages|].
  intros H85 Hdef. injection Hdef as ->. subst ops spot_pages future_pages.
  change (Z.to_nat 40) with 40%nat.
  rewrite map_app, !map_map.
  rewrite (map_ext _ _ (payload_spot_page max_fee)).
  rewrite (map_ext _ _ (payload_future_page max_fee)).
  split; intros Hall.
  - assert (Es : length spot = 85%nat).
    { subst spot. unfold SpotEntry_serialize_entries.
      now rewrite length_map, filter_all. }
    assert (Ef : future = []).
    { subst future. unfold FutureEntry_serialize_entries.
      now rewrite (filter_none _ _ _ kind_exclusive Hall). }
    rewrite Ef, pages_nil, app_nil_r. now apply sizes_85.
  - assert (Ef : length future = 85%nat).
    { subst future. unfold FutureEntry_serialize_entries.
      now rewrite length_map, filter_all. }
    assert (Es : spot = []).
    { subst spot. unfold SpotEntry_serialize_entries.
      rewrite (filter_none isinstance_FutureEntry); auto.
      intros a. rewrite kind_exclusive. now destruct (isinstance_SpotEntry a). }
    rewrite Es, pages_nil. cbn [map app]. now apply sizes_85.
Qed.

Lemma concat_paged {A} (pagination : option Z) (l : list A) :
  valid_pagination pagination -> concat (paged pagination l) = l.
Proof.
  intros Hv. unfold paged. destruct (truthy pagination) eqn:Ht.
  - destruct pagination as [p|]; [|discriminate]. cbn in *.
    destruct (Z.eqb_spec p 0); [discriminate|]. apply concat_pages. lia.
  - destruct l; cbn; [reflexivity|]. now rewrite app_nil_r.
Qed.

Lemma paged_nil {A} (pagination : option Z) : paged pagination (@nil A) = [].
Proof. unfold paged. rewrite pages_nil. now destruct (truthy pagination). Qed.

(** C9, as amended. Under every pagination setting that is none or a
    page size that is not negative, and for every entry list, however spot and future entries
    are interleaved in it, [publish_many] submits the pages of the spot
    group first and the pages of the future group after them, and the list
    it returns is the handles of the spot pages followed by the handles of
    the future pages (on the empty list it submits nothing and returns
    None). *)
Theorem publish_many_spot_pages_first (self : Client) (entries : list Entry)
  (pagination : option Z) (max_fee : Z) (fuel : nat) (c : chain) :
  valid_pagination pagination -> (length entries < fuel)%nat ->
  let spot := SpotEntry_serialize_entries entries in
  let future := FutureEntry_serialize_entries entries in
  let spot_ops := map (spot_page_op max_fee) (paged pagination spot) in
  let future_ops := map (future_page_op max_fee) (paged pagination future) in
  let spot_handles := handles_from c spot_ops in
  let future_handles := handles_from (c ++ spot_ops) future_ops in
  publish_many fuel self entries pagination max_fee c
  = Done (if len entries =? 0 then None else Some (spot_handles ++ future_handles))
      (c ++ spot_ops ++ future_ops)
  /\ concat (paged pagination spot) = spot
  /\ concat (paged pagination future) = future
  /\ map invoke_transaction spot_handles = spot_ops
  /\ map invoke_transaction future_handles = future_ops.
Proof.
  intros Hv Hfuel spot future spot_ops future_ops spot_handles future_handles.
  split;
    [|subst spot_handles future_handles; repeat split;
      solve [now apply concat_paged | apply map_invoke_transaction_handles]].
  destruct entries as [|e entries].
  - subst spot_ops future_ops spot future. cbn.
    rewrite !paged_nil. cbn. now rewrite app_nil_r.
  - rewrite publish_many_run by (auto; discriminate).
    replace (len (e :: entries) =? 0) with false
      by (symmetry; apply Z.eqb_neq; unfold len; cbn [length]; lia).
    subst spot_handles future_handles.
    now rewrite handles_from_app.
Qed.

(** A negative page size is outside the valid settings: the cursor moves
    backwards and the first loop never ends, whatever the fuel. *)
Lemma negative_page_size_loops (s : list serialized_entry) (max_fee : Z) :
  s <> [] ->
  forall fuel ix invs c, ix <= 0 ->
  while fuel
    (fun '(ix, _) => ix <? len s)
    (fun '(ix, invocations) =>
       bind (invoke "publish_data_entries"
               [A_entries (map Spot (slice s ix (ix + -1)))] max_fee)
         (fun invocation => ret (ix + -1, invocations ++ [invocation])))
    (ix, invs) c
  = @OutOfFuel _ (Z * list InvokeResult).
Proof.
  intros Hs. induction fuel as [|fuel IH]; intros ix invs c Hix; [reflexivity|].
  cbn [while].
  replace (ix <? len s) with true.
  - unfold bind at 1, invoke, ret. apply IH. lia.
  - symmetry. apply Z.ltb_lt. unfold len. destruct s; [congruence|]. cbn [length]. lia.
Qed.

Lemma publish_many_negative_page_size (self : Client) (e : Entry) (entries : list Entry)
  (max_fee : Z) (c : chain) :
  isinstance_SpotEntry e = true ->
  forall fuel, publish_many fuel self (e :: entries) (Some (-1)) max_fee c = OutOfFuel.
Proof.
  intros He fuel. unfold publish_many.
  replace (len (e :: entries) =? 0) with false
    by (symmetry; apply Z.eqb_neq; unfold len; cbn [length]; lia).
  cbn [truthy Z.eqb negb int_of].
  unfold bind at 1. unfold bind at 1.
  rewrite negative_page_size_loops; [reflexivity| |lia].
  unfold SpotEntry_serialize_entries. cbn [filter]. rewrite He. discriminate.
Qed.

(** ** The write guard *)

Lemma set_checkpoints_guard fuel pair_ids mode max_fee pagination c :
  set_checkpoints fuel (mkClient false) pair_ids mode max_fee pagination c
  = Raised (AttributeError must_set_account) c.
Proof. reflexivity. Qed.

Lemma set_future_checkpoints_guard fuel pair_ids expiries mode max_fee pagination c :
  set_future_checkpoints fuel (mkClient false) pair_ids expiries mode max_fee pagination c
  = Raised (AttributeError must_set_account) c.
Proof. reflexivity. Qed.

Lemma deprecated_writes_guard new_entry pair_id expiry mode max_fee c :
  publish_spot_entry (mkClient false) new_entry max_fee c
  = Raised (AttributeError must_set_account) c
  /\ set_checkpoint (mkClient false) pair_id mode max_fee c
     = Raised (AttributeError must_set_account) c
  /\ set_future_checkpoint (mkClient false) pair_id expiry mode max_fee c
     = Raised (AttributeError must_set_account) c.
Proof. repeat split. Qed.

(** C2, as amended. Without an account ([is_user_client] false) the two
    checkpoint writers raise AttributeError before anything reaches the
    chain, whatever the pair ids, the page size and the fuel; and
    [publish_many] on the empty entry list returns None and leaves the
    chain as it was, with or without an account: it raises nothing.
    (On a non-empty list [publish_many] checks nothing itself and hands
    the first page to the contract; what the contract does without an
    account is outside these sources and is not stated.) *)
Theorem checkpoint_writers_guarded (c : chain) :
  (forall fuel pair_ids mode max_fee pagination,
     set_checkpoints fuel (mkClient false) pair_ids mode max_fee pagination c
     = Raised (AttributeError must_set_account) c)
  /\ (forall fuel pair_ids expiries mode max_fee pagination,
        set_future_checkpoints fuel (mkClient false) pair_ids expiries mode
          max_fee pagination c
        = Raised (AttributeError must_set_account) c)
  /\ (forall fuel self pagination max_fee,
        publish_many fuel self [] pagination max_fee c = Done None c).
Proof.
  split; [|split].
  - intros. apply set_checkpoints_guard.
  - intros. apply set_future_checkpoints_guard.
  - intros fuel self pagination max_fee. reflexivity.
Qed.

(** ** The checkpoint writers *)

Lemma last_default {A} (l : list A) : forall b d d',
  last (b :: l) d = last (b :: l) d'.
Proof.
  induction l as [|x l IH]; intros b d d'; [reflexivity|].
  change (last (x :: l) d = last (x :: l) d'). apply IH.
Qed.

Lemma last_cons {A} (a d : A) (l : list A) : last (a :: l) d = last l a.
Proof.
  destruct l as [|b l]; [reflexivity|].
  change (last (b :: l) d = last (b :: l) a). apply last_default.
Qed.

Lemma fold_keep_last (p : Z) (hs : list InvokeResult) : forall ix inv,
  fold_left (fun (st : Z * option InvokeResult) h => (fst st + p, Some h))
    hs (ix, inv)
  = (ix + len hs * p, last (map Some hs) inv).
Proof.
  unfold len. induction hs as [|h hs IH]; intros ix inv.
  - cbn. f_equal. lia.
  - cbn [fold_left fst map]. rewrite IH, last_cons. f_equal. cbn [length]. lia.
Qed.

(** The loop of the two checkpoint writers: the pages of [pair_ids] are
    written in order, and the local [invocation] ends up bound to the
    handle of the last page. *)
Lemma checkpoint_loop (fn : string) (args_of : list Z -> list arg) (max_fee : Z)
  (pair_ids : list Z) (p : Z) fuel c :
  0 < p -> (length pair_ids < fuel)%nat ->
  let ops := map (fun pg => Invoke fn (args_of pg) max_fee)
               (pages (Z.to_nat p) pair_ids) in
  bind
    (while fuel
       (fun '(ix, _) => ix <? len pair_ids)
       (fun '(ix, _) =>
          bind (invoke fn (args_of (slice pair_ids ix (ix + p))) max_fee)
            (fun invocation => ret (ix + p, Some invocation)))
       (0, @None InvokeResult))
    (fun '(_, invocation) => ret invocation) c
  = Done (last (map Some (handles_from c ops)) None) (c ++ ops).
Proof.
  intros Hp Hfuel ops. unfold bind at 1.
  rewrite (paging_loop (Z * option InvokeResult) Z pair_ids (Z.to_nat p) fst
             _ _ (fun pg => Invoke fn (args_of pg) max_fee)
             (fun st h => (fst st + p, Some h))).
  - fold ops. rewrite fold_keep_last. reflexivity.
  - lia.
  - now intros [ix inv].
  - intros [ix inv] c'. cbn. unfold bind, invoke, ret.
    rewrite Z2Nat.id by lia. reflexivity.
  - intros [ix inv] h. cbn. lia.
  - reflexivity.
  - exact Hfuel.
Qed.

Lemma last_handle c (ops : list rpc) :
  ops <> [] ->
  exists earlier h,
    handles_from c ops = earlier ++ [h]
    /\ last (map Some (handles_from c ops)) None = Some h.
Proof.
  intros Hne.
  destruct (exists_last (l := handles_from c ops)) as (earlier & h & E).
  { intros E. apply (f_equal (@length _)) in E.
    rewrite length_handles_from in E. destruct ops; [congruence|discriminate]. }
  exists earlier, h. split; [exact E|].
  rewrite E, map_app. cbn [map]. apply last_last.
Qed.

Lemma pages_nonempty {A} (p : nat) (l : list A) :
  (0 < p)%nat -> l <> [] -> pages p l <> [].
Proof.
  intros Hp Hl E. apply (f_equal (@length _)) in E.
  rewrite length_pages in E. cbn in E.
  pose proof (ceil_div_upper (length l) p Hp).
  destruct l; [congruence|]. cbn [length] in *. nia.
Qed.

(** [set_checkpoints] with an account, a positive page size and at least
    one pair id. *)
Lemma set_checkpoints_run (self : Client) (pair_ids : list Z) (mode : AggregationMode)
  (max_fee p : Z) (fuel : nat) (c : chain) :
  is_user_client self = true -> pair_ids <> [] -> 0 < p ->
  (length pair_ids < fuel)%nat ->
  let ops := map (checkpoint_page_op mode max_fee) (pages (Z.to_nat p) pair_ids) in
  exists earlier h,
    handles_from c ops = earlier ++ [h]
    /\ set_checkpoints fuel self pair_ids mode max_fee (Some p) c = Done h (c ++ ops).
Proof.
  intros Hacc Hne Hp Hfuel ops.
  destruct (last_handle c ops) as (earlier & h & E & L).
  { subst ops. intros E. apply map_eq_nil in E.
    revert E. apply pages_nonempty; [lia|exact Hne]. }
  exists earlier, h. split; [exact E|].
  unfold set_checkpoints. rewrite Hacc. cbn [negb truthy int_of].
  destruct (Z.eqb_spec p 0); [lia|]. cbn [negb].
  pose proof (checkpoint_loop "set_checkpoints"
                (fun pg => [A_data_types
                              (map (fun pair_id => DataType_serialize SPOT pair_id None) pg);
                            A_mode (AggregationMode_serialize mode)])
                max_fee pair_ids p fuel c Hp Hfuel) as R.
  cbn beta zeta in R. unfold bind at 1. rewrite R.
  fold (checkpoint_page_op mode max_fee). fold ops. rewrite L. reflexivity.
Qed.

Lemma set_future_checkpoints_run (self : Client) (pair_ids expiry_timestamps : list Z)
  (mode : AggregationMode) (max_fee p : Z) (fuel : nat) (c : chain) :
  is_user_client self = true -> pair_ids <> [] -> 0 < p ->
  (length pair_ids < fuel)%nat ->
  let ops := map (future_checkpoint_page_op expiry_timestamps mode max_fee)
               (pages (Z.to_nat p) pair_ids) in
  exists earlier h,
    handles_from c ops = earlier ++ [h]
    /\ set_future_checkpoints fuel self pair_ids expiry_timestamps mode max_fee
         (Some p) c
       = Done h (c ++ ops).
Proof.
  intros Hacc Hne Hp Hfuel ops.
  destruct (last_handle c ops) as (earlier & h & E & L).
  { subst ops. intros E. apply map_eq_nil in E.
    revert E. apply pages_nonempty; [lia|exact Hne]. }
  exists earlier, h. split; [exact E|].
  unfold set_future_checkpoints. rewrite Hacc. cbn [negb truthy int_of].
  destruct (Z.eqb_spec p 0); [lia|]. cbn [negb].
  pose proof (checkpoint_loop "set_checkpoints"
                (fun pg => [A_ints pg; A_ints expiry_timestamps;
                            A_mode (AggregationMode_serialize mode)])
                max_fee pair_ids p fuel c Hp Hfuel) as R.
  cbn beta zeta in R. unfold bind at 1. rewrite R.
  fold (future_checkpoint_page_op expiry_timestamps mode max_fee).
  fold ops. rewrite L. reflexivity.
Qed.

Lemma set_checkpoints_empty (self : Client) mode max_fee p fuel c :
  is_user_client self = true -> 0 < p -> (0 < fuel)%nat ->
  set_checkpoints fuel self [] mode max_fee (Some p) c
  = Raised (UnboundLocalError "invocation") c.
Proof.
  intros Hacc Hp Hfuel. unfold set_checkpoints. rewrite Hacc. cbn [negb truthy].
  destruct (Z.eqb_spec p 0); [lia|]. destruct fuel; [lia|]. reflexivity.
Qed.

(** C6, as the code has it. With an account, a positive page size [p]
    (15 by default) and n >= 1 pair ids, [set_checkpoints] issues
    ceil(n/p) writes one after the other; their pages, concatenated in the
    order of submission, are the pair ids, so they cover the input exactly
    once in the original order. [set_future_checkpoints] pages the pair
    ids in the same way. Both return one handle: that of the last page. *)
Theorem checkpoints_paginate_return_last (self : Client)
  (pair_ids expiry_timestamps : list Z) (mode : AggregationMode)
  (max_fee p : Z) (fuel : nat) (c : chain) :
  is_user_client self = true -> pair_ids <> [] -> 0 < p ->
  (length pair_ids < fuel)%nat ->
  let id_pages := pages (Z.to_nat p) pair_ids in
  let ops := map (checkpoint_page_op mode max_fee) id_pages in
  set_checkpoints_default_pagination = Some 15
  /\ length id_pages = ceil_div (length pair_ids) (Z.to_nat p)
  /\ concat id_pages = pair_ids
  /\ (exists earlier h,
        handles_from c ops = earlier ++ [h]
        /\ set_checkpoints fuel self pair_ids mode max_fee (Some p) c
           = Done h (c ++ ops))
  /\ (exists future_ops earlier h,
        map checkpoint_pair_ids future_ops = id_pages
        /\ Forall (fun op => is_invoke op = true) future_ops
        /\ handles_from c future_ops = earlier ++ [h]
        /\ set_future_checkpoints fuel self pair_ids expiry_timestamps mode
             max_fee (Some p) c
           = Done h (c ++ future_ops)).
Proof.
  intros Hacc Hne Hp Hfuel id_pages ops.
  split; [reflexivity|].
  split; [apply length_pages|].
  split; [apply concat_pages; lia|].
  split; [now apply set_checkpoints_run|].
  destruct (set_future_checkpoints_run self pair_ids expiry_timestamps mode max_fee
              p fuel c Hacc Hne Hp Hfuel) as (earlier & h & E & R).
  eexists _, earlier, h. split; [|split; [|split; [exact E|exact R]]].
  - rewrite map_map. cbn [future_checkpoint_page_op checkpoint_pair_ids].
    apply map_id.
  - apply Forall_map. apply Forall_forall. reflexivity.
Qed.

(** ** The read path *)

(** C8, as the code has it. For a pair id given as a string or as an
    integer, [get_spot] and [get_future] each perform exactly one read:
    [get_data] when [sources] is None, [get_data_for_sources] when a source
    list is given, an empty list included; never both. *)
Theorem read_path_selection (pair_id : pair_id_arg) (expiry_timestamp : Z)
  (mode : AggregationMode) (sources : option (list Z)) (c : chain) :
  pair_id <> PairOther ->
  read_operation None = "get_data"
  /\ (forall l, read_operation (Some l) = "get_data_for_sources")
  /\ (exists r args,
        get_spot pair_id mode sources c
        = Done r (c ++ [Call (read_operation sources) args]))
  /\ (exists r args,
        get_future pair_id expiry_timestamp mode sources c
        = Done r (c ++ [Call (read_operation sources) args])).
Proof.
  intros Hpid. split; [reflexivity|]. split; [reflexivity|].
  split; destruct pair_id as [s|z|]; try congruence;
    destruct sources as [l|]; cbn; unfold bind, call, ret; cbn;
    eexists _, _; reflexivity.
Qed.

Lemma read_rejects_other_pair_id mode sources expiry_timestamp c :
  get_spot PairOther mode sources c
  = Raised (TypeError "Pair ID must be string (will be converted to felt) or integer") c
  /\ get_future PairOther expiry_timestamp mode sources c
     = Raised (TypeError "Pair ID must be string (will be converted to felt) or integer") c.
Proof. split; reflexivity. Qed.

End WithContract.

(** The theorem at five entries, three spot and two future, interleaved,
    with page size 2: three writes. *)
Lemma publish_many_paginates_witness :
  let entries := [Demo.spot_entry 1; Demo.future_entry 2; Demo.spot_entry 3;
                  Demo.spot_entry 4; Demo.future_entry 5] in
  let spot_op := @spot_page_op Demo.serialization default_max_fee in
  let future_op := @future_page_op Demo.serialization default_max_fee in
  (entries <> [] /\ 0 < 2 /\ (length entries < 6)%nat)
  /\ @publish_many Demo.serialization Demo.contract 6 (mkClient true) entries (Some 2)
       default_max_fee []
     = Done (Some [mkInvokeResult 0 (spot_op [Demo.spot_entry 1; Demo.spot_entry 3]);
                   mkInvokeResult 1 (spot_op [Demo.spot_entry 4]);
                   mkInvokeResult 2 (future_op [Demo.future_entry 2; Demo.future_entry 5])])
          [spot_op [Demo.spot_entry 1; Demo.spot_entry 3];
           spot_op [Demo.spot_entry 4];
           future_op [Demo.future_entry 2; Demo.future_entry 5]].
Proof.
  intros entries spot_op future_op.
  assert (H1 : entries <> []) by discriminate.
  assert (H2 : 0 < 2) by reflexivity.
  assert (H3 : (length entries < 6)%nat) by (cbn; repeat constructor).
  split; [now repeat split|].
  exact (proj1 (proj2 (@publish_many_paginates Demo.serialization Demo.contract
                         (mkClient true) entries 2 default_max_fee 6 [] H1 H2 H3))).
Defined.

(** The theorem at three entries, a spot one between two future ones,
    with pagination switched off: one write per group, spot first. *)
Lemma publish_many_spot_pages_first_witness :
  let entries := [Demo.future_entry 2; Demo.spot_entry 1; Demo.future_entry 5] in
  let spot_op := @spot_page_op Demo.serialization default_max_fee in
  let future_op := @future_page_op Demo.serialization default_max_fee in
  (valid_pagination None /\ (length entries < 4)%nat)
  /\ @publish_many Demo.serialization Demo.contract 4 (mkClient true) entries None
       default_max_fee []
     = Done (Some [mkInvokeResult 0 (spot_op [Demo.spot_entry 1]);
                   mkInvokeResult 1 (future_op [Demo.future_entry 2; Demo.future_entry 5])])
          [spot_op [Demo.spot_entry 1];
           future_op [Demo.future_entry 2; Demo.future_entry 5]].
Proof.
  intros entries spot_op future_op.
  assert (H1 : valid_pagination None) by exact I.
  assert (H2 : (length entries < 4)%nat) by (cbn; repeat constructor).
  split; [now split|].
  exact (proj1 (@publish_many_spot_pages_first Demo.serialization Demo.contract
                  (mkClient true) entries None default_max_fee 4 [] H1 H2)).
Defined.

(** C9 as stated fails: it is not for every pagination setting and every
    entry list. On the page size -1 the call never returns, whatever the
    fuel, so no handle list comes back; and on the empty entry list what
    comes back is None, not a list of handles. *)
Lemma publish_many_not_every_setting :
  (forall fuel,
     @publish_many Demo.serialization Demo.contract fuel (mkClient true)
       [Demo.spot_entry 1; Demo.future_entry 2] (Some (-1)) default_max_fee []
     = OutOfFuel)
  /\ @publish_many Demo.serialization Demo.contract 3 (mkClient true) []
       publish_many_default_pagination default_max_fee []
     = Done None [].
Proof.
  split; [|reflexivity].
  intros fuel. now apply publish_many_negative_page_size.
Qed.

(** C2 as stated fails: without an account, [publish_many] on the empty
    entry list raises no precondition failure; it returns None. *)
Lemma publish_many_empty_without_account :
  @publish_many Demo.serialization Demo.contract 3 (mkClient false) []
    publish_many_default_pagination default_max_fee []
  = Done None []
  /\ forall e c',
       @publish_many Demo.serialization Demo.contract 3 (mkClient false) []
         publish_many_default_pagination default_max_fee []
       <> Raised e c'.
Proof. split; [reflexivity|discriminate]. Qed.

(** C6 as stated fails: three pair ids at page size 2 are written as two
    pages, and what comes back is a single handle, not one per page. *)
Lemma set_checkpoints_single_handle :
  exists h c',
    @set_checkpoints Demo.serialization Demo.contract 4 (mkClient true)
      [1; 2; 3] Demo.Median default_max_fee (Some 2) []
    = Done h c'
    /\ length c' = 2%nat
    /\ ~ one_handle_per_page [h] [] c'.
Proof.
  eexists _, _. split; [reflexivity|]. split; [reflexivity|].
  unfold one_handle_per_page. cbn. discriminate.
Qed.

(** The theorem at the same three pair ids: two pages, and the handle of
    the second. *)
Lemma checkpoints_paginate_return_last_witness :
  let ops := map (@checkpoint_page_op Demo.serialization Demo.Median default_max_fee)
               [[1; 2]; [3]] in
  (is_user_client (mkClient true) = true /\ [1; 2; 3] <> [] /\ 0 < 2
   /\ (length [1; 2; 3] < 4)%nat)
  /\ exists earlier h,
       @handles_from Demo.serialization Demo.contract [] ops = earlier ++ [h]
       /\ @set_checkpoints Demo.serialization Demo.contract 4 (mkClient true)
            [1; 2; 3] Demo.Median default_max_fee (Some 2) []
          = Done h ([] ++ ops).
Proof.
  intros ops.
  assert (H1 : is_user_client (mkClient true) = true) by reflexivity.
  assert (H2 : [1; 2; 3] <> []) by discriminate.
  assert (H3 : 0 < 2) by reflexivity.
  assert (H4 : (length [1; 2; 3] < 4)%nat) by (cbn; repeat constructor).
  split; [now repeat split|].
  exact (proj1 (proj2 (proj2 (proj2
    (@checkpoints_paginate_return_last Demo.serialization Demo.contract
       (mkClient true) [1; 2; 3] [] Demo.Median default_max_fee 2 4 []
       H1 H2 H3 H4))))).
Defined.

(** C8 as stated fails: with an explicit but empty source list the
    specification selects the unrestricted read, and the code performs the
    restricted one. *)
Lemma get_spot_empty_sources :
  spec_read_operation (Some []) = "get_data"
  /\ (exists r args,
        @get_spot Demo.serialization Demo.contract (PairInt 1) Demo.Median (Some []) []
        = Done r [Call "get_data_for_sources" args])
  /\ ~ (exists r args,
          @get_spot Demo.serialization Demo.contract (PairInt 1) Demo.Median (Some []) []
          = Done r [Call (spec_read_operation (Some [])) args]).
Proof.
  split; [reflexivity|]. split.
  - eexists _, _. reflexivity.
  - intros (r & args & E). cbn in E. discriminate.
Qed.

(** The theorem at a symbol and two sources: one restricted read. *)
Lemma read_path_selection_witness :
  PairStr "ETH/USD" <> PairOther
  /\ exists r args,
       @get_spot Demo.serialization Demo.contract (PairStr "ETH/USD") Demo.Median
         (Some [1; 2]) []
       = Done r ([] ++ [Call "get_data_for_sources" args]).
Proof.
  assert (H : PairStr "ETH/USD" <> PairOther) by discriminate.
  split; [exact H|].
  exact (proj1 (proj2 (proj2
    (@read_path_selection Demo.serialization Demo.contract (PairStr "ETH/USD") 0
       Demo.Median (Some [1; 2]) [] H)))).
Defined.

End OracleFacts.

(* ===================================================================== *)
(** * Properties of the fetchers *)
(* ===================================================================== *)

Module FetcherFacts.
Import Spec.
Local Open Scope py_scope.

(** ** The collecting loops *)

Section Loops.
Context {A X I : Type}.
Variables (keep : A -> bool) (g : A -> py X) (h : X -> list I).

(** [for a in l: if not keep(a): continue; x = g(a); acc += h(x)] returns
    exactly when [g] returns on every kept element, and then with the
    contributions in the order of [l]. *)
Lemma for_each_collect (f : list I -> A -> py (list I)) :
  (forall acc a,
     f acc a = if negb (keep a) then Return acc
               else py_bind (g a) (fun x => Return (acc ++ h x))) ->
  forall l acc r,
    for_each f l acc = Return r
    <-> exists xs,
          Forall2 (fun a x => g a = Return x) (filter keep l) xs
          /\ r = acc ++ flat_map h xs.
Proof.
  intros Hf. induction l as [|a l IH]; intros acc r; cbn [for_each filter].
  - split.
    + intros [= <-]. exists []. split; [constructor|]. cbn. now rewrite app_nil_r.
    + intros (xs & F & ->). inversion F. cbn. now rewrite app_nil_r.
  - rewrite Hf. destruct (keep a); cbn [negb].
    + destruct (g a) as [x|e] eqn:G; cbn [py_bind].
      * rewrite IH. split.
        -- intros (xs & F & ->). exists (x :: xs). split; [now constructor|].
           cbn. now rewrite app_assoc.
        -- intros (xs & F & ->). inversion F as [|a' x' l' xs' Hx F']; subst.
           assert (x' = x) by congruence. subst x'.
           exists xs'. split; [exact F'|]. cbn. now rewrite app_assoc.
      * split; [discriminate|].
        intros (xs & F & _). inversion F; congruence.
    + cbn [py_bind]. apply IH.
Qed.

(** The concurrent variant: one task per kept element, gathered in order. *)
Lemma fold_gather (t : A -> I) (l : list A) : forall acc,
  fold_left (fun entries a => if negb (keep a) then entries else entries ++ [t a]) l acc
  = acc ++ map t (filter keep l).
Proof.
  induction l as [|a l IH]; intros acc; cbn [fold_left filter].
  - cbn. now rewrite app_nil_r.
  - rewrite IH. destruct (keep a); cbn [negb map]; [|reflexivity].
    now rewrite <- app_assoc.
Qed.

Lemma for_each_app {B} (f : B -> A -> py B) (l1 l2 : list A) : forall acc,
  for_each f (l1 ++ l2) acc = py_bind (for_each f l1 acc) (for_each f l2).
Proof.
  induction l1 as [|a l1 IH]; intros acc; cbn; [reflexivity|].
  destruct (f acc a); cbn; auto.
Qed.

Section Shape.
Variable f : list I -> A -> py (list I).
Hypothesis f_shape : forall acc a,
  f acc a = if negb (keep a) then Return acc
            else py_bind (g a) (fun x => Return (acc ++ h x)).

Lemma for_each_shift (l : list A) : forall acc,
  for_each f l acc = py_bind (for_each f l []) (fun r => Return (acc ++ r)).
Proof.
  induction l as [|a l IH]; intros acc; cbn [for_each].
  - cbn. now rewrite app_nil_r.
  - rewrite !f_shape. destruct (keep a); cbn [negb].
    + destruct (g a) as [x|e]; cbn [py_bind]; [|reflexivity].
      rewrite (IH (acc ++ h x)), (IH ([] ++ h x)).
      destruct (for_each f l []); cbn; [|reflexivity].
      now rewrite app_assoc.
    + cbn [py_bind]. apply IH.
Qed.

(** A kept element on which [g] returns [x] contributes [h x], between
    the contributions of the elements before it and after it. *)
Lemma for_each_insert (pre post : list A) (a : A) (x : X) :
  keep a = true -> g a = Return x ->
  for_each f (pre ++ a :: post) []
  = py_bind (for_each f pre [])
      (fun l1 => py_bind (for_each f post []) (fun l2 => Return (l1 ++ h x ++ l2))).
Proof.
  intros Hk Hg. rewrite for_each_app.
  destruct (for_each f pre []) as [l1|e]; cbn [py_bind for_each]; [|reflexivity].
  rewrite f_shape, Hk, Hg. cbn [negb py_bind].
  rewrite for_each_shift.
  destruct (for_each f post []); cbn; [|reflexivity].
  now rewrite <- app_assoc.
Qed.

Lemma for_each_returns (l : list A) :
  Forall (fun b => keep b = true -> exists x, g b = Return x) l ->
  forall acc, exists r, for_each f l acc = Return r.
Proof.
  induction 1 as [|b l Hb Hl IH]; intros acc; cbn [for_each].
  - now exists acc.
  - rewrite f_shape. destruct (keep b); cbn [negb]; [|apply IH].
    destruct (Hb eq_refl) as (x & ->). cbn [py_bind]. apply IH.
Qed.

Lemma for_each_insert_returns (pre post : list A) (a : A) (x : X) :
  keep a = true -> g a = Return x ->
  Forall (fun b => keep b = true -> exists x, g b = Return x) (pre ++ post) ->
  exists l1 l2,
    for_each f pre [] = Return l1
    /\ for_each f post [] = Return l2
    /\ for_each f (pre ++ a :: post) [] = Return (l1 ++ h x ++ l2).
Proof.
  intros Hk Hg Hall. apply Forall_app in Hall. destruct Hall as [Hpre Hpost].
  destruct (for_each_returns pre Hpre []) as (l1 & E1).
  destruct (for_each_returns post Hpost []) as (l2 & E2).
  exists l1, l2. repeat split; try assumption.
  rewrite (for_each_insert pre post a x Hk Hg), E1, E2. reflexivity.
Qed.

End Shape.

End Loops.

Lemma flat_map_singleton {B} (l : list B) : flat_map (fun x => [x]) l = l.
Proof. induction l; cbn; congruence. Qed.

Section WithWorld.
Context {W : World}.

Lemma okx_collect entries r : Okx.collect entries r = entries ++ items_of r.
Proof. now destruct r. Qed.

Lemma binance_collect entries r : Binance.collect entries r = entries ++ items_of r.
Proof. now destruct r. Qed.

(** A spot fetcher's [fetch_sync]. *)
Lemma spot_fetch_sync (fetch_pair : Asset -> py item) (assets : list Asset) (l : list item) :
  for_each
    (fun entries asset =>
       if negb (String.eqb (asset_type asset) "SPOT") then Return entries
       else py_bind (fetch_pair asset) (fun e => Return (entries ++ [e])))
    assets []
  = Return l
  <-> Forall2 (fun a it => fetch_pair a = Return it) (filter is_spot assets) l.
Proof.
  rewrite (for_each_collect is_spot fetch_pair (fun x => [x])) by reflexivity.
  split.
  - intros (xs & F & ->). cbn. now rewrite flat_map_singleton.
  - intros F. exists l. split; [exact F|]. cbn. now rewrite flat_map_singleton.
Qed.

(** A future fetcher's [fetch] and [fetch_sync]. *)
Lemma future_fetch (fetch_pair : Asset -> py pair_result)
  (collect : list item -> pair_result -> list item) (assets : list Asset) (l : list item) :
  (forall entries r, collect entries r = entries ++ items_of r) ->
  for_each
    (fun entries asset =>
       if negb (String.eqb (asset_type asset) "FUTURE") then Return entries
       else py_bind (fetch_pair asset)
              (fun future_entries => Return (collect entries future_entries)))
    assets []
  = Return l
  <-> exists groups,
        Forall2 (fun a g => fetch_pair a = Return g) (filter is_future assets) groups
        /\ l = flat_map items_of groups.
Proof.
  intros Hc.
  rewrite (for_each_collect is_future fetch_pair items_of); [reflexivity|].
  intros acc a. cbn beta. destruct (negb _); [reflexivity|].
  destruct (fetch_pair a); cbn; [now rewrite Hc|reflexivity].
Qed.


(** ** Not found *)

Lemma append_assoc (a b c : string) : ((a ++ b) ++ c = a ++ b ++ c)%string.
Proof. induction a as [|ch a IH]; cbn; [reflexivity|]. now rewrite IH. Qed.

Lemma no_data_message (base quote source : string) :
  ("No data found for " ++ pair_str (base, quote) ++ " from " ++ source)%string
  = not_found_message base quote source.
Proof.
  unfold not_found_message, pair_str, join. cbn [String.concat fst snd].
  f_equal. now rewrite !append_assoc.
Qed.

Lemma future_shape (fetch_pair : Asset -> py pair_result)
  (collect : list item -> pair_result -> list item) :
  (forall entries r, collect entries r = entries ++ items_of r) ->
  forall acc a,
    (if negb (String.eqb (asset_type a) "FUTURE") then Return acc
     else py_bind (fetch_pair a)
            (fun future_entries => Return (collect acc future_entries)))
    = if negb (is_future a) then Return acc
      else py_bind (fetch_pair a) (fun x => Return (acc ++ items_of x)).
Proof.
  intros Hc acc a. unfold is_future. destruct (negb _); [reflexivity|].
  destruct (fetch_pair a); cbn; [now rewrite Hc|reflexivity].
Qed.

Section NotFound.
Variables (base quote : string) (decimals : nat).

Lemma cex_not_found :
  let a := mkAsset "SPOT" (base, quote) decimals in
  let failure := ItemError (mkFetchError (not_found_message base quote "CEX")) in
  status (http_get (Cex.format_url base quote)) = 404 ->
  forall self,
    Cex._fetch_pair self a = Return failure
    /\ Cex._fetch_pair_sync self a = Return failure.
Proof.
  intros a failure H self.
  unfold Cex._fetch_pair, Cex._fetch_pair_sync. cbn [pair fst snd a].
  change (Cex.BASE_URL ++ "/" ++ base ++ "/" ++ quote)%string
    with (Cex.format_url base quote).
  rewrite H. cbn [Z.eqb Pos.eqb]. subst failure.
  rewrite <- no_data_message. split; reflexivity.
Qed.

Lemma coinbase_not_found :
  let a := mkAsset "SPOT" (base, quote) decimals in
  let failure := ItemError (mkFetchError (not_found_message base quote "Coinbase")) in
  status (http_get (Coinbase.format_url base quote)) = 404 ->
  forall self,
    Coinbase._fetch_pair self a = Return failure
    /\ Coinbase._fetch_pair_sync self a = Return failure.
Proof.
  intros a failure H self.
  unfold Coinbase._fetch_pair, Coinbase._fetch_pair_sync. cbn [pair fst snd a].
  change (Coinbase.BASE_URL ++ quote)%string with (Coinbase.format_url base quote).
  rewrite H. cbn [Z.eqb Pos.eqb]. subst failure.
  rewrite <- no_data_message. split; reflexivity.
Qed.

Lemma okx_not_found :
  let a := mkAsset "FUTURE" (base, quote) decimals in
  let failure := mkFetchError (not_found_message base quote "OKX") in
  status (http_get (Okx.format_url base quote)) = 404 ->
  forall self,
    Okx._fetch_pair self a = Return (PairError failure)
    /\ Okx._fetch_pair_sync self a = Return (PairError failure).
Proof.
  intros a failure H self.
  unfold Okx._fetch_pair, Okx._fetch_pair_sync. cbn [pair fst snd a].
  change (Okx.BASE_URL ++ "?instType=FUTURES&uly=" ++ base ++ "-" ++ quote)%string
    with (Okx.format_url base quote).
  rewrite H. cbn [Z.eqb Pos.eqb]. subst failure.
  rewrite <- no_data_message. split; reflexivity.
Qed.

Lemma binance_not_found :
  let a := mkAsset "FUTURE" (base, quote) decimals in
  let failure := mkFetchError (not_found_message base quote "Binance") in
  status (http_get (Binance.format_url base quote)) = 404 ->
  forall self,
    Binance._fetch_pair self a = Return (PairError failure)
    /\ Binance._fetch_pair_sync self a = Return (PairError failure).
Proof.
  intros a failure H self.
  unfold Binance._fetch_pair, Binance._fetch_pair_sync. cbn [pair fst snd a].
  change Binance.BASE_URL with (Binance.format_url base quote).
  rewrite H. cbn [Z.eqb Pos.eqb]. subst failure.
  rewrite <- no_data_message. split; reflexivity.
Qed.

End NotFound.

(** C7. For each of the four sources and every asset of its kind with
    pair (BASE, QUOTE): when the source answers 404 for the pair, the
    fetch of that pair does not raise, it returns the FetchFailure with
    message "No data found for BASE/QUOTE from SOURCE" (SOURCE being CEX,
    Coinbase, OKX or Binance); the asset contributes exactly this one
    item to the result of [fetch] and of [fetch_sync], between the items
    of the assets before it and after it; and the call returns, with the
    failure in its place, as soon as the pair fetch of every other asset
    of the list returns (a concurrent spot [fetch] never raises at all). *)
Theorem not_found_yields_one_failure (base quote : string) (decimals : nat)
  (publisher : string) (pre post : list Asset) :
  (status (http_get (Cex.format_url base quote)) = 404 ->
   let a := mkAsset "SPOT" (base, quote) decimals in
   let failure := ItemError (mkFetchError (not_found_message base quote "CEX")) in
   let self := Cex.mkFetcher (pre ++ a :: post) publisher in
   (Cex._fetch_pair self a = Return failure
    /\ Cex._fetch_pair_sync self a = Return failure)
   /\ Cex.fetch self
      = Cex.fetch (Cex.mkFetcher pre publisher) ++ [Return failure]
        ++ Cex.fetch (Cex.mkFetcher post publisher)
   /\ Cex.fetch_sync self
      = (l1 <- Cex.fetch_sync (Cex.mkFetcher pre publisher) ;;
         l2 <- Cex.fetch_sync (Cex.mkFetcher post publisher) ;;
         Return (l1 ++ [failure] ++ l2))
   /\ (Vocab.others_return is_spot (Cex._fetch_pair_sync self) (pre ++ post) ->
       exists l1 l2,
         Cex.fetch_sync (Cex.mkFetcher pre publisher) = Return l1
         /\ Cex.fetch_sync (Cex.mkFetcher post publisher) = Return l2
         /\ Cex.fetch_sync self = Return (l1 ++ [failure] ++ l2)))
  /\ (status (http_get (Coinbase.format_url base quote)) = 404 ->
      let a := mkAsset "SPOT" (base, quote) decimals in
      let failure := ItemError (mkFetchError (not_found_message base quote "Coinbase")) in
      let self := Coinbase.mkFetcher (pre ++ a :: post) publisher in
      (Coinbase._fetch_pair self a = Return failure
       /\ Coinbase._fetch_pair_sync self a = Return failure)
      /\ Coinbase.fetch self
         = Coinbase.fetch (Coinbase.mkFetcher pre publisher) ++ [Return failure]
           ++ Coinbase.fetch (Coinbase.mkFetcher post publisher)
      /\ Coinbase.fetch_sync self
         = (l1 <- Coinbase.fetch_sync (Coinbase.mkFetcher pre publisher) ;;
            l2 <- Coinbase.fetch_sync (Coinbase.mkFetcher post publisher) ;;
            Return (l1 ++ [failure] ++ l2))
      /\ (Vocab.others_return is_spot (Coinbase._fetch_pair_sync self) (pre ++ post) ->
          exists l1 l2,
            Coinbase.fetch_sync (Coinbase.mkFetcher pre publisher) = Return l1
            /\ Coinbase.fetch_sync (Coinbase.mkFetcher post publisher) = Return l2
            /\ Coinbase.fetch_sync self = Return (l1 ++ [failure] ++ l2)))
  /\ (status (http_get (Okx.format_url base quote)) = 404 ->
      let a := mkAsset "FUTURE" (base, quote) decimals in
      let error := mkFetchError (not_found_message base quote "OKX") in
      let failure := ItemError error in
      let self := Okx.mkFetcher (pre ++ a :: post) publisher in
      (Okx._fetch_pair self a = Return (PairError error)
       /\ Okx._fetch_pair_sync self a = Return (PairError error))
      /\ Okx.fetch self
         = (l1 <- Okx.fetch (Okx.mkFetcher pre publisher) ;;
            l2 <- Okx.fetch (Okx.mkFetcher post publisher) ;;
            Return (l1 ++ [failure] ++ l2))
      /\ Okx.fetch_sync self
         = (l1 <- Okx.fetch_sync (Okx.mkFetcher pre publisher) ;;
            l2 <- Okx.fetch_sync (Okx.mkFetcher post publisher) ;;
            Return (l1 ++ [failure] ++ l2))
      /\ (Vocab.others_return is_future (Okx._fetch_pair self) (pre ++ post) ->
          exists l1 l2,
            Okx.fetch (Okx.mkFetcher pre publisher) = Return l1
            /\ Okx.fetch (Okx.mkFetcher post publisher) = Return l2
            /\ Okx.fetch self = Return (l1 ++ [failure] ++ l2))
      /\ (Vocab.others_return is_future (Okx._fetch_pair_sync self) (pre ++ post) ->
          exists l1 l2,
            Okx.fetch_sync (Okx.mkFetcher pre publisher) = Return l1
            /\ Okx.fetch_sync (Okx.mkFetcher post publisher) = Return l2
            /\ Okx.fetch_sync self = Return (l1 ++ [failure] ++ l2)))
  /\ (status (http_get (Binance.format_url base quote)) = 404 ->
      let a := mkAsset "FUTURE" (base, quote) decimals in
      let error := mkFetchError (not_found_message base quote "Binance") in
      let failure := ItemError error in
      let self := Binance.mkFetcher (pre ++ a :: post) publisher in
      (Binance._fetch_pair self a = Return (PairError error)
       /\ Binance._fetch_pair_sync self a = Return (PairError error))
      /\ Binance.fetch self
         = (l1 <- Binance.fetch (Binance.mkFetcher pre publisher) ;;
            l2 <- Binance.fetch (Binance.mkFetcher post publisher) ;;
            Return (l1 ++ [failure] ++ l2))
      /\ Binance.fetch_sync self
         = (l1 <- Binance.fetch_sync (Binance.mkFetcher pre publisher) ;;
            l2 <- Binance.fetch_sync (Binance.mkFetcher post publisher) ;;
            Return (l1 ++ [failure] ++ l2))
      /\ (Vocab.others_return is_future (Binance._fetch_pair self) (pre ++ post) ->
          exists l1 l2,
            Binance.fetch (Binance.mkFetcher pre publisher) = Return l1
            /\ Binance.fetch (Binance.mkFetcher post publisher) = Return l2
            /\ Binance.fetch self = Return (l1 ++ [failure] ++ l2))
      /\ (Vocab.others_return is_future (Binance._fetch_pair_sync self) (pre ++ post) ->
          exists l1 l2,
            Binance.fetch_sync (Binance.mkFetcher pre publisher) = Return l1
            /\ Binance.fetch_sync (Binance.mkFetcher post publisher) = Return l2
            /\ Binance.fetch_sync self = Return (l1 ++ [failure] ++ l2))).
Proof.
  split; [|split; [|split]]; intros H a.
  - intros failure self.
    destruct (cex_not_found base quote decimals H self) as [Ha Hs].
    split; [now split|]. split; [|split].
    + unfold Cex.fetch. rewrite !(fold_gather is_spot). cbn [app Cex.assets].
      change (Cex.assets self) with (pre ++ a :: post).
      rewrite filter_app, map_app. cbn [filter is_spot asset_type a String.eqb].
      cbn. f_equal. f_equal. exact Ha.
    + exact (for_each_insert is_spot (Cex._fetch_pair_sync self) (fun x => [x]) _
               (fun _ _ => eq_refl) pre post a failure eq_refl Hs).
    + exact (for_each_insert_returns is_spot (Cex._fetch_pair_sync self)
               (fun x => [x]) _ (fun _ _ => eq_refl) pre post a failure eq_refl Hs).
  - intros failure self.
    destruct (coinbase_not_found base quote decimals H self) as [Ha Hs].
    split; [now split|]. split; [|split].
    + unfold Coinbase.fetch. rewrite !(fold_gather is_spot). cbn [app Coinbase.assets].
      change (Coinbase.assets self) with (pre ++ a :: post).
      rewrite filter_app, map_app. cbn [filter is_spot asset_type a String.eqb].
      cbn. f_equal. f_equal. exact Ha.
    + exact (for_each_insert is_spot (Coinbase._fetch_pair_sync self) (fun x => [x]) _
               (fun _ _ => eq_refl) pre post a failure eq_refl Hs).
    + exact (for_each_insert_returns is_spot (Coinbase._fetch_pair_sync self)
               (fun x => [x]) _ (fun _ _ => eq_refl) pre post a failure eq_refl Hs).
  - intros error failure self.
    destruct (okx_not_found base quote decimals H self) as [Ha Hs].
    split; [now split|]. split; [|split; [|split]].
    + exact (for_each_insert is_future (Okx._fetch_pair self) items_of _
               (future_shape _ Okx.collect okx_collect) pre post a _ eq_refl Ha).
    + exact (for_each_insert is_future (Okx._fetch_pair_sync self) items_of _
               (future_shape _ Okx.collect okx_collect) pre post a _ eq_refl Hs).
    + exact (for_each_insert_returns is_future (Okx._fetch_pair self) items_of _
               (future_shape _ Okx.collect okx_collect) pre post a _ eq_refl Ha).
    + exact (for_each_insert_returns is_future (Okx._fetch_pair_sync self) items_of _
               (future_shape _ Okx.collect okx_collect) pre post a _ eq_refl Hs).
  - intros error failure self.
    destruct (binance_not_found base quote decimals H self) as [Ha Hs].
    split; [now split|]. split; [|split; [|split]].
    + exact (for_each_insert is_future (Binance._fetch_pair self) items_of _
               (future_shape _ Binance.collect binance_collect) pre post a _ eq_refl Ha).
    + exact (for_each_insert is_future (Binance._fetch_pair_sync self) items_of _
               (future_shape _ Binance.collect binance_collect) pre post a _ eq_refl Hs).
    + exact (for_each_insert_returns is_future (Binance._fetch_pair self) items_of _
               (future_shape _ Binance.collect binance_collect) pre post a _ eq_refl Ha).
    + exact (for_each_insert_returns is_future (Binance._fetch_pair_sync self)
               items_of _ (future_shape _ Binance.collect binance_collect)
               pre post a _ eq_refl Hs).
Qed.

(** ** Prices *)

(** [int(x)] keeps the integer part of [x]: for the finite float
    (-1)^s * m * 2^e it is (-1)^s * floor(m * 2^e). *)
Lemma int_of_float_integer_part (s : bool) (m : positive) (e p : Z) :
  int_of_float (S754_finite s m e) = Return p ->
  (if s then p <= 0 else 0 <= p)
  /\ (0 <= e -> Z.abs p = Zpos m * 2 ^ e)
  /\ (e < 0 -> Z.abs p * 2 ^ (- e) <= Zpos m < (Z.abs p + 1) * 2 ^ (- e)).
Proof.
  cbn [int_of_float]. intros [= <-].
  destruct (Z.leb_spec 0 e) as [He|He].
  - rewrite Z.shiftl_mul_pow2 by lia.
    assert (0 < 2 ^ e) by (apply Z.pow_pos_nonneg; lia).
    destruct s; repeat split; try lia.
  - rewrite Z.shiftr_div_pow2 by lia.
    assert (Hpow : 0 < 2 ^ (- e)) by (apply Z.pow_pos_nonneg; lia).
    pose proof (Z.div_pos (Zpos m) (2 ^ (- e)) ltac:(lia) Hpow) as Hq.
    pose proof (Z.mul_div_le (Zpos m) (2 ^ (- e)) Hpow).
    pose proof (Z.mul_succ_div_gt (Zpos m) (2 ^ (- e)) Hpow).
    destruct s; repeat split; try lia;
      intros _; rewrite ?Z.abs_opp, Z.abs_eq by lia; lia.
Qed.

(** C4, as the code has it. When the fields of a CEX ticker parse, the
    price of the entry is int(x * 10^d): the binary64 product of the
    observed price x and of 10^d, cut to its integer part (not rounded to
    the nearest integer). The observed price 42000.12 with 8 decimals
    gives 4200012000000. *)
Theorem cex_price_is_truncated_product (self : Cex.CexFetcher) (asset : Asset)
  (result : value) (t p : Z) (x vol factor : float) :
  (v <- getitem result "timestamp" ;; to_int v) = Return t ->
  (v <- getitem result "last" ;; to_float v) = Return x ->
  (v <- getitem result "volume" ;; to_float v) = Return vol ->
  float_of_int (10 ^ Z.of_nat (decimals asset)) = Return factor ->
  int_of_float (fmul x factor) = Return p ->
  Cex._construct self asset result
  = Return (mkEntry SPOT
              (currency_pair_to_pair_id (fst (pair asset)) (snd (pair asset)))
              p t vol "CEX" (Cex.publisher self) 0)
  /\ (forall s m e,
        fmul x factor = S754_finite s m e ->
        (0 <= e -> Z.abs p = Zpos m * 2 ^ e)
        /\ (e < 0 -> Z.abs p * 2 ^ (- e) <= Zpos m < (Z.abs p + 1) * 2 ^ (- e)))
  /\ (getitem result "last" = Return (VStr "42000.12") ->
      decimals asset = 8%nat -> p = 4200012000000).
Proof.
  intros Ht Hx Hv Hf Hp. split; [|split].
  - unfold Cex._construct, price_int_of, scale.
    rewrite Ht, Hx. cbn [py_bind]. rewrite Hf. cbn [py_bind].
    rewrite Hp. cbn [py_bind]. rewrite Hv. reflexivity.
  - intros s m e E. rewrite E in Hp.
    now destruct (int_of_float_integer_part s m e p Hp) as (_ & H1 & H2).
  - intros Hlast Hd. rewrite Hlast in Hx. rewrite Hd in Hf.
    cbn in Hx, Hf. injection Hx as <-. injection Hf as <-.
    vm_compute in Hp. now injection Hp as <-.
Qed.

(** C10. When the base symbol of the asset is among data.rates of a
    Coinbase response with rate r, the entry built has the price
    int((1 / r) * 10^decimals), in binary64 arithmetic; when it is absent,
    [_construct] returns a PublisherFetchError as a value and does not
    raise. *)
Theorem coinbase_price_is_reciprocal (self : Coinbase.CoinbaseFetcher) (asset : Asset)
  (result : value) (rates : list (string * value)) :
  (data <- getitem result "data" ;; getitem data "rates") = Return (VDict rates) ->
  (forall (rate : value) (r factor : float) (p : Z),
     lookup (fst (pair asset)) rates = Some rate ->
     to_float rate = Return r ->
     is_zero r = false ->
     float_of_int (10 ^ Z.of_nat (decimals asset)) = Return factor ->
     int_of_float (fmul (SFdiv prec emax (float_of_Z 1) r) factor) = Return p ->
     exists e,
       Coinbase._construct self asset result = Return (ItemEntry e)
       /\ price e = p /\ kind e = SPOT /\ source e = "COINBASE")
  /\ (lookup (fst (pair asset)) rates = None ->
      exists err, Coinbase._construct self asset result = Return (ItemError err)).
Proof.
  intros Hrates. split.
  - intros rate r factor p Hl Hr Hz Hf Hp.
    exists (mkEntry SPOT
              (currency_pair_to_pair_id (fst (pair asset)) (snd (pair asset)))
              p time_time (S754_zero false) "COINBASE" (Coinbase.publisher self) 0).
    split; [|repeat split].
    unfold Coinbase._construct. rewrite Hrates. cbn [py_bind str_in getitem].
    rewrite Hl. cbn [py_bind]. rewrite Hr. cbn [py_bind].
    unfold fdiv. rewrite Hz. cbn [py_bind].
    unfold price_int_of, scale. rewrite Hf. cbn [py_bind]. rewrite Hp.
    reflexivity.
  - intros Hl. eexists.
    unfold Coinbase._construct. rewrite Hrates. cbn [py_bind str_in].
    rewrite Hl. reflexivity.
Qed.

(** ** Expiry of a Binance future *)

Lemma split_no_underscore (s : string) :
  has_underscore s = false -> split "_" s = [s].
Proof.
  induction s as [|ch s IH]; cbn; [reflexivity|].
  destruct (Ascii.eqb ch "_"); [discriminate|]. cbn. intros H.
  now rewrite IH.
Qed.

Lemma split_at_underscore (prefix rest : string) :
  has_underscore prefix = false ->
  split "_" (prefix ++ String "_" rest) = prefix :: split "_" rest.
Proof.
  induction prefix as [|ch prefix IH]; [reflexivity|].
  cbn [has_underscore append split].
  destruct (Ascii.eqb ch "_"); [discriminate|]. cbn [orb]. intros H.
  now rewrite IH.
Qed.

Lemma in_range (from : Z) (count : nat) (z : Z) :
  from <= z < from + Z.of_nat count -> In z (range from count).
Proof.
  intros H. unfold range. apply in_map_iff.
  exists (Z.to_nat (z - from)). split; [lia|]. apply in_seq. lia.
Qed.

Lemma all_dates_ok :
  forallb (fun yy =>
    forallb (fun mm =>
      forallb (fun dd => date_ok yy mm dd) (range 1 31)) (range 1 12)) (range 0 100)
  = true.
Proof. vm_compute. reflexivity. Qed.

Lemma all_months_ok :
  forallb (fun yy => forallb (fun mm => month_ok yy mm) (range 1 12)) (range 0 100)
  = true.
Proof. vm_compute. reflexivity. Qed.

Lemma days_in_month_le_31 y m : days_in_month y m <= 31.
Proof.
  unfold days_in_month.
  repeat match goal with |- context [if ?b then _ else _] => destruct b end; lia.
Qed.

Lemma valid_date_bounds (yy mm dd : Z) :
  valid_date yy mm dd = true -> 0 <= yy <= 99 /\ 1 <= mm <= 12 /\ 1 <= dd <= 31.
Proof.
  intros Hv. unfold valid_date in Hv.
  repeat (apply andb_prop in Hv; destruct Hv as [Hv ?]).
  pose proof (days_in_month_le_31 (full_year yy) mm). lia.
Qed.

Lemma date_ok_valid (yy mm dd : Z) : valid_date yy mm dd = true -> date_ok yy mm dd = true.
Proof.
  intros Hv. destruct (valid_date_bounds yy mm dd Hv) as (Hy & Hm & Hd).
  pose proof all_dates_ok as Hall.
  rewrite forallb_forall in Hall.
  specialize (Hall yy (in_range 0 100 yy ltac:(lia))).
  rewrite forallb_forall in Hall.
  specialize (Hall mm (in_range 1 12 mm ltac:(lia))).
  rewrite forallb_forall in Hall.
  exact (Hall dd (in_range 1 31 dd ltac:(lia))).
Qed.

(** The timestamp of datetime.py is the count of seconds of the calendar. *)
Lemma timestamp_is_epoch_seconds (yy mm dd hh mi ss : Z) :
  0 <= yy <= 99 -> 1 <= mm <= 12 ->
  timestamp_utc (mkDatetime (full_year yy) mm dd hh mi ss)
  = epoch_seconds (full_year yy) mm dd hh mi ss.
Proof.
  intros Hy Hm. pose proof all_months_ok as Hall.
  rewrite forallb_forall in Hall.
  specialize (Hall yy (in_range 0 100 yy ltac:(lia))).
  rewrite forallb_forall in Hall.
  specialize (Hall mm (in_range 1 12 mm ltac:(lia))).
  unfold month_ok in Hall. apply Z.eqb_eq in Hall.
  unfold timestamp_utc, epoch_seconds. cbn [year month day hour minute second].
  unfold ymd2ord, days_since_epoch in *. lia.
Qed.

(** The expiry computed for a dated symbol, in seconds. *)
Lemma expiry_of_dated (prefix selection : string) (yy mm dd : Z) :
  valid_date yy mm dd = true ->
  has_underscore prefix = false ->
  (prefix ++ "_" ++ yymmdd yy mm dd)%string <> selection ->
  Binance.expiry_of (prefix ++ "_" ++ yymmdd yy mm dd) selection
  = Return (epoch_seconds (full_year yy) mm dd 8 0 0).
Proof.
  intros Hv Hp Hne. pose proof (date_ok_valid yy mm dd Hv) as Hok.
  destruct (valid_date_bounds yy mm dd Hv) as (Hy & Hm & _).
  unfold date_ok in Hok. rewrite Hv in Hok.
  destruct (strptime_yymmdd (yymmdd yy mm dd)) as [dt|e] eqn:Hs; [|discriminate].
  repeat (apply andb_prop in Hok; destruct Hok as [Hok ?]).
  unfold Binance.expiry_of.
  destruct (String.eqb_spec (prefix ++ "_" ++ yymmdd yy mm dd) selection);
    [contradiction|].
  change (prefix ++ "_" ++ yymmdd yy mm dd)%string
    with (prefix ++ String "_" (yymmdd yy mm dd))%string.
  rewrite split_at_underscore by exact Hp.
  rewrite split_no_underscore by now apply negb_true_iff.
  cbn [List.length Nat.ltb Nat.leb nth]. rewrite Hs. cbn [py_bind].
  f_equal.
  replace (year dt) with (full_year yy) by (symmetry; now apply Z.eqb_eq).
  replace (month dt) with mm by (symmetry; now apply Z.eqb_eq).
  replace (day dt) with dd by (symmetry; now apply Z.eqb_eq).
  now apply timestamp_is_epoch_seconds.
Qed.

Lemma expiry_of_undated (symbol selection : string) :
  has_underscore symbol = false -> Binance.expiry_of symbol selection = Return 0.
Proof.
  intros H. unfold Binance.expiry_of.
  destruct (String.eqb symbol selection); [reflexivity|].
  now rewrite split_no_underscore.
Qed.

(** C5, as the code has it. For an instrument record of Binance whose
    fields parse: a symbol equal to BASEQUOTE, or without any underscore,
    gives expiry_timestamp 0; a symbol with the suffix _YYMMDD of a
    calendar date gives 1000 times the seconds from the epoch to that date
    at 08:00:00 UTC, that is the settlement instant in milliseconds
    (1703836800000 for BTCUSD_231229), while the timestamp field of the
    same entry is in seconds. *)
Theorem binance_expiry_in_milliseconds (self : Binance.BinanceFutureFetcher)
  (asset : Asset) (volume_arr : PublisherFetchError + list (value * value))
  (data : value) (symbol : string) (t p ts : Z) (x vol : float) :
  let selection := (fst (pair asset) ++ snd (pair asset))%string in
  let entry expiry :=
    mkEntry FUTURE (currency_pair_to_pair_id (fst (pair asset)) (snd (pair asset)))
      p ts vol "BINANCE" (Binance.publisher self) expiry in
  getitem data "symbol" = Return (VStr symbol) ->
  (v <- getitem data "time" ;; to_int v) = Return t ->
  (v <- getitem data "markPrice" ;; to_float v) = Return x ->
  price_int_of x (decimals asset) = Return p ->
  (v <- Binance.retrieve_volume symbol volume_arr ;; to_float v) = Return vol ->
  (q <- int_truediv t 1000 ;; int_of_float q) = Return ts ->
  (symbol = selection \/ has_underscore symbol = false ->
   Binance.construct_one self asset volume_arr data = Return (entry 0))
  /\ (forall prefix yy mm dd,
        symbol = (prefix ++ "_" ++ yymmdd yy mm dd)%string ->
        symbol <> selection ->
        has_underscore prefix = false ->
        valid_date yy mm dd = true ->
        Binance.construct_one self asset volume_arr data
        = Return (entry (1000 * epoch_seconds (full_year yy) mm dd 8 0 0)))
  /\ 1000 * epoch_seconds (full_year 23) 12 29 8 0 0 = 1703836800000.
Proof.
  intros selection entry Hsym Ht Hx Hp Hvol Hts.
  assert (Run : forall secs,
             Binance.expiry_of symbol selection = Return secs ->
             Binance.construct_one self asset volume_arr data
             = Return (entry (secs * 1000))).
  { intros secs He. unfold Binance.construct_one, Binance.symbol_of.
    rewrite Ht, Hx. cbn [py_bind]. rewrite Hp, Hsym. cbn [py_bind].
    rewrite Hvol. cbn [py_bind]. fold selection. rewrite He. cbn [py_bind].
    rewrite Hts. reflexivity. }
  split; [|split; [|reflexivity]].
  - intros [-> | Hno]; apply (Run 0).
    + unfold Binance.expiry_of. now rewrite String.eqb_refl.
    + now apply expiry_of_undated.
  - intros prefix yy mm dd -> Hne Hpre Hv.
    rewrite (Z.mul_comm 1000). apply Run. now apply expiry_of_dated.
Qed.

End WithWorld.

(** ** The statements on the canned world *)

Import DemoWorld.


(** C4 as stated fails: for the observed price 0.29 and 8 decimals the
    rounded product is 29000000, and the entry carries 28999999. *)
Lemma cex_price_not_rounded :
  spec_price 29 2 8 = 29000000
  /\ exists e,
       @Cex._construct up (Cex.mkFetcher [btc_spot] "PRAGMA") btc_spot (cex_btc "0.29")
       = Return e
       /\ price e = 28999999
       /\ price e <> spec_price 29 2 8.
Proof.
  split; [reflexivity|]. eexists. split; [vm_compute; reflexivity|].
  split; [reflexivity|]. discriminate.
Qed.

(** The theorem on the canned CEX ticker. *)
Lemma cex_price_is_truncated_product_witness :
  @Cex._construct up (Cex.mkFetcher [btc_spot] "PRAGMA") btc_spot (cex_btc "42000.12")
  = Return (mkEntry SPOT 6 4200012000000 1696594576
              (S754_finite false 7036874417766400 (-49)) "CEX" "PRAGMA" 0).
Proof.
  exact (proj1
    (@cex_price_is_truncated_product up (Cex.mkFetcher [btc_spot] "PRAGMA") btc_spot
       (cex_btc "42000.12") 1696594576 4200012000000
       (S754_finite false 5772452538498417 (-37))
       (S754_finite false 7036874417766400 (-49))
       (S754_finite false 6710886400000000 (-26))
       eq_refl eq_refl eq_refl eq_refl eq_refl)).
Defined.

(** The theorem on the canned Coinbase rates: 1 / 0.000025 = 40000. *)
Lemma coinbase_price_is_reciprocal_witness :
  exists e,
    @Coinbase._construct up (Coinbase.mkFetcher [btc_spot] "PRAGMA") btc_spot coinbase_usd
    = Return (ItemEntry e)
    /\ price e = 4000000000000 /\ kind e = SPOT /\ source e = "COINBASE".
Proof.
  exact (proj1
    (@coinbase_price_is_reciprocal up (Coinbase.mkFetcher [btc_spot] "PRAGMA") btc_spot
       coinbase_usd
       [("BTC", VStr "0.000025"); ("ETH", VStr "0.0004")] eq_refl)
    (VStr "0.000025") (S754_finite false 7378697629483821 (-68))
    (S754_finite false 6710886400000000 (-26)) 4000000000000
    eq_refl eq_refl eq_refl eq_refl eq_refl).
Defined.

(** C5 as stated fails: the entry of BTCUSD_231229 has its timestamp in
    seconds, and in that unit 2023-12-29T08:00:00Z is 1703836800; the
    expiry_timestamp it carries is a thousand times that. *)
Lemma binance_expiry_not_in_seconds :
  epoch_seconds 2023 12 29 8 0 0 = 1703836800
  /\ exists e,
       @Binance.construct_one up (Binance.mkFetcher [btc_future] "PRAGMA") btc_future
         (inr []) (binance_record "BTCUSD_231229" "42500.00")
       = Return e
       /\ timestamp e = 1703000000
       /\ expiry_timestamp e = 1703836800000
       /\ expiry_timestamp e <> epoch_seconds 2023 12 29 8 0 0.
Proof.
  split; [reflexivity|]. eexists. split; [vm_compute; reflexivity|].
  split; [reflexivity|]. split; [reflexivity|]. discriminate.
Qed.

(** The theorem on the dated record of the canned Binance index. *)
Lemma binance_expiry_in_milliseconds_witness :
  @Binance.construct_one up (Binance.mkFetcher [btc_future] "PRAGMA") btc_future
    (inr []) (binance_record "BTCUSD_231229" "42500.00")
  = Return (mkEntry FUTURE 6 4250000000000 1703000000 (S754_zero false)
              "BINANCE" "PRAGMA" 1703836800000).
Proof.
  assert (Hne : "BTCUSD_231229" <> "BTCUSD") by discriminate.
  exact (proj1 (proj2
    (@binance_expiry_in_milliseconds up (Binance.mkFetcher [btc_future] "PRAGMA")
       btc_future (inr []) (binance_record "BTCUSD_231229" "42500.00")
       "BTCUSD_231229" 1703000000123 4250000000000 1703000000
       (S754_finite false 5841155522560000 (-37)) (S754_zero false)
       eq_refl eq_refl eq_refl eq_refl eq_refl eq_refl))
    "BTCUSD" 23 12 29 eq_refl Hne eq_refl eq_refl).
Defined.

(** The theorem where OKX answers 404 for ETH/USD and lists BTC/USD: the
    ETH/USD future between a spot asset and the BTC/USD future. The fetch
    returns, with the failure before the entries of BTC/USD. *)
Lemma not_found_yields_one_failure_witness :
  status (@http_get up (Okx.format_url "ETH" "USD")) = 404
  /\ exists l1 l2,
       @Okx.fetch_sync up (Okx.mkFetcher [btc_spot] "PRAGMA") = Return l1
       /\ @Okx.fetch_sync up (Okx.mkFetcher [btc_future] "PRAGMA") = Return l2
       /\ @Okx.fetch_sync up
            (Okx.mkFetcher ([btc_spot] ++ eth_future :: [btc_future]) "PRAGMA")
          = Return (l1 ++ [ItemError (mkFetchError "No data found for ETH/USD from OKX")]
                       ++ l2).
Proof.
  assert (H : status (@http_get up (Okx.format_url "ETH" "USD")) = 404)
    by reflexivity.
  split; [exact H|].
  refine (proj2 (proj2 (proj2 (proj2 (proj1 (proj2 (proj2
    (@not_found_yields_one_failure up "ETH" "USD" 8 "PRAGMA" [btc_spot] [btc_future])))
    H)))) _).
  repeat constructor; intros K; [discriminate K|].
  eexists. reflexivity.
Defined.

End FetcherFacts.

(* ===================================================================== *)
(** * More properties of the publisher *)
(* ===================================================================== *)

Module OracleExtras.
Import Oracle OracleReads OracleFacts.

Section WithContract.
Context {Ser : Serialization} {Ctr : Contract}.

Lemma paged_nonempty {A} (pagination : option Z) (l : list A) :
  valid_pagination pagination -> Forall (fun pg => pg <> []) (paged pagination l).
Proof.
  intros Hv. unfold paged. destruct (truthy pagination) eqn:Ht.
  - destruct pagination as [p|]; [|discriminate]. cbn in *.
    destruct (Z.eqb_spec p 0); [discriminate|].
    eapply Forall_impl; [|apply pages_bounded; lia].
    intros pg [H _] ->. cbn in H. lia.
  - destruct l; cbn; constructor; [discriminate|constructor].
Qed.

(** [publish_many] on any list, under a valid setting. *)
Lemma publish_many_any self entries pagination max_fee fuel c :
  valid_pagination pagination -> (length entries < fuel)%nat ->
  let ops :=
    map (spot_page_op max_fee) (paged pagination (SpotEntry_serialize_entries entries))
    ++ map (future_page_op max_fee)
         (paged pagination (FutureEntry_serialize_entries entries)) in
  publish_many fuel self entries pagination max_fee c
  = Done (if len entries =? 0 then None else Some (handles_from c ops)) (c ++ ops).
Proof.
  intros Hv Hfuel ops. destruct entries as [|e entries].
  - subst ops. cbn. rewrite !paged_nil. cbn. now rewrite app_nil_r.
  - rewrite publish_many_run by (auto; discriminate).
    replace (len (e :: entries) =? 0) with false
      by (symmetry; apply Z.eqb_neq; unfold len; cbn [length]; lia).
    reflexivity.
Qed.

Lemma flat_map_payload_spot max_fee pgs :
  flat_map payload (map (spot_page_op max_fee) pgs) = map Spot (concat pgs).
Proof.
  induction pgs as [|pg pgs IH]; [reflexivity|].
  cbn [map flat_map concat]. rewrite IH, map_app. reflexivity.
Qed.

Lemma flat_map_payload_future max_fee pgs :
  flat_map payload (map (future_page_op max_fee) pgs) = map Future (concat pgs).
Proof.
  induction pgs as [|pg pgs IH]; [reflexivity|].
  cbn [map flat_map concat]. rewrite IH, map_app. reflexivity.
Qed.

Lemma groups_permutation (entries : list Entry) :
  Permutation
    (map Spot (SpotEntry_serialize_entries entries)
     ++ map Future (FutureEntry_serialize_entries entries))
    (map envelope_of entries).
Proof.
  unfold SpotEntry_serialize_entries, FutureEntry_serialize_entries.
  induction entries as [|e entries IH]; [constructor|].
  cbn [filter map]. rewrite kind_exclusive.
  change (envelope_of e)
    with (if isinstance_SpotEntry e then Spot (Entry_serialize e)
          else Future (Entry_serialize e)).
  destruct (isinstance_SpotEntry e); cbn [negb map app filter].
  - apply perm_skip. exact IH.
  - symmetry. apply Permutation_cons_app. symmetry. exact IH.
Qed.

(** X1. Under every valid pagination setting [publish_many] returns, and
    what it adds to the chain are writes only, none with an empty payload,
    whose envelopes, taken together in the order of the writes, are the
    envelopes of the spot entries in input order followed by those of the
    future entries in input order; they are a permutation of the
    envelopes of the entries given, so no entry is dropped, none is sent
    twice, and no empty transaction is submitted. *)
Theorem publish_many_no_empty_write (self : Client) (entries : list Entry)
  (pagination : option Z) (max_fee : Z) (fuel : nat) (c : chain) :
  valid_pagination pagination -> (length entries < fuel)%nat ->
  exists r ops,
    publish_many fuel self entries pagination max_fee c = Done r (c ++ ops)
    /\ Forall (fun op => is_invoke op = true /\ payload op <> []) ops
    /\ flat_map payload ops
       = map Spot (SpotEntry_serialize_entries entries)
         ++ map Future (FutureEntry_serialize_entries entries)
    /\ Permutation (flat_map payload ops) (map envelope_of entries).
Proof.
  intros Hv Hfuel. eexists _, _. split; [now apply publish_many_any|].
  assert (E : flat_map payload
                (map (spot_page_op max_fee)
                   (paged pagination (SpotEntry_serialize_entries entries))
                 ++ map (future_page_op max_fee)
                      (paged pagination (FutureEntry_serialize_entries entries)))
              = map Spot (SpotEntry_serialize_entries entries)
                ++ map Future (FutureEntry_serialize_entries entries)).
  { rewrite flat_map_app, flat_map_payload_spot, flat_map_payload_future.
    now rewrite !concat_paged by exact Hv. }
  split; [|split].
  - apply Forall_app. split; apply Forall_map;
      (eapply Forall_impl; [|apply paged_nonempty; exact Hv]);
      intros pg Hpg; (split; [reflexivity|]); cbn;
      destruct pg; [congruence|discriminate|congruence|discriminate].
  - exact E.
  - rewrite E. apply groups_permutation.
Qed.

(** ** One page is enough *)

Lemma ceil_div_one (n p : nat) : (0 < n <= p)%nat -> ceil_div n p = 1%nat.
Proof.
  intros H. unfold ceil_div. symmetry.
  apply (Nat.div_unique (n + p - 1) p 1 (n - 1)); lia.
Qed.

Lemma pages_single {A} (p : nat) (l : list A) :
  (0 < length l <= p)%nat -> pages p l = [l].
Proof.
  intros H. unfold pages. rewrite ceil_div_one by exact H.
  cbn. unfold page. cbn. f_equal. apply firstn_all2. lia.
Qed.

Lemma paged_large {A} (p : Z) (l : list A) :
  0 < p -> (length l <= Z.to_nat p)%nat -> paged (Some p) l = paged None l.
Proof.
  intros Hp Hl. unfold paged. cbn [truthy int_of].
  destruct (Z.eqb_spec p 0); [lia|]. cbn [negb].
  destruct l as [|a l]; [now rewrite pages_nil|].
  rewrite pages_single by (cbn [length] in *; lia).
  unfold len. cbn [length]. now destruct (Z.gtb_spec (Z.of_nat (S (length l))) 0); [|lia].
Qed.

Lemma length_spot_group entries :
  (length (SpotEntry_serialize_entries entries) <= length entries)%nat.
Proof. pose proof (groups_partition entries). lia. Qed.

Lemma length_future_group entries :
  (length (FutureEntry_serialize_entries entries) <= length entries)%nat.
Proof. pose proof (groups_partition entries). lia. Qed.

(** X2. A page size that is at least the number of entries changes
    nothing: [publish_many] then submits the same writes and returns the
    same handles as with pagination switched off (None), and so does the
    page size 0. *)
Theorem publish_many_large_page (self : Client) (entries : list Entry)
  (p max_fee : Z) (fuel : nat) (c : chain) :
  0 < p -> len entries <= p -> (length entries < fuel)%nat ->
  publish_many fuel self entries (Some p) max_fee c
  = publish_many fuel self entries None max_fee c
  /\ publish_many fuel self entries (Some 0) max_fee c
     = publish_many fuel self entries None max_fee c.
Proof.
  intros Hp Hlen Hfuel. split; [|reflexivity]. unfold len in Hlen.
  rewrite !publish_many_any by (cbn; auto; lia).
  pose proof (length_spot_group entries). pose proof (length_future_group entries).
  rewrite !(paged_large p) by lia. reflexivity.
Qed.

(** ** Publishing by kind *)

Lemma filter_filter_same {A} (f : A -> bool) (l : list A) :
  filter f (filter f l) = filter f l.
Proof.
  induction l as [|a l IH]; [reflexivity|]. cbn.
  destruct (f a) eqn:E; cbn; rewrite ?E, IH; reflexivity.
Qed.

Lemma filter_filter_none {A} (f g : A -> bool) (l : list A) :
  (forall a, f a = true -> g a = false) -> filter g (filter f l) = [].
Proof.
  intros H. induction l as [|a l IH]; [reflexivity|]. cbn.
  destruct (f a) eqn:E; cbn; [rewrite (H a E)|]; exact IH.
Qed.

Lemma spot_not_future e : isinstance_SpotEntry e = true -> isinstance_FutureEntry e = false.
Proof. intros H. now rewrite kind_exclusive, H. Qed.

Lemma future_not_spot e : isinstance_FutureEntry e = true -> isinstance_SpotEntry e = false.
Proof. rewrite kind_exclusive. now destruct (isinstance_SpotEntry e). Qed.

Lemma handles_of_outcome {A} (l : list A) c ops :
  (l = [] -> ops = []) ->
  handles_of (if len l =? 0 then None else Some (handles_from c ops))
  = handles_from c ops.
Proof.
  intros H. destruct l; cbn.
  - now rewrite H.
  - unfold len. cbn [length].
    now destruct (Z.eqb_spec (Z.of_nat (S (length l))) 0); [lia|].
Qed.

(** X3. Publishing a mixed list is publishing its spot entries and then
    its future entries: under a valid pagination setting the two calls
    one after the other leave the chain exactly as the single call on the
    whole list does, and the handles of the single call are the handles of
    the first call followed by those of the second. *)
Theorem publish_many_by_kind (self : Client) (entries : list Entry)
  (pagination : option Z) (max_fee : Z) (fuel : nat) (c : chain) :
  valid_pagination pagination -> (length entries < fuel)%nat ->
  exists r1 c1 r2 c2 r,
    publish_many fuel self (filter isinstance_SpotEntry entries) pagination max_fee c
    = Done r1 c1
    /\ publish_many fuel self (filter isinstance_FutureEntry entries) pagination
         max_fee c1
       = Done r2 c2
    /\ publish_many fuel self entries pagination max_fee c = Done r c2
    /\ handles_of r = handles_of r1 ++ handles_of r2.
Proof.
  intros Hv Hfuel.
  pose proof (filter_length_le isinstance_SpotEntry entries) as Ls.
  pose proof (filter_length_le isinstance_FutureEntry entries) as Lf.
  set (spot := SpotEntry_serialize_entries entries).
  set (future := FutureEntry_serialize_entries entries).
  set (sops := map (spot_page_op max_fee) (paged pagination spot)).
  set (fops := map (future_page_op max_fee) (paged pagination future)).
  assert (S1 : SpotEntry_serialize_entries (filter isinstance_SpotEntry entries) = spot).
  { unfold SpotEntry_serialize_entries, spot. now rewrite filter_filter_same. }
  assert (S2 : FutureEntry_serialize_entries (filter isinstance_SpotEntry entries) = []).
  { unfold FutureEntry_serialize_entries.
    now rewrite (filter_filter_none isinstance_SpotEntry isinstance_FutureEntry)
      by apply spot_not_future. }
  assert (F1 : SpotEntry_serialize_entries (filter isinstance_FutureEntry entries) = []).
  { unfold SpotEntry_serialize_entries.
    now rewrite (filter_filter_none isinstance_FutureEntry isinstance_SpotEntry)
      by apply future_not_spot. }
  assert (F2 : FutureEntry_serialize_entries (filter isinstance_FutureEntry entries)
               = future).
  { unfold FutureEntry_serialize_entries, future. now rewrite filter_filter_same. }
  pose proof (publish_many_any self (filter isinstance_SpotEntry entries) pagination
                max_fee fuel c Hv ltac:(lia)) as R1.
  pose proof (publish_many_any self (filter isinstance_FutureEntry entries) pagination
                max_fee fuel (c ++ sops) Hv ltac:(lia)) as R2.
  pose proof (publish_many_any self entries pagination max_fee fuel c Hv Hfuel) as R.
  cbn zeta in R1, R2, R. rewrite S1, S2 in R1. rewrite F1, F2 in R2.
  rewrite paged_nil in R1, R2. cbn [map app] in R1, R2.
  rewrite app_nil_r in R1. fold spot future sops fops in R1, R2, R.
  rewrite <- app_assoc in R2.
  eexists _, _, _, _, _.
  split; [exact R1|]. split; [exact R2|]. split; [exact R|].
  rewrite !handles_of_outcome.
  - apply handles_from_app.
  - intros E. subst fops future. unfold FutureEntry_serialize_entries.
    rewrite E. cbn. now rewrite paged_nil.
  - intros E. subst sops spot. unfold SpotEntry_serialize_entries.
    rewrite E. cbn. now rewrite paged_nil.
  - intros ->. subst sops fops spot future. cbn. now rewrite !paged_nil.
Qed.

(** ** A negative page size *)

(** A loop whose condition holds on an invariant that the body keeps, the
    body never raising, uses up any fuel. *)
Lemma while_diverges {S : Type} (I : S -> Prop) (cond : S -> bool) (body : S -> M S) :
  (forall s, I s -> cond s = true) ->
  (forall s c, I s -> exists s' c', body s c = Done s' c' /\ I s') ->
  forall fuel s c, I s -> while fuel cond body s c = OutOfFuel.
Proof.
  intros Hc Hb. induction fuel as [|fuel IH]; intros s c Hs; [reflexivity|].
  cbn [while]. rewrite (Hc s Hs).
  destruct (Hb s c Hs) as (s' & c' & -> & Hs'). now apply IH.
Qed.

Lemma negative_loop {X} (mk : list X -> M InvokeResult) (l : list X) (p : Z)
  (invs : list InvokeResult) fuel c :
  p < 0 -> l <> [] ->
  (forall pg c, exists h c', mk pg c = Done h c') ->
  while fuel
    (fun '(ix, _) => ix <? len l)
    (fun '(ix, invocations) =>
       bind (mk (slice l ix (ix + p)))
         (fun invocation => ret (ix + p, invocations ++ [invocation])))
    (0, invs) c
  = OutOfFuel.
Proof.
  intros Hp Hl Hmk.
  apply (while_diverges (fun st => fst st <= 0)); [| |cbn; lia].
  - intros [ix i]. cbn. intros H. apply Z.ltb_lt. unfold len.
    destruct l; [congruence|]. cbn [length]. lia.
  - intros [ix i] c0. cbn. intros H. unfold bind, ret.
    destruct (Hmk (slice l ix (ix + p)) c0) as (h & c' & ->).
    eexists _, _. split; [reflexivity|]. cbn. lia.
Qed.

Lemma negative_checkpoint_loop (mk : list Z -> M InvokeResult) (l : list Z) (p : Z)
  fuel c :
  p < 0 -> l <> [] ->
  (forall pg c, exists h c', mk pg c = Done h c') ->
  while fuel
    (fun '(ix, _) => ix <? len l)
    (fun '(ix, _) =>
       bind (mk (slice l ix (ix + p)))
         (fun invocation => ret (ix + p, Some invocation)))
    (0, @None InvokeResult) c
  = OutOfFuel.
Proof.
  intros Hp Hl Hmk.
  apply (while_diverges (fun st => fst st <= 0)); [| |cbn; lia].
  - intros [ix i]. cbn. intros H. apply Z.ltb_lt. unfold len.
    destruct l; [congruence|]. cbn [length]. lia.
  - intros [ix i] c0. cbn. intros H. unfold bind, ret.
    destruct (Hmk (slice l ix (ix + p)) c0) as (h & c' & ->).
    eexists _, _. split; [reflexivity|]. cbn. lia.
Qed.

Lemma empty_loop {X S'} (body : Z * S' -> M (Z * S')) (acc : S') fuel c :
  while (Datatypes.S fuel) (fun '(ix, _) => ix <? len (@nil X)) body (0, acc) c
  = Done (0, acc) c.
Proof. reflexivity. Qed.

Lemma invoke_returns fn args max_fee c :
  exists h c', invoke fn args max_fee c = Done h c'.
Proof. unfold invoke. eauto. Qed.

(** X4. A negative page size is accepted by the signatures, and the loops
    never end on it: on a non-empty entry list [publish_many], and on a
    non-empty pair id list the two checkpoint writers, move the cursor
    backwards for ever, submitting writes without returning, whatever the
    fuel. *)
Theorem negative_page_size_never_returns (self : Client) (p max_fee : Z) (c : chain) :
  p < 0 ->
  (forall entries fuel,
     entries <> [] ->
     publish_many fuel self entries (Some p) max_fee c = OutOfFuel)
  /\ (forall pair_ids expiry_timestamps mode fuel,
        pair_ids <> [] -> is_user_client self = true ->
        set_checkpoints fuel self pair_ids mode max_fee (Some p) c = OutOfFuel
        /\ set_future_checkpoints fuel self pair_ids expiry_timestamps mode max_fee
             (Some p) c
           = OutOfFuel).
Proof.
  intros Hp. split.
  - intros entries fuel Hne. unfold publish_many.
    replace (len entries =? 0) with false
      by (symmetry; apply Z.eqb_neq; unfold len; destruct entries; [congruence|cbn; lia]).
    cbn [truthy int_of]. destruct (Z.eqb_spec p 0); [lia|]. cbn [negb].
    destruct (SpotEntry_serialize_entries entries) as [|s spot] eqn:Es.
    + unfold bind at 1. unfold bind at 1.
      destruct fuel as [|fuel]; [reflexivity|].
      rewrite (empty_loop (X := serialized_entry)).
      unfold ret at 1. unfold bind at 1. unfold bind at 1.
      rewrite (negative_loop
                 (fun pg => invoke "publish_data_entries" [A_entries (map Future pg)] max_fee));
        [reflexivity|exact Hp| |intros; apply invoke_returns].
      intros Ef. pose proof (groups_partition entries) as G.
      rewrite Es, Ef in G. cbn in G. destruct entries; [congruence|discriminate].
    + unfold bind at 1. unfold bind at 1.
      rewrite (negative_loop
                 (fun pg => invoke "publish_data_entries" [A_entries (map Spot pg)] max_fee));
        [reflexivity|exact Hp|discriminate|intros; apply invoke_returns].
  - intros pair_ids expiry_timestamps mode fuel Hne Hacc. split.
    + unfold set_checkpoints. rewrite Hacc. cbn [negb truthy int_of].
      destruct (Z.eqb_spec p 0); [lia|]. cbn [negb].
      unfold bind at 1. unfold bind at 1.
      rewrite (negative_checkpoint_loop
                 (fun pg => invoke "set_checkpoints"
                    [A_data_types (map (fun pair_id => DataType_serialize SPOT pair_id None) pg);
                     A_mode (AggregationMode_serialize mode)] max_fee));
        [reflexivity|exact Hp|exact Hne|intros; apply invoke_returns].
    + unfold set_future_checkpoints. rewrite Hacc. cbn [negb truthy int_of].
      destruct (Z.eqb_spec p 0); [lia|]. cbn [negb].
      unfold bind at 1. unfold bind at 1.
      rewrite (negative_checkpoint_loop
                 (fun pg => invoke "set_checkpoints"
                    [A_ints pg; A_ints expiry_timestamps;
                     A_mode (AggregationMode_serialize mode)] max_fee));
        [reflexivity|exact Hp|exact Hne|intros; apply invoke_returns].
Qed.

(** ** Edges of the checkpoint writers *)

(** X5. With an account, the two checkpoint writers differ on the empty
    pair id list by the pagination setting: under a page size (any integer
    but 0) the loop body never runs, nothing is written and the return of
    the unbound local raises UnboundLocalError; with pagination None or 0
    every list, the empty one included, goes out as a single write whose
    handle is returned. *)
Theorem checkpoints_empty_and_unpaginated (self : Client) (mode : AggregationMode)
  (max_fee : Z) (c : chain) :
  is_user_client self = true ->
  (forall p fuel expiry_timestamps,
     p <> 0 -> (0 < fuel)%nat ->
     set_checkpoints fuel self [] mode max_fee (Some p) c
     = Raised (UnboundLocalError "invocation") c
     /\ set_future_checkpoints fuel self [] expiry_timestamps mode max_fee (Some p) c
        = Raised (UnboundLocalError "invocation") c)
  /\ (forall pagination fuel pair_ids expiry_timestamps,
        truthy pagination = false ->
        let op := checkpoint_page_op mode max_fee pair_ids in
        let future_op :=
          future_checkpoint_page_op expiry_timestamps mode max_fee pair_ids in
        set_checkpoints fuel self pair_ids mode max_fee pagination c
        = Done (mkInvokeResult (tx_hash c op) op) (c ++ [op])
        /\ set_future_checkpoints fuel self pair_ids expiry_timestamps mode max_fee
             pagination c
           = Done (mkInvokeResult (tx_hash c future_op) future_op) (c ++ [future_op])).
Proof.
  intros Hacc. split.
  - intros p fuel expiry_timestamps Hp Hfuel.
    unfold set_checkpoints, set_future_checkpoints. rewrite Hacc.
    cbn [negb truthy]. destruct (Z.eqb_spec p 0); [contradiction|].
    destruct fuel; [lia|]. split; reflexivity.
  - intros pagination fuel pair_ids expiry_timestamps Ht op future_op.
    unfold set_checkpoints, set_future_checkpoints. rewrite Hacc, Ht.
    split; reflexivity.
Qed.

(** X6. Every write of [set_future_checkpoints] carries the whole list of
    expiry timestamps: with an account, a positive page size and at least
    one pair id, each of the ceil(n/p) pages holds its own slice of the
    pair ids next to all the expiries, so the two lists of a page differ in
    length as soon as there is more than one page. *)
Theorem future_checkpoints_carry_all_expiries (self : Client)
  (pair_ids expiry_timestamps : list Z) (mode : AggregationMode)
  (max_fee p : Z) (fuel : nat) (c : chain) :
  is_user_client self = true -> pair_ids <> [] -> 0 < p ->
  (length pair_ids < fuel)%nat ->
  exists ops h,
    set_future_checkpoints fuel self pair_ids expiry_timestamps mode max_fee
      (Some p) c
    = Done h (c ++ ops)
    /\ length ops = ceil_div (length pair_ids) (Z.to_nat p)
    /\ Forall (fun op => checkpoint_expiries op = Some expiry_timestamps
                         /\ function_name op = "set_checkpoints") ops
    /\ (length expiry_timestamps = length pair_ids ->
        (Z.to_nat p < length pair_ids)%nat ->
        Forall (fun op => (length (checkpoint_pair_ids op)
                           < length expiry_timestamps)%nat) ops).
Proof.
  intros Hacc Hne Hp Hfuel.
  destruct (set_future_checkpoints_run self pair_ids expiry_timestamps mode max_fee
              p fuel c Hacc Hne Hp Hfuel) as (earlier & h & E & R).
  eexists _, h. split; [exact R|]. split; [|split].
  - now rewrite length_map, length_pages.
  - apply Forall_map, Forall_forall. intros pg _. split; reflexivity.
  - intros Hlen Hmany. apply Forall_map.
    eapply Forall_impl; [|apply (pages_bounded (Z.to_nat p) pair_ids); lia].
    intros pg [_ Hpg]. cbn. lia.
Qed.

(** ** The reads *)

Section Raw.
Context {Raw : RawReads}.

(** X7. No read writes. [get_spot], [get_future], [get_spot_entries],
    [get_future_entries] and [get_decimals] append exactly one call to the
    chain and leave its writes as they were; a pair id that is neither a
    string nor an integer makes the first four raise TypeError with the
    chain untouched; a symbol string reads exactly as its felt. The two
    entry reads always use [get_data_entries_for_sources], also for the
    default empty source list, and return one entry per raw entry of the
    answer, in order. *)
Theorem reads_do_not_write (expiry_timestamp : Z) (mode : AggregationMode)
  (agg_sources : option (list Z)) (sources : list Z) (c : chain) :
  (forall pair_id,
     pair_id <> PairOther ->
     exists op1 op2 op3 op4 r1 r2,
       get_spot pair_id mode agg_sources c = Done r1 (c ++ [op1])
       /\ get_future pair_id expiry_timestamp mode agg_sources c = Done r2 (c ++ [op2])
       /\ get_spot_entries pair_id sources c
          = Done (map SpotEntry_from_dict (view_entries c op3)) (c ++ [op3])
       /\ get_future_entries pair_id expiry_timestamp sources c
          = Done (map FutureEntry_from_dict (view_entries c op4)) (c ++ [op4])
       /\ function_name op3 = "get_data_entries_for_sources"
       /\ function_name op4 = "get_data_entries_for_sources"
       /\ Forall (fun op => is_invoke op = false /\ writes (c ++ [op]) = writes c)
            [op1; op2; op3; op4])
  /\ (forall data_type,
        exists op, get_decimals data_type c = Done (view_decimals c op) (c ++ [op])
                   /\ is_invoke op = false /\ writes (c ++ [op]) = writes c)
  /\ (exists msg,
        get_spot PairOther mode agg_sources c = Raised (TypeError msg) c
        /\ get_future PairOther expiry_timestamp mode agg_sources c
           = Raised (TypeError msg) c
        /\ get_spot_entries PairOther sources c = Raised (TypeError msg) c
        /\ get_future_entries PairOther expiry_timestamp sources c
           = Raised (TypeError msg) c)
  /\ (forall s,
        get_spot (PairStr s) mode agg_sources c
        = get_spot (PairInt (str_to_felt s)) mode agg_sources c
        /\ get_future (PairStr s) expiry_timestamp mode agg_sources c
           = get_future (PairInt (str_to_felt s)) expiry_timestamp mode agg_sources c
        /\ get_spot_entries (PairStr s) sources c
           = get_spot_entries (PairInt (str_to_felt s)) sources c
        /\ get_future_entries (PairStr s) expiry_timestamp sources c
           = get_future_entries (PairInt (str_to_felt s)) expiry_timestamp sources c).
Proof.
  assert (W : forall fn args, writes (c ++ [Call fn args]) = writes c).
  { intros. unfold writes. rewrite filter_app. cbn. apply app_nil_r. }
  split; [|split; [|split]].
  - intros pair_id Hp.
    destruct pair_id as [s|z|]; [| |congruence]; destruct agg_sources as [l|];
      cbn; unfold bind, call, call_with, ret; cbn;
      eexists _, _, _, _, _, _;
      (split; [reflexivity|]); (split; [reflexivity|]); (split; [reflexivity|]);
      (split; [reflexivity|]); (split; [reflexivity|]); (split; [reflexivity|]);
      repeat constructor; apply W.
  - intros data_type. eexists. split; [reflexivity|]. split; [reflexivity|apply W].
  - eexists. repeat split.
  - intros s. repeat split.
Qed.

End Raw.

End WithContract.

Lemma publish_many_no_empty_write_witness :
  exists r ops,
    @publish_many Demo.serialization Demo.contract 4 (mkClient true)
      [Demo.future_entry 2; Demo.spot_entry 1; Demo.future_entry 5] None
      default_max_fee []
    = Done r ([] ++ ops)
    /\ Forall (fun op => is_invoke op = true /\ payload op <> []) ops
    /\ flat_map payload ops
       = [@Spot Demo.serialization (Demo.spot_entry 1);
          @Future Demo.serialization (Demo.future_entry 2);
          @Future Demo.serialization (Demo.future_entry 5)]
    /\ Permutation (flat_map payload ops)
         [@Future Demo.serialization (Demo.future_entry 2);
          @Spot Demo.serialization (Demo.spot_entry 1);
          @Future Demo.serialization (Demo.future_entry 5)].
Proof.
  assert (H1 : valid_pagination None) by exact I.
  assert (H2 : (length [Demo.future_entry 2; Demo.spot_entry 1; Demo.future_entry 5]
                < 4)%nat) by (cbn; repeat constructor).
  exact (@publish_many_no_empty_write Demo.serialization Demo.contract (mkClient true)
           [Demo.future_entry 2; Demo.spot_entry 1; Demo.future_entry 5] None
           default_max_fee 4 [] H1 H2).
Defined.

Lemma publish_many_large_page_witness :
  let entries := [Demo.future_entry 2; Demo.spot_entry 1; Demo.future_entry 5] in
  (0 < 40 /\ len entries <= 40 /\ (length entries < 4)%nat)
  /\ @publish_many Demo.serialization Demo.contract 4 (mkClient true) entries
       (Some 40) default_max_fee []
     = @publish_many Demo.serialization Demo.contract 4 (mkClient true) entries
         None default_max_fee [].
Proof.
  intros entries.
  assert (H1 : 0 < 40) by reflexivity.
  assert (H2 : len entries <= 40) by (cbn; discriminate).
  assert (H3 : (length entries < 4)%nat) by (cbn; repeat constructor).
  split; [now repeat split|].
  exact (proj1 (@publish_many_large_page Demo.serialization Demo.contract
                  (mkClient true) entries 40 default_max_fee 4 [] H1 H2 H3)).
Defined.

Lemma publish_many_by_kind_witness :
  let entries := [Demo.future_entry 2; Demo.spot_entry 1; Demo.future_entry 5] in
  exists r1 c1 r2 c2 r,
    @publish_many Demo.serialization Demo.contract 4 (mkClient true)
      (filter isinstance_SpotEntry entries) (Some 1) default_max_fee []
    = Done r1 c1
    /\ @publish_many Demo.serialization Demo.contract 4 (mkClient true)
         (filter isinstance_FutureEntry entries) (Some 1) default_max_fee c1
       = Done r2 c2
    /\ @publish_many Demo.serialization Demo.contract 4 (mkClient true) entries
         (Some 1) default_max_fee []
       = Done r c2
    /\ handles_of r = handles_of r1 ++ handles_of r2.
Proof.
  intros entries.
  assert (H1 : valid_pagination (Some 1)) by (cbn; discriminate).
  assert (H2 : (length entries < 4)%nat) by (cbn; repeat constructor).
  exact (@publish_many_by_kind Demo.serialization Demo.contract (mkClient true)
           entries (Some 1) default_max_fee 4 [] H1 H2).
Defined.

Lemma negative_page_size_never_returns_witness :
  @publish_many Demo.serialization Demo.contract 1000 (mkClient true)
    [Demo.future_entry 2] (Some (-40)) default_max_fee []
  = OutOfFuel.
Proof.
  assert (H1 : -40 < 0) by reflexivity.
  assert (H2 : [Demo.future_entry 2] <> []) by discriminate.
  exact (proj1 (@negative_page_size_never_returns Demo.serialization Demo.contract
                  (mkClient true) (-40) default_max_fee [] H1)
           [Demo.future_entry 2] 1000%nat H2).
Defined.

Lemma checkpoints_empty_and_unpaginated_witness :
  @set_checkpoints Demo.serialization Demo.contract 1 (mkClient true) [] Demo.Median
    default_max_fee set_checkpoints_default_pagination []
  = Raised (UnboundLocalError "invocation") [].
Proof.
  assert (H : is_user_client (mkClient true) = true) by reflexivity.
  assert (Hp : 15 <> 0) by discriminate.
  assert (Hf : (0 < 1)%nat) by constructor.
  exact (proj1 (proj1 (@checkpoints_empty_and_unpaginated Demo.serialization
                         Demo.contract (mkClient true) Demo.Median default_max_fee [] H)
                  15 1%nat [] Hp Hf)).
Defined.

Lemma future_checkpoints_carry_all_expiries_witness :
  exists ops h,
    @set_future_checkpoints Demo.serialization Demo.contract 4 (mkClient true)
      [1; 2; 3] [10; 20; 30] Demo.Median default_max_fee (Some 2) []
    = Done h ([] ++ ops)
    /\ length ops = 2%nat
    /\ Forall (fun op => checkpoint_expiries op = Some [10; 20; 30]
                         /\ function_name op = "set_checkpoints") ops
    /\ (length [10; 20; 30] = length [1; 2; 3] ->
        (Z.to_nat 2 < length [1; 2; 3])%nat ->
        Forall (fun op => (length (checkpoint_pair_ids op) < length [10; 20; 30])%nat)
          ops).
Proof.
  assert (H1 : is_user_client (mkClient true) = true) by reflexivity.
  assert (H2 : [1; 2; 3] <> []) by discriminate.
  assert (H3 : 0 < 2) by reflexivity.
  assert (H4 : (length [1; 2; 3] < 4)%nat) by (cbn; repeat constructor).
  exact (@future_checkpoints_carry_all_expiries Demo.serialization Demo.contract
           (mkClient true) [1; 2; 3] [10; 20; 30] Demo.Median default_max_fee 2 4 []
           H1 H2 H3 H4).
Defined.

End OracleExtras.

(* ===================================================================== *)
(** * More properties of the fetchers *)
(* ===================================================================== *)

Module FetcherExtras.
Import Spec Vocab FetcherFacts.
Local Open Scope py_scope.

Lemma Forall2_map_right {A B} (P : A -> B -> Prop) (f : A -> B) (l : list A) :
  (forall a, P a (f a)) -> Forall2 P l (map f l).
Proof. intros H. induction l; cbn; constructor; auto. Qed.

Lemma flat_map_map {A B C} (f : A -> B) (g : B -> list C) (l : list A) :
  flat_map g (map f l) = flat_map (fun a => g (f a)) l.
Proof. induction l; cbn; congruence. Qed.

Lemma flat_map_single {A B} (f : A -> B) (l : list A) :
  flat_map (fun a => [f a]) l = map f l.
Proof. induction l; cbn; congruence. Qed.

Lemma for_each_ext {A B} (f g : B -> A -> py B) :
  (forall acc a, f acc a = g acc a) ->
  forall l acc, for_each f l acc = for_each g l acc.
Proof.
  intros H. induction l as [|a l IH]; intros acc; cbn; [reflexivity|].
  rewrite H. destruct (g acc a); cbn; auto.
Qed.

Lemma map_eq_Return {A B} (g : A -> py B) (l : list A) (r : list B) :
  map g l = map Return r <-> Forall2 (fun a x => g a = Return x) l r.
Proof.
  revert r. induction l as [|a l IH]; intros [|x r]; cbn; split; intros H;
    try discriminate; try constructor; try (inversion H; fail).
  - now injection H.
  - apply IH. now injection H.
  - inversion H; subst. f_equal; [assumption|now apply IH].
Qed.

Ltac bind_cases H :=
  repeat match type of H with
         | py_bind ?x _ = Return _ =>
             let E := fresh "E" in
             destruct x eqn:E; cbn [py_bind] in H; [|discriminate H]
         end.

Ltac if_case H :=
  match type of H with (if ?c then _ else _) = _ => destruct c end.

Section WithWorld.
Context {W : World}.

(** ** Every pair not found *)

Lemma failure_message (source : string) (a : Asset) :
  mkFetchError ("No data found for " ++ pair_str (pair a) ++ " from " ++ source)%string
  = failure_of source a.
Proof.
  unfold failure_of. destruct a as [t [b q] d]. cbn [pair fst snd].
  now rewrite no_data_message.
Qed.

Lemma pair_not_found (a : Asset) :
  (forall url, status (http_get url) = 404) ->
  (forall self,
     Cex._fetch_pair self a = Return (ItemError (failure_of "CEX" a))
     /\ Cex._fetch_pair_sync self a = Return (ItemError (failure_of "CEX" a)))
  /\ (forall self,
        Coinbase._fetch_pair self a = Return (ItemError (failure_of "Coinbase" a))
        /\ Coinbase._fetch_pair_sync self a
           = Return (ItemError (failure_of "Coinbase" a)))
  /\ (forall self,
        Okx._fetch_pair self a = Return (PairError (failure_of "OKX" a))
        /\ Okx._fetch_pair_sync self a = Return (PairError (failure_of "OKX" a)))
  /\ (forall self,
        Binance._fetch_pair self a = Return (PairError (failure_of "Binance" a))
        /\ Binance._fetch_pair_sync self a
           = Return (PairError (failure_of "Binance" a))).
Proof.
  intros H.
  repeat split;
    unfold Cex._fetch_pair, Cex._fetch_pair_sync, Coinbase._fetch_pair,
      Coinbase._fetch_pair_sync, Okx._fetch_pair, Okx._fetch_pair_sync,
      Binance._fetch_pair, Binance._fetch_pair_sync;
    rewrite H; cbn [Z.eqb Pos.eqb];
    rewrite <- failure_message; reflexivity.
Qed.

Lemma collect_all {A X} (keep : A -> bool) (g : A -> py X) (h : X -> list item)
  (f : list item -> A -> py (list item)) (t : A -> X) (l : list A) :
  (forall acc a,
     f acc a = if negb (keep a) then Return acc
               else py_bind (g a) (fun x => Return (acc ++ h x))) ->
  (forall a, g a = Return (t a)) ->
  for_each f l [] = Return (flat_map (fun a => h (t a)) (filter keep l)).
Proof.
  intros Hf Hg. apply (for_each_collect keep g h f Hf).
  exists (map t (filter keep l)). split.
  - now apply Forall2_map_right.
  - cbn. now rewrite flat_map_map.
Qed.

Lemma spot_sync_all (fetch_pair : Asset -> py item) (t : Asset -> item)
  (assets : list Asset) :
  (forall a, fetch_pair a = Return (t a)) ->
  for_each
    (fun entries asset =>
       if negb (String.eqb (asset_type asset) "SPOT") then Return entries
       else py_bind (fetch_pair asset) (fun e => Return (entries ++ [e])))
    assets []
  = Return (map t (filter is_spot assets)).
Proof.
  intros H. rewrite <- flat_map_single.
  now apply (collect_all is_spot fetch_pair (fun x => [x])).
Qed.

Lemma future_all (fetch_pair : Asset -> py pair_result)
  (collect : list item -> pair_result -> list item) (t : Asset -> pair_result)
  (assets : list Asset) :
  (forall entries r, collect entries r = entries ++ items_of r) ->
  (forall a, fetch_pair a = Return (t a)) ->
  for_each
    (fun entries asset =>
       if negb (String.eqb (asset_type asset) "FUTURE") then Return entries
       else py_bind (fetch_pair asset)
              (fun future_entries => Return (collect entries future_entries)))
    assets []
  = Return (flat_map (fun a => items_of (t a)) (filter is_future assets)).
Proof.
  intros Hc H.
  apply (collect_all is_future fetch_pair items_of); [|exact H].
  now apply future_shape.
Qed.

(** X8. When every request is answered 404, no fetcher raises: [fetch]
    and [fetch_sync] of the four fetchers return, for any asset list, the
    FetchFailure "No data found for BASE/QUOTE from SOURCE" of each asset
    of the fetcher's kind, in the order of the list, and nothing else. *)
Theorem all_pairs_not_found (assets : list Asset) (publisher : string) :
  (forall url, status (http_get url) = 404) ->
  let failures source keep :=
    map (fun a => ItemError (failure_of source a)) (filter keep assets) in
  Cex.fetch (Cex.mkFetcher assets publisher) = map Return (failures "CEX" is_spot)
  /\ Cex.fetch_sync (Cex.mkFetcher assets publisher) = Return (failures "CEX" is_spot)
  /\ Coinbase.fetch (Coinbase.mkFetcher assets publisher)
     = map Return (failures "Coinbase" is_spot)
  /\ Coinbase.fetch_sync (Coinbase.mkFetcher assets publisher)
     = Return (failures "Coinbase" is_spot)
  /\ Okx.fetch (Okx.mkFetcher assets publisher) = Return (failures "OKX" is_future)
  /\ Okx.fetch_sync (Okx.mkFetcher assets publisher) = Return (failures "OKX" is_future)
  /\ Binance.fetch (Binance.mkFetcher assets publisher)
     = Return (failures "Binance" is_future)
  /\ Binance.fetch_sync (Binance.mkFetcher assets publisher)
     = Return (failures "Binance" is_future).
Proof.
  intros H failures. subst failures. cbn beta.
  assert (P := fun a => pair_not_found a H).
  split; [|split; [|split; [|split; [|split; [|split; [|split]]]]]].
  - unfold Cex.fetch. rewrite (fold_gather is_spot). cbn [app Cex.assets].
    rewrite map_map. apply map_ext. intros a. apply (proj1 (P a)).
  - apply (spot_sync_all (Cex._fetch_pair_sync (Cex.mkFetcher assets publisher))).
    intros a. apply (proj1 (P a)).
  - unfold Coinbase.fetch. rewrite (fold_gather is_spot). cbn [app Coinbase.assets].
    rewrite map_map. apply map_ext. intros a. apply (proj1 (proj2 (P a))).
  - apply (spot_sync_all
             (Coinbase._fetch_pair_sync (Coinbase.mkFetcher assets publisher))).
    intros a. apply (proj1 (proj2 (P a))).
  - rewrite <- flat_map_single.
    apply (future_all (Okx._fetch_pair (Okx.mkFetcher assets publisher)) Okx.collect
             (fun a => PairError (failure_of "OKX" a)) assets okx_collect).
    intros a. apply (proj1 (proj2 (proj2 (P a)))).
  - rewrite <- flat_map_single.
    apply (future_all (Okx._fetch_pair_sync (Okx.mkFetcher assets publisher))
             Okx.collect (fun a => PairError (failure_of "OKX" a)) assets okx_collect).
    intros a. apply (proj1 (proj2 (proj2 (P a)))).
  - rewrite <- flat_map_single.
    apply (future_all (Binance._fetch_pair (Binance.mkFetcher assets publisher))
             Binance.collect (fun a => PairError (failure_of "Binance" a)) assets
             binance_collect).
    intros a. apply (proj2 (proj2 (proj2 (P a)))).
  - rewrite <- flat_map_single.
    apply (future_all (Binance._fetch_pair_sync (Binance.mkFetcher assets publisher))
             Binance.collect (fun a => PairError (failure_of "Binance" a)) assets
             binance_collect).
    intros a. apply (proj2 (proj2 (proj2 (P a)))).
Qed.

(** ** The two variants *)

Section Agreement.
Hypothesis json_everywhere : forall url,
  status (http_get url) = 404
  \/ (is_json (content_type (http_get url)) = true
      /\ json_content_type (content_type (http_get url)) = true).

Lemma async_body (url : string) {A} (x : py A) (k_async k_sync : Response -> py A) :
  (is_json (content_type (http_get url)) = true ->
   json_content_type (content_type (http_get url)) = true ->
   k_async (http_get url) = k_sync (http_get url)) ->
  (if status (http_get url) =? 404 then x else k_async (http_get url))
  = (if status (http_get url) =? 404 then x else k_sync (http_get url)).
Proof.
  intros H. destruct (Z.eqb_spec (status (http_get url)) 404) as [|Hne]; [reflexivity|].
  destruct (json_everywhere url) as [E|[H1 H2]]; [contradiction|]. now apply H.
Qed.

Lemma cex_pair_agree self a : Cex._fetch_pair self a = Cex._fetch_pair_sync self a.
Proof.
  unfold Cex._fetch_pair, Cex._fetch_pair_sync. cbn zeta.
  apply (async_body _ _
           (fun resp =>
              py_bind (if is_json (content_type resp) then json_loads resp
                       else Raise (ValueError ("CEX: Unexpected content type: "
                                               ++ content_type resp)%string)) _)
           (fun resp => py_bind (json_loads resp) _)).
  intros H _. now rewrite H.
Qed.

Lemma coinbase_pair_agree self a :
  Coinbase._fetch_pair self a = Coinbase._fetch_pair_sync self a.
Proof.
  unfold Coinbase._fetch_pair, Coinbase._fetch_pair_sync. cbn zeta.
  apply (async_body _ _
           (fun resp => py_bind (aiohttp_json resp) _)
           (fun resp => py_bind (json_loads resp) _)).
  intros _ H. unfold aiohttp_json. now rewrite H.
Qed.

Lemma okx_expiry_agree self a id :
  Okx.fetch_expiry_timestamp self a id = Okx.fetch_sync_expiry_timestamp self a id.
Proof.
  unfold Okx.fetch_expiry_timestamp, Okx.fetch_sync_expiry_timestamp. cbn zeta.
  apply (async_body _ _
           (fun resp => py_bind (aiohttp_json resp) _)
           (fun resp => py_bind (json_loads resp) _)).
  intros _ H. unfold aiohttp_json. now rewrite H.
Qed.

Lemma okx_construct_all_agree self a result n :
  Okx.construct_all self a (Okx.fetch_expiry_timestamp self a) result n
  = Okx.construct_all self a (Okx.fetch_sync_expiry_timestamp self a) result n.
Proof.
  unfold Okx.construct_all. apply for_each_ext. intros acc i.
  destruct (getitem result "data") as [data|]; cbn [py_bind]; [|reflexivity].
  destruct (getindex data i) as [data_i|]; cbn [py_bind]; [|reflexivity].
  destruct (getitem data_i "instId") as [id|]; cbn [py_bind]; [|reflexivity].
  now rewrite okx_expiry_agree.
Qed.

Lemma okx_pair_agree self a : Okx._fetch_pair self a = Okx._fetch_pair_sync self a.
Proof.
  unfold Okx._fetch_pair, Okx._fetch_pair_sync. cbn zeta.
  apply (async_body _ _
           (fun resp =>
              py_bind (if is_json (content_type resp) then json_loads resp
                       else Raise (ValueError ("OKX: Unexpected content type: "
                                               ++ content_type resp)%string)) _)
           (fun resp => py_bind (json_loads resp) _)).
  intros H _. rewrite H.
  destruct (json_loads _) as [result|]; cbn [py_bind]; [|reflexivity].
  destruct (Okx.unknown_instrument result) as [[|]|]; cbn [py_bind]; try reflexivity.
  destruct (py_bind (getitem result "data") _) as [n|]; cbn [py_bind]; [|reflexivity].
  now rewrite okx_construct_all_agree.
Qed.

Lemma binance_volume_agree self a :
  Binance.fetch_volume self a = Binance.fetch_volume_sync self a.
Proof.
  unfold Binance.fetch_volume, Binance.fetch_volume_sync. cbn zeta.
  apply (async_body _ _
           (fun resp => py_bind (aiohttp_json resp) _)
           (fun resp => py_bind (json_loads resp) _)).
  intros _ H. unfold aiohttp_json. now rewrite H.
Qed.

Lemma binance_pair_agree self a :
  Binance._fetch_pair self a = Binance._fetch_pair_sync self a.
Proof.
  unfold Binance._fetch_pair, Binance._fetch_pair_sync. cbn zeta.
  apply (async_body _ _
           (fun resp =>
              py_bind (if is_json (content_type resp) then json_loads resp
                       else Raise (ValueError ("Binance: Unexpected content type: "
                                               ++ content_type resp)%string)) _)
           (fun resp => py_bind (json_loads resp) _)).
  intros H _. rewrite H. now rewrite binance_volume_agree.
Qed.

End Agreement.

(** X9. The concurrent and the sequential variant give the same result
    whenever every answer that is not a 404 has a JSON content type (one
    that passes both the fetchers' own test and aiohttp's) and a body that
    decodes as JSON: [fetch] and [fetch_sync] of OKX and of Binance are
    then equal, the exceptions raised while the decoded answer is
    processed included, and for CEX and Coinbase [fetch] holds the values
    [l] without any captured exception exactly when [fetch_sync] returns
    [l]. The sequential variants never look at the content type. *)
Theorem sync_and_async_agree :
  (forall url,
     status (http_get url) = 404
     \/ (is_json (content_type (http_get url)) = true
         /\ json_content_type (content_type (http_get url)) = true
         /\ body (http_get url) <> None)) ->
  (forall self l, Cex.fetch self = map Return l <-> Cex.fetch_sync self = Return l)
  /\ (forall self l,
        Coinbase.fetch self = map Return l <-> Coinbase.fetch_sync self = Return l)
  /\ (forall self, Okx.fetch self = Okx.fetch_sync self)
  /\ (forall self, Binance.fetch self = Binance.fetch_sync self).
Proof.
  intros Hall.
  assert (H : forall url,
             status (http_get url) = 404
             \/ (is_json (content_type (http_get url)) = true
                 /\ json_content_type (content_type (http_get url)) = true)).
  { intros url. destruct (Hall url) as [E|(E1 & E2 & _)]; [now left|now right]. }
  split; [|split; [|split]].
  - intros self l. unfold Cex.fetch. rewrite (fold_gather is_spot). cbn [app].
    rewrite map_eq_Return.
    pose proof (spot_fetch_sync (Cex._fetch_pair_sync self) (Cex.assets self) l) as S.
    split.
    + intros F. apply (proj2 S). revert F. apply Forall2_impl.
      intros a it. now rewrite (cex_pair_agree H).
    + intros E. apply (proj1 S) in E. revert E. apply Forall2_impl.
      intros a it. now rewrite (cex_pair_agree H).
  - intros self l. unfold Coinbase.fetch. rewrite (fold_gather is_spot). cbn [app].
    rewrite map_eq_Return.
    pose proof (spot_fetch_sync (Coinbase._fetch_pair_sync self) (Coinbase.assets self) l) as S.
    split.
    + intros F. apply (proj2 S). revert F. apply Forall2_impl.
      intros a it. now rewrite (coinbase_pair_agree H).
    + intros E. apply (proj1 S) in E. revert E. apply Forall2_impl.
      intros a it. now rewrite (coinbase_pair_agree H).
  - intros self. unfold Okx.fetch, Okx.fetch_sync. apply for_each_ext.
    intros acc a. now rewrite (okx_pair_agree H).
  - intros self. unfold Binance.fetch, Binance.fetch_sync. apply for_each_ext.
    intros acc a. now rewrite (binance_pair_agree H).
Qed.

(** ** Not-found markers in the payload *)

(** X10. CEX has a second not-found signal: an answer other than 404 whose
    JSON object holds "error": "Invalid Symbols Pair" gives the same
    FetchFailure as a 404, without the ticker fields being read; in the
    concurrent variant this needs the content type to mention json,
    otherwise the pair fetch raises ValueError. *)
Theorem cex_invalid_symbols_is_not_found (self : Cex.CexFetcher) (a : Asset)
  (d : list (string * value)) :
  let resp := http_get (Cex.format_url (fst (pair a)) (snd (pair a))) in
  status resp <> 404 ->
  body resp = Some (VDict d) ->
  lookup "error" d = Some (VStr "Invalid Symbols Pair") ->
  Cex._fetch_pair_sync self a = Return (ItemError (failure_of "CEX" a))
  /\ (is_json (content_type resp) = true ->
      Cex._fetch_pair self a = Return (ItemError (failure_of "CEX" a)))
  /\ (is_json (content_type resp) = false ->
      exists msg, Cex._fetch_pair self a = Raise (ValueError msg)).
Proof.
  intros resp Hs Hb He.
  unfold Cex._fetch_pair, Cex._fetch_pair_sync. cbn zeta.
  change (Cex.BASE_URL ++ "/" ++ fst (pair a) ++ "/" ++ snd (pair a))%string
    with (Cex.format_url (fst (pair a)) (snd (pair a))).
  fold resp. destruct (Z.eqb_spec (status resp) 404); [contradiction|].
  unfold json_loads. rewrite Hb. rewrite <- failure_message.
  split; [|split].
  - cbn [py_bind]. unfold Cex.invalid_symbols. cbn [str_in py_bind]. rewrite He.
    cbn [py_bind getitem]. rewrite He. reflexivity.
  - intros ->. cbn [py_bind]. unfold Cex.invalid_symbols. cbn [str_in py_bind].
    rewrite He. cbn [py_bind getitem]. rewrite He. reflexivity.
  - intros ->. eexists. reflexivity.
Qed.

(** X11. OKX signals an unknown underlying in the payload: an answer
    other than 404 whose "code" is "51001", or whose "code" is another
    value and whose "msg" is "Instrument ID does not exist", gives the
    FetchFailure of the pair, and the list of instruments is not read. *)
Theorem okx_unknown_instrument_is_not_found (self : Okx.OkxFutureFetcher) (a : Asset)
  (d : list (string * value)) :
  let resp := http_get (Okx.format_url (fst (pair a)) (snd (pair a))) in
  status resp <> 404 ->
  body resp = Some (VDict d) ->
  (lookup "code" d = Some (VStr "51001")
   \/ (exists code, lookup "code" d = Some code
       /\ lookup "msg" d = Some (VStr "Instrument ID does not exist"))) ->
  Okx._fetch_pair_sync self a = Return (PairError (failure_of "OKX" a))
  /\ (is_json (content_type resp) = true ->
      Okx._fetch_pair self a = Return (PairError (failure_of "OKX" a))).
Proof.
  intros resp Hs Hb Hm.
  assert (U : Okx.unknown_instrument (VDict d) = Return true).
  { unfold Okx.unknown_instrument. cbn [getitem].
    destruct Hm as [Hc|(code & Hc & Hmsg)]; rewrite Hc; cbn [py_bind].
    - reflexivity.
    - destruct (eq_str code "51001"); [reflexivity|]. rewrite Hmsg. reflexivity. }
  unfold Okx._fetch_pair, Okx._fetch_pair_sync. cbn zeta.
  change (Okx.BASE_URL ++ "?instType=FUTURES&uly=" ++ fst (pair a) ++ "-"
          ++ snd (pair a))%string
    with (Okx.format_url (fst (pair a)) (snd (pair a))).
  fold resp. destruct (Z.eqb_spec (status resp) 404); [contradiction|].
  unfold json_loads. rewrite Hb. rewrite <- failure_message.
  split.
  - cbn [py_bind]. rewrite U. reflexivity.
  - intros ->. cbn [py_bind]. rewrite U. reflexivity.
Qed.

(** X12. OKX builds entries only from a listing of two instruments or
    more: when the answer lists none or exactly one, the pair fetch
    returns the empty list (no entry, no FetchFailure, no expiry lookup),
    so the asset adds nothing to the result of [fetch_sync]. *)
Theorem okx_single_instrument_dropped (self : Okx.OkxFutureFetcher) (a : Asset)
  (d : list (string * value)) (instruments : list value) :
  let resp := http_get (Okx.format_url (fst (pair a)) (snd (pair a))) in
  status resp <> 404 ->
  body resp = Some (VDict d) ->
  Okx.unknown_instrument (VDict d) = Return false ->
  lookup "data" d = Some (VList instruments) ->
  (length instruments <= 1)%nat ->
  Okx._fetch_pair_sync self a = Return (PairEntries [])
  /\ (is_json (content_type resp) = true ->
      Okx._fetch_pair self a = Return (PairEntries []))
  /\ (is_future a = true ->
      forall pre post publisher,
        Okx.fetch_sync (Okx.mkFetcher (pre ++ a :: post) publisher)
        = (l1 <- Okx.fetch_sync (Okx.mkFetcher pre publisher) ;;
           l2 <- Okx.fetch_sync (Okx.mkFetcher post publisher) ;;
           Return (l1 ++ l2))).
Proof.
  intros resp Hs Hb Hu Hd Hlen.
  assert (Sync : forall self, Okx._fetch_pair_sync self a = Return (PairEntries [])).
  { intros self'. unfold Okx._fetch_pair_sync. cbn zeta.
    change (Okx.BASE_URL ++ "?instType=FUTURES&uly=" ++ fst (pair a) ++ "-"
            ++ snd (pair a))%string
      with (Okx.format_url (fst (pair a)) (snd (pair a))).
    fold resp. destruct (Z.eqb_spec (status resp) 404); [contradiction|].
    unfold json_loads. rewrite Hb. cbn [py_bind]. rewrite Hu. cbn [py_bind getitem].
    rewrite Hd. cbn [py_bind len_value].
    destruct (Nat.ltb_spec 1 (length instruments)); [lia|reflexivity]. }
  split; [apply Sync|]. split.
  - intros Hj. unfold Okx._fetch_pair. cbn zeta.
    change (Okx.BASE_URL ++ "?instType=FUTURES&uly=" ++ fst (pair a) ++ "-"
            ++ snd (pair a))%string
      with (Okx.format_url (fst (pair a)) (snd (pair a))).
    fold resp. destruct (Z.eqb_spec (status resp) 404); [contradiction|].
    rewrite Hj. unfold json_loads. rewrite Hb. cbn [py_bind]. rewrite Hu.
    cbn [py_bind getitem]. rewrite Hd. cbn [py_bind len_value].
    destruct (Nat.ltb_spec 1 (length instruments)); [lia|reflexivity].
  - intros Hf pre post publisher.
    exact (for_each_insert is_future
             (Okx._fetch_pair_sync (Okx.mkFetcher (pre ++ a :: post) publisher))
             items_of _ (future_shape _ Okx.collect okx_collect) pre post a _ Hf
             (Sync _)).
Qed.

Lemma for_each_raises {A B} (f : B -> A -> py B) (l : list A) (x : A) :
  In x l -> (forall acc, exists e, f acc x = Raise e) ->
  forall acc, exists e, for_each f l acc = Raise e.
Proof.
  intros Hin Hx. induction l as [|a l IH]; [contradiction|]. intros acc.
  cbn [for_each]. destruct Hin as [->|Hin].
  - destruct (Hx acc) as (e & ->). eexists. reflexivity.
  - destruct (f acc a) as [acc'|e]; cbn [py_bind]; [now apply IH|].
    eexists. reflexivity.
Qed.

Lemma okx_construct_without_expiry self a data err :
  exists e, Okx._construct self a data (inl err) = Raise e.
Proof.
  unfold Okx._construct, Okx.int_of_expiry. cbn zeta.
  repeat match goal with
         | |- exists e, py_bind ?x _ = Raise e =>
             destruct x; cbn [py_bind]; [|eexists; reflexivity]
         end.
  eexists. reflexivity.
Qed.

(** X13. A failed expiry lookup is fatal for the pair: when OKX lists two
    instruments or more and the instruments endpoint answers 404 for one
    of them, [_fetch_pair_sync] does not return (neither entries nor a
    FetchFailure), it raises; the entry is not built with a default
    expiry. *)
Theorem okx_expiry_not_found_raises (self : Okx.OkxFutureFetcher) (a : Asset)
  (d : list (string * value)) (instruments : list value) (i : nat)
  (instrument id : value) :
  let resp := http_get (Okx.format_url (fst (pair a)) (snd (pair a))) in
  status resp <> 404 ->
  body resp = Some (VDict d) ->
  Okx.unknown_instrument (VDict d) = Return false ->
  lookup "data" d = Some (VList instruments) ->
  (1 < length instruments)%nat ->
  nth_error instruments i = Some instrument ->
  getitem instrument "instId" = Return id ->
  status (http_get (Okx.format_expiry_timestamp_url id)) = 404 ->
  exists e, Okx._fetch_pair_sync self a = Raise e.
Proof.
  intros resp Hs Hb Hu Hd Hlen Hi Hid H404.
  unfold Okx._fetch_pair_sync. cbn zeta.
  change (Okx.BASE_URL ++ "?instType=FUTURES&uly=" ++ fst (pair a) ++ "-"
          ++ snd (pair a))%string
    with (Okx.format_url (fst (pair a)) (snd (pair a))).
  fold resp. destruct (Z.eqb_spec (status resp) 404); [contradiction|].
  unfold json_loads. rewrite Hb. cbn [py_bind]. rewrite Hu. cbn [py_bind getitem].
  rewrite Hd. cbn [py_bind len_value].
  destruct (Nat.ltb_spec 1 (length instruments)); [|lia].
  destruct (for_each_raises
              (fun future_entries i =>
                 data <- getitem (VDict d) "data" ;;
                 data_i <- getindex data i ;;
                 id <- getitem data_i "instId" ;;
                 expiry_timestamp <- Okx.fetch_sync_expiry_timestamp self a id ;;
                 e <- Okx._construct self a data_i expiry_timestamp ;;
                 Return (future_entries ++ [e]))
              (seq 0 (length instruments)) i) with (acc := @nil Entry) as (e & E).
  - apply in_seq. split; [lia|]. cbn. apply nth_error_Some. congruence.
  - intros acc. cbn [getitem]. rewrite Hd. cbn [py_bind getindex]. rewrite Hi.
    cbn [py_bind]. rewrite Hid. cbn [py_bind].
    unfold Okx.fetch_sync_expiry_timestamp. cbn zeta. rewrite H404.
    cbn [Z.eqb Pos.eqb py_bind].
    destruct (okx_construct_without_expiry self a instrument (Okx.no_data (pair a)))
      as (e & ->).
    eexists. reflexivity.
  - unfold Okx.construct_all. rewrite E. eexists. reflexivity.
Qed.

(** ** OKX: the entries of a listing *)

Lemma Forall2_indexed {A B} (R : A -> B -> Prop) (l : list A) : forall pre ys,
  Forall2 (fun i y => exists x, nth_error (pre ++ l) i = Some x /\ R x y)
    (seq (length pre) (length l)) ys
  <-> Forall2 R l ys.
Proof.
  induction l as [|a l IH]; intros pre ys; cbn [length seq].
  - split; intros H; inversion H; constructor.
  - assert (Hpre : pre ++ a :: l = (pre ++ [a]) ++ l) by now rewrite <- app_assoc.
    assert (Hlen : S (length pre) = length (pre ++ [a]))
      by (rewrite length_app; cbn; lia).
    assert (Hnth : nth_error (pre ++ a :: l) (length pre) = Some a).
    { rewrite nth_error_app2 by lia. now rewrite Nat.sub_diag. }
    split; intros H; inversion H as [|i y rest ys' Hhd Htl]; subst; constructor.
    + destruct Hhd as (x & Hx & HR). rewrite Hnth in Hx. now injection Hx as <-.
    + apply (IH (pre ++ [a])). rewrite <- Hlen, <- Hpre. exact Htl.
    + exists a. now split.
    + rewrite Hpre, Hlen. now apply IH.
Qed.

Lemma filter_true {A} (l : list A) : filter (fun _ => true) l = l.
Proof. induction l; cbn; congruence. Qed.

(** X24. What OKX returns for a pair is one entry per listed instrument:
    when the answer is not a not-found and lists two instruments or more,
    [_fetch_pair_sync] returns exactly the entries built from the
    instruments in the order of the listing, each with the expiry that
    the instruments endpoint gives for its "instId"; it returns them
    exactly when every lookup and every construction returns, never a
    FetchFailure; and the expiry of an entry is the integer value of
    "expTime" as the endpoint gives it, without rescaling. *)
Theorem okx_entries_of_listing (self : Okx.OkxFutureFetcher) (a : Asset)
  (d : list (string * value)) (instruments : list value) :
  let resp := http_get (Okx.format_url (fst (pair a)) (snd (pair a))) in
  status resp <> 404 ->
  body resp = Some (VDict d) ->
  Okx.unknown_instrument (VDict d) = Return false ->
  lookup "data" d = Some (VList instruments) ->
  (1 < length instruments)%nat ->
  (forall es,
     Okx._fetch_pair_sync self a = Return (PairEntries es)
     <-> Forall2
           (fun instrument e =>
              exists id expiry,
                getitem instrument "instId" = Return id
                /\ Okx.fetch_sync_expiry_timestamp self a id = Return expiry
                /\ Okx._construct self a instrument expiry = Return e)
           instruments es)
  /\ (forall err, Okx._fetch_pair_sync self a <> Return (PairError err))
  /\ (forall instrument expiry e,
        Okx._construct self a instrument expiry = Return e ->
        exists expTime,
          expiry = inr expTime /\ to_int expTime = Return (expiry_timestamp e)).
Proof.
  intros resp Hs Hb Hu Hd Hlen.
  set (g := fun i : nat =>
              match nth_error instruments i with
              | Some instrument =>
                  id <- getitem instrument "instId" ;;
                  expiry <- Okx.fetch_sync_expiry_timestamp self a id ;;
                  Okx._construct self a instrument expiry
              | None => Raise IndexError
              end).
  assert (E : Okx._fetch_pair_sync self a
              = (l <- Okx.construct_all self a (Okx.fetch_sync_expiry_timestamp self a)
                        (VDict d) (length instruments) ;;
                 Return (PairEntries l))).
  { unfold Okx._fetch_pair_sync. cbn zeta.
    change (Okx.BASE_URL ++ "?instType=FUTURES&uly=" ++ fst (pair a) ++ "-"
            ++ snd (pair a))%string
      with (Okx.format_url (fst (pair a)) (snd (pair a))).
    fold resp. destruct (Z.eqb_spec (status resp) 404); [contradiction|].
    unfold json_loads. rewrite Hb. cbn [py_bind]. rewrite Hu. cbn [py_bind getitem].
    rewrite Hd. cbn [py_bind len_value].
    destruct (Nat.ltb_spec 1 (length instruments)); [reflexivity|lia]. }
  assert (C : forall es,
             Okx.construct_all self a (Okx.fetch_sync_expiry_timestamp self a)
               (VDict d) (length instruments) = Return es
             <-> Forall2 (fun i e => g i = Return e) (seq 0 (length instruments)) es).
  { intros es. unfold Okx.construct_all.
    rewrite (for_each_collect (fun _ => true) g (fun e => [e])).
    - rewrite filter_true. split.
      + intros (xs & F & ->). cbn. now rewrite flat_map_singleton.
      + intros F. exists es. split; [exact F|]. cbn. now rewrite flat_map_singleton.
    - intros acc i. cbn [negb getitem]. rewrite Hd. cbn [py_bind getindex]. subst g.
      cbn beta. destruct (nth_error instruments i) as [instrument|]; [|reflexivity].
      cbn [py_bind].
      destruct (getitem instrument "instId") as [id|]; cbn [py_bind]; [|reflexivity].
      destruct (Okx.fetch_sync_expiry_timestamp self a id); cbn [py_bind];
        [|reflexivity].
      reflexivity. }
  rewrite E. split; [|split].
  - intros es.
    rewrite <- (Forall2_indexed _ instruments [] es). cbn [app length].
    transitivity
      (Okx.construct_all self a (Okx.fetch_sync_expiry_timestamp self a)
         (VDict d) (length instruments) = Return es).
    + destruct (Okx.construct_all _ _ _ _ _); cbn [py_bind]; split; congruence.
    + rewrite C. split; apply Forall2_impl; intros i e; subst g; cbn beta.
      * destruct (nth_error instruments i) as [instrument|]; [|discriminate].
        intros H. exists instrument. split; [reflexivity|].
        destruct (getitem instrument "instId") as [id|]; cbn [py_bind] in H;
          [|discriminate].
        destruct (Okx.fetch_sync_expiry_timestamp self a id) as [expiry|] eqn:X;
          cbn [py_bind] in H; [|discriminate].
        now exists id, expiry.
      * intros (instrument & -> & id & expiry & -> & X & H). cbn [py_bind].
        rewrite X. exact H.
  - intros err. destruct (Okx.construct_all _ _ _ _ _); cbn [py_bind]; congruence.
  - intros instrument expiry e H. unfold Okx._construct in H. cbv zeta in H.
    bind_cases H. injection H as <-. cbn [expiry_timestamp].
    destruct expiry as [err|expTime];
      match goal with X : Okx.int_of_expiry _ = Return _ |- _ =>
        cbn [Okx.int_of_expiry] in X
      end; [discriminate|].
    now exists expTime.
Qed.

(** ** Binance: the listing, the volumes, the suffix *)

Lemma for_each_filter {A} (keep : A -> bool) (f : list A -> A -> py (list A))
  (l : list A) :
  (forall acc a, In a l -> f acc a = Return (if keep a then acc ++ [a] else acc)) ->
  forall acc, for_each f l acc = Return (acc ++ filter keep l).
Proof.
  induction l as [|a l IH]; intros H acc; cbn [for_each filter].
  - now rewrite app_nil_r.
  - rewrite H by now left. cbn [py_bind].
    rewrite IH by (intros; apply H; now right).
    destruct (keep a); [now rewrite <- app_assoc|reflexivity].
Qed.

Lemma for_each_filter_map {A B} (keep : A -> bool) (t : A -> B)
  (f : list B -> A -> py (list B)) (l : list A) :
  (forall acc a, In a l -> f acc a = Return (if keep a then acc ++ [t a] else acc)) ->
  forall acc, for_each f l acc = Return (acc ++ map t (filter keep l)).
Proof.
  induction l as [|a l IH]; intros H acc; cbn [for_each filter].
  - cbn. now rewrite app_nil_r.
  - rewrite H by now left. cbn [py_bind].
    rewrite IH by (intros; apply H; now right).
    destruct (keep a); [cbn [map]; now rewrite <- app_assoc|reflexivity].
Qed.

Lemma has_symbol_inv (element : value) :
  has_symbol element = true ->
  exists d s, element = VDict d /\ lookup "symbol" d = Some (VStr s)
              /\ symbol_field element = Some s.
Proof.
  unfold has_symbol, symbol_field. destruct element as [| | | | |l|d]; try discriminate.
  destruct (lookup "symbol" d) as [[| | | |s| |]|] eqn:E; try discriminate.
  intros _. now exists d, s.
Qed.

Lemma select_data_filter (selection : string) (l : list value) :
  Forall (fun el => has_symbol el = true) l ->
  Binance.select_data selection (VList l)
  = Return (filter (symbol_contains selection) l).
Proof.
  intros Hwf. unfold Binance.select_data. cbn [elements py_bind].
  apply (for_each_filter (symbol_contains selection)).
  intros acc el Hin. rewrite Forall_forall in Hwf.
  destruct (has_symbol_inv el (Hwf el Hin)) as (d & s & -> & Hs & Hf).
  cbn [getitem]. rewrite Hs. cbn [py_bind str_in].
  unfold symbol_contains. rewrite Hf. now destruct (contains selection s).
Qed.

Lemma construct_all_entries (self : Binance.BinanceFutureFetcher) (a : Asset)
  (result : list value) volume_arr (es : list Entry) :
  Binance._construct self a result volume_arr = Return es
  <-> Forall2 (fun data e => Binance.construct_one self a volume_arr data = Return e)
        result es.
Proof.
  unfold Binance._construct.
  rewrite (for_each_collect (fun _ => true) (Binance.construct_one self a volume_arr)
             (fun e => [e])) by reflexivity.
  assert (F : filter (fun _ : value => true) result = result).
  { induction result; cbn; congruence. }
  rewrite F. split.
  - intros (xs & H & ->). cbn. now rewrite flat_map_singleton.
  - intros H. exists es. split; [exact H|]. cbn. now rewrite flat_map_singleton.
Qed.

(** X14. What Binance returns for a pair is read off the whole index: when
    the index answers with a JSON array of records with string symbols and
    the volume listing was fetched, [_fetch_pair_sync] returns exactly the
    entries of the records whose symbol contains BASEQUOTE as a substring,
    one entry per such record in the order of the index (so BTCUSDT counts
    for BTC/USD), it returns them exactly when every one of these records
    can be turned into an entry, and it never returns a FetchFailure. *)
Theorem binance_entries_of_index (self : Binance.BinanceFutureFetcher) (a : Asset)
  (index : list value) (volume_arr : PublisherFetchError + list (value * value)) :
  let selection := (fst (pair a) ++ snd (pair a))%string in
  status (http_get Binance.BASE_URL) <> 404 ->
  body (http_get Binance.BASE_URL) = Some (VList index) ->
  Forall (fun el => has_symbol el = true) index ->
  Binance.fetch_volume_sync self a = Return volume_arr ->
  (forall es,
     Binance._fetch_pair_sync self a = Return (PairEntries es)
     <-> Forall2 (fun data e => Binance.construct_one self a volume_arr data = Return e)
           (filter (symbol_contains selection) index) es)
  /\ (forall err, Binance._fetch_pair_sync self a <> Return (PairError err)).
Proof.
  intros selection Hs Hb Hwf Hv.
  assert (E : Binance._fetch_pair_sync self a
              = (l <- Binance._construct self a
                        (filter (symbol_contains selection) index) volume_arr ;;
                 Return (PairEntries l))).
  { unfold Binance._fetch_pair_sync. cbn zeta.
    destruct (Z.eqb_spec (status (http_get Binance.BASE_URL)) 404); [contradiction|].
    unfold json_loads. rewrite Hb. cbn [py_bind].
    rewrite select_data_filter by exact Hwf. cbn [py_bind]. rewrite Hv. reflexivity. }
  rewrite E. split.
  - intros es. rewrite <- construct_all_entries.
    destruct (Binance._construct _ _ _ _); cbn [py_bind]; split; congruence.
  - intros err. destruct (Binance._construct _ _ _ _); cbn [py_bind]; congruence.
Qed.

Lemma has_symbol_and_volume_inv (element : value) :
  has_symbol_and_volume element = true ->
  exists d s v, element = VDict d /\ lookup "symbol" d = Some (VStr s)
                /\ lookup "volume" d = Some v.
Proof.
  unfold has_symbol_and_volume. intros H. apply andb_prop in H. destruct H as [H1 H2].
  destruct (has_symbol_inv element H1) as (d & s & -> & Hs & _).
  destruct (lookup "volume" d) as [v|] eqn:E; [|discriminate].
  now exists d, s, v.
Qed.

Lemma select_volumes_filter (selection : string) (listing : list value) :
  Forall (fun el => has_symbol_and_volume el = true) listing ->
  Binance.select_volumes selection (VList listing)
  = Return (map volume_entry (filter (symbol_contains selection) listing)).
Proof.
  intros Hwf. unfold Binance.select_volumes. cbn [elements py_bind].
  apply (for_each_filter_map (symbol_contains selection) volume_entry).
  intros acc el Hin. rewrite Forall_forall in Hwf.
  destruct (has_symbol_and_volume_inv el (Hwf el Hin)) as (d & s & v & -> & Hs & Hvol).
  cbn [getitem]. rewrite Hs. cbn [py_bind str_in].
  unfold symbol_contains, symbol_field. rewrite Hs.
  destruct (contains selection s); [|reflexivity].
  cbn [py_bind]. rewrite Hvol. cbn [py_bind volume_entry]. now rewrite Hs, Hvol.
Qed.

Lemma find_listed (selection symbol : string) (listing : list value) :
  Forall (fun el => has_symbol_and_volume el = true) listing ->
  contains selection symbol = true ->
  match find (fun av => eq_str (fst av) symbol)
          (map volume_entry (filter (symbol_contains selection) listing)) with
  | Some (_, list_vol) => list_vol
  | None => VInt 0
  end
  = listed_volume symbol listing.
Proof.
  intros Hwf Hc. unfold listed_volume.
  induction listing as [|el listing IH]; [reflexivity|].
  inversion Hwf as [|? ? Hel Hrest]; subst.
  destruct (has_symbol_and_volume_inv el Hel) as (d & s & v & -> & Hs & Hvol).
  cbn [filter find]. unfold symbol_contains, symbol_is, symbol_field. rewrite Hs.
  destruct (String.eqb_spec s symbol) as [->|Hne].
  - rewrite Hc. cbn [map find volume_entry fst]. rewrite Hs, Hvol.
    unfold eq_str, is_str. now rewrite String.eqb_refl.
  - destruct (contains selection s).
    + cbn [map find volume_entry fst]. rewrite Hs, Hvol.
      unfold eq_str, is_str.
      destruct (String.eqb_spec symbol s); [congruence|]. now apply IH.
    + now apply IH.
Qed.

(** X15. The volume of a Binance entry is joined by exact symbol: over a
    listing of records with a string symbol and a volume, what
    [fetch_volume] keeps and [retrieve_volume] then finds for a symbol
    containing BASEQUOTE is the volume of the first record of the listing
    with exactly that symbol, and the integer 0 when the listing has no
    such record. *)
Theorem binance_volume_join (selection : string) (listing : list value) :
  Forall (fun el => has_symbol_and_volume el = true) listing ->
  exists volume_arr,
    Binance.select_volumes selection (VList listing) = Return volume_arr
    /\ (forall symbol,
          contains selection symbol = true ->
          Binance.retrieve_volume symbol (inr volume_arr)
          = Return (listed_volume symbol listing))
    /\ (forall symbol,
          find (symbol_is symbol) listing = None ->
          listed_volume symbol listing = VInt 0).
Proof.
  intros Hwf. eexists. split; [now apply select_volumes_filter|]. split.
  - intros symbol Hc. unfold Binance.retrieve_volume. f_equal.
    now apply find_listed.
  - intros symbol Hf. unfold listed_volume. now rewrite Hf.
Qed.

Lemma binance_construct_without_volumes self a err data :
  exists e, Binance.construct_one self a (inl err) data = Raise e.
Proof.
  unfold Binance.construct_one. cbn zeta.
  repeat match goal with
         | |- exists e, py_bind ?x _ = Raise e =>
             destruct x; cbn [py_bind Binance.retrieve_volume];
             [|eexists; reflexivity]
         end.
  eexists. reflexivity.
Qed.

(** X16. A missing volume listing is fatal as soon as one record matches:
    when the index answers and the volume endpoint answers 404, the pair
    fetch returns the empty list if no record of the index contains
    BASEQUOTE, and raises otherwise; a volume of 0 is never substituted
    for the whole missing listing. *)
Theorem binance_volume_not_found (self : Binance.BinanceFutureFetcher) (a : Asset)
  (index : list value) :
  let selection := (fst (pair a) ++ snd (pair a))%string in
  status (http_get Binance.BASE_URL) <> 404 ->
  body (http_get Binance.BASE_URL) = Some (VList index) ->
  Forall (fun el => has_symbol el = true) index ->
  status (http_get Binance.VOLUME_URL) = 404 ->
  (filter (symbol_contains selection) index = [] ->
   Binance._fetch_pair_sync self a = Return (PairEntries []))
  /\ (filter (symbol_contains selection) index <> [] ->
      exists e, Binance._fetch_pair_sync self a = Raise e).
Proof.
  intros selection Hs Hb Hwf Hv.
  assert (E : Binance._fetch_pair_sync self a
              = (l <- Binance._construct self a
                        (filter (symbol_contains selection) index)
                        (inl (Binance.no_data (pair a))) ;;
                 Return (PairEntries l))).
  { unfold Binance._fetch_pair_sync. cbn zeta.
    destruct (Z.eqb_spec (status (http_get Binance.BASE_URL)) 404); [contradiction|].
    unfold json_loads. rewrite Hb. cbn [py_bind].
    rewrite select_data_filter by exact Hwf. cbn [py_bind].
    unfold Binance.fetch_volume_sync. cbn zeta. rewrite Hv. reflexivity. }
  rewrite E. split.
  - intros ->. reflexivity.
  - intros Hne. destruct (filter _ index) as [|data rest]; [congruence|].
    unfold Binance._construct. cbn [for_each].
    destruct (binance_construct_without_volumes self a (Binance.no_data (pair a)) data)
      as (e & ->).
    eexists. reflexivity.
Qed.

Lemma digit_not_underscore (ch : ascii) :
  Ascii.eqb ch "_" = true -> digit_of ch = None.
Proof. intros H. apply Ascii.eqb_eq in H. now subst. Qed.

Lemma match_needs_two_digits (s : string) :
  starts_with_two_digits s = false -> match_yymmdd s = None.
Proof.
  unfold starts_with_two_digits, match_yymmdd.
  destruct s as [|c1 [|c2 r]]; try reflexivity.
  destruct (digit_of c1), (digit_of c2); try reflexivity; discriminate.
Qed.

Lemma first_part_two_digits (suffix : string) :
  starts_with_two_digits suffix = false ->
  starts_with_two_digits (nth 0 (split "_" suffix) "") = false.
Proof.
  destruct suffix as [|c1 [|c2 r]]; [reflexivity| |].
  - cbn. destruct (Ascii.eqb c1 "_"); reflexivity.
  - cbn [split]. destruct (Ascii.eqb c1 "_") eqn:E1; [reflexivity|].
    destruct (Ascii.eqb c2 "_") eqn:E2.
    + cbn. reflexivity.
    + cbn [starts_with_two_digits]. intros H.
      destruct (split "_" r); cbn; exact H.
Qed.

(** X17. A suffix that is not a date is fatal: for a symbol PREFIX_SUFFIX
    other than BASEQUOTE whose suffix does not start with two digits (a
    perpetual such as BTCUSD_PERP), [strptime] rejects the suffix, the
    expiry computation raises ValueError, and no entry is built for the
    record: [construct_one] raises, whatever the other fields hold. *)
Theorem binance_undated_suffix_raises (self : Binance.BinanceFutureFetcher)
  (a : Asset) (volume_arr : PublisherFetchError + list (value * value))
  (data : value) (prefix suffix : string) :
  let selection := (fst (pair a) ++ snd (pair a))%string in
  let symbol := (prefix ++ "_" ++ suffix)%string in
  symbol <> selection ->
  has_underscore prefix = false ->
  starts_with_two_digits suffix = false ->
  getitem data "symbol" = Return (VStr symbol) ->
  (exists msg, Binance.expiry_of symbol selection = Raise (ValueError msg))
  /\ exists e, Binance.construct_one self a volume_arr data = Raise e.
Proof.
  intros selection symbol Hne Hp Hs Hsym.
  assert (X : exists msg, Binance.expiry_of symbol selection = Raise (ValueError msg)).
  { unfold Binance.expiry_of.
    destruct (String.eqb_spec symbol selection); [contradiction|].
    subst symbol.
    change (prefix ++ "_" ++ suffix)%string with (prefix ++ String "_" suffix)%string.
    rewrite split_at_underscore by exact Hp.
    pose proof (first_part_two_digits suffix Hs) as Hw.
    destruct (split "_" suffix) as [|w ws] eqn:Ew.
    - destruct suffix; cbn in Ew; [discriminate|].
      destruct (Ascii.eqb a0 "_"); [discriminate|]. destruct (split "_" suffix); discriminate.
    - cbn [List.length Nat.ltb Nat.leb nth] in *.
      unfold strptime_yymmdd. rewrite (match_needs_two_digits w Hw).
      eexists. reflexivity. }
  split; [exact X|]. destruct X as (msg & X).
  unfold Binance.construct_one, Binance.symbol_of. cbn zeta. rewrite Hsym.
  fold selection.
  repeat match goal with
         | |- exists e, py_bind ?x _ = Raise e =>
             destruct x; cbn [py_bind]; [try discriminate X|eexists; reflexivity]
         end.
Qed.

(** ** The two-digit year of a Binance suffix *)

Lemma all_windows_ok :
  forallb (fun yy => forallb (fun mm => window_ok yy mm) (range 1 12)) (range 0 100)
  = true.
Proof. vm_compute. reflexivity. Qed.

Lemma days_from_first (y m d : Z) :
  days_since_epoch y m d = days_since_epoch y m 1 + (d - 1).
Proof. unfold days_since_epoch. lia. Qed.

(** X18. The year of a Binance date suffix is read with the pivot of
    [%y]: for a symbol PREFIX_YYMMDD of a calendar date, YY from 00 to 68
    stands for 2000 to 2068 and the expiry lies at or after 2000-01-01
    08:00 UTC, while YY from 69 to 99 stands for 1969 to 1999, so such an
    instrument is given an expiry before 2000, and a negative one for
    YY = 69. *)
Theorem binance_two_digit_year_pivot (prefix selection : string) (yy mm dd : Z) :
  valid_date yy mm dd = true ->
  has_underscore prefix = false ->
  (prefix ++ "_" ++ yymmdd yy mm dd)%string <> selection ->
  exists t,
    Binance.expiry_of (prefix ++ "_" ++ yymmdd yy mm dd) selection = Return t
    /\ (yy <= 68 -> y2k + 8 * 3600 <= t)
    /\ (yy = 69 -> t < 0)
    /\ (70 <= yy -> 8 * 3600 <= t < y2k).
Proof.
  intros Hv Hp Hne. exists (epoch_seconds (full_year yy) mm dd 8 0 0).
  split; [now apply expiry_of_dated|].
  destruct (valid_date_bounds yy mm dd Hv) as (Hy & Hm & Hd).
  pose proof all_windows_ok as Hall.
  rewrite forallb_forall in Hall.
  specialize (Hall yy (in_range 0 100 yy ltac:(lia))).
  rewrite forallb_forall in Hall.
  specialize (Hall mm (in_range 1 12 mm ltac:(lia))).
  unfold window_ok in Hall. cbv zeta in Hall.
  unfold epoch_seconds, y2k. rewrite days_from_first.
  set (days := days_since_epoch (full_year yy) mm 1) in *.
  destruct (Z.leb_spec yy 68) as [H68|H68].
  - apply Z.leb_le in Hall. repeat split; lia.
  - destruct (Z.eqb_spec yy 69) as [H69|H69].
    + apply Z.ltb_lt in Hall. repeat split; lia.
    + apply andb_prop in Hall. destruct Hall as [H1 H2].
      apply Z.leb_le in H1. apply Z.ltb_lt in H2. repeat split; lia.
Qed.

(** ** The sign of a price *)

Lemma round_aux_sign (s : bool) (m e : Z) (l : location) :
  binary_round_aux prec emax s m e l = S754_nan
  \/ sign_bit (binary_round_aux prec emax s m e l) = s.
Proof.
  unfold binary_round_aux.
  destruct (shr_fexp _ _ _ _ _) as [r1 e1].
  destruct (shr_fexp _ _ _ _ _) as [r2 e2].
  destruct (shr_m r2); [right; reflexivity| |left; reflexivity].
  destruct (Z.leb _ _); right; reflexivity.
Qed.

Lemma float_of_Z_sign (z : Z) :
  float_of_Z z = S754_nan \/ sign_bit (float_of_Z z) = (z <? 0).
Proof.
  unfold float_of_Z, binary_normalize.
  destruct z as [|p|p]; [right; reflexivity| |];
    unfold binary_round; destruct (shl_align _ _ _) as [mz ez];
    apply round_aux_sign.
Qed.

Lemma float_of_quotient_sign (n d : Z) :
  float_of_quotient n d = S754_nan \/ sign_bit (float_of_quotient n d) = (n <? 0).
Proof.
  unfold float_of_quotient.
  destruct n as [|p|p]; [right; reflexivity| |];
    destruct (SFdiv_core_binary _ _ _ _ _ _) as [[m e] l];
    apply round_aux_sign.
Qed.

Lemma digit_of_nonneg (ch : ascii) (d : Z) : digit_of ch = Some d -> 0 <= d.
Proof.
  unfold digit_of. cbv zeta.
  destruct (Z.leb_spec 48 (Z.of_N (N_of_ascii ch))); cbn [andb]; [|discriminate].
  destruct (Z.leb_spec (Z.of_N (N_of_ascii ch)) 57); [|discriminate].
  intros [= <-]. lia.
Qed.

Lemma read_digits_nonneg (s : string) : forall acc k,
  0 <= acc -> 0 <= fst (fst (read_digits s acc k)).
Proof.
  induction s as [|ch s IH]; intros acc k Hacc; cbn [read_digits fst]; [exact Hacc|].
  destruct (digit_of ch) as [d|] eqn:E; cbn [fst]; [|exact Hacc].
  apply IH. pose proof (digit_of_nonneg ch d E). lia.
Qed.

Lemma fraction_nonneg (s2 : string) (ip : Z) :
  0 <= ip ->
  0 <= fst (fst (match s2 with
                 | String "." s2' =>
                     let '(m, k, r) := read_digits s2' ip 0 in (m, k, r)
                 | _ => (ip, 0%nat, s2)
                 end)).
Proof.
  intros Hip. destruct s2 as [|c s2']; [exact Hip|].
  destruct c as [[] [] [] [] [] [] [] []]; try exact Hip.
  pose proof (read_digits_nonneg s2' ip 0 Hip) as H.
  destruct (read_digits s2' ip 0) as [[m k] r]. exact H.
Qed.

Lemma float_of_str_sign (s : string) (x : float) :
  float_of_str s = Return x ->
  x = S754_nan \/ sign_bit x = fst (read_sign (strip s)).
Proof.
  unfold float_of_str. cbv zeta.
  destruct (read_sign (strip s)) as [neg s1].
  pose proof (read_digits_nonneg s1 0 0 ltac:(lia)) as Hip.
  destruct (read_digits s1 0 0) as [[ip ik] s2]. cbn [fst] in Hip.
  pose proof (fraction_nonneg s2 ip Hip) as Hm.
  destruct (match s2 with
            | String "." s2' => let '(m, k, r) := read_digits s2' ip 0 in (m, k, r)
            | _ => (ip, 0%nat, s2)
            end) as [[m fk] s3].
  cbn [fst] in Hm |- *.
  destruct (ik + fk =? 0)%nat; [discriminate|].
  match goal with
  | |- match ?e with Some _ => _ | None => _ end = _ -> _ => destruct e as [ex|]
  end; [|discriminate].
  intros [= <-].
  destruct (Z.eqb_spec m 0); [right; reflexivity|].
  destruct (Z.leb_spec 0 (ex - Z.of_nat fk)) as [He|He].
  - destruct (float_of_Z_sign ((if neg then - m else m) * 10 ^ (ex - Z.of_nat fk)))
      as [E|E]; [now left|right]. rewrite E.
    assert (0 < 10 ^ (ex - Z.of_nat fk)) by (apply Z.pow_pos_nonneg; lia).
    destruct neg; [apply Z.ltb_lt|apply Z.ltb_ge]; nia.
  - destruct (float_of_quotient_sign (if neg then - m else m)
                (10 ^ (- (ex - Z.of_nat fk)))) as [E|E]; [now left|right].
    rewrite E. destruct neg; [apply Z.ltb_lt|apply Z.ltb_ge]; lia.
Qed.

Lemma to_float_sign (v : value) (x : float) :
  to_float v = Return x -> x = S754_nan \/ sign_bit x = negative_quote v.
Proof.
  destruct v as [|b|z|y|s|l|d]; cbn [to_float negative_quote]; try discriminate.
  - intros [= <-]. right. now destruct b.
  - unfold float_of_int. cbv zeta. destruct (is_finite (float_of_Z z)); [|discriminate].
    intros [= <-]. apply float_of_Z_sign.
  - intros [= <-]. now right.
  - apply float_of_str_sign.
Qed.

Lemma fmul_sign (x y : float) :
  fmul x y = S754_nan \/ sign_bit (fmul x y) = xorb (sign_bit x) (sign_bit y).
Proof.
  unfold fmul.
  destruct x, y; cbn [SFmul sign_bit];
    try (left; reflexivity); try (right; reflexivity).
  apply round_aux_sign.
Qed.

Lemma int_of_float_sign (x : float) (p : Z) :
  int_of_float x = Return p -> if sign_bit x then p <= 0 else 0 <= p.
Proof.
  destruct x as [s|s| |s m e]; cbn [int_of_float sign_bit]; try discriminate.
  - intros [= <-]. destruct s; lia.
  - intros H. exact (proj1 (int_of_float_integer_part s m e p H)).
Qed.

Lemma price_int_of_nan (d : nat) (p : Z) : price_int_of S754_nan d <> Return p.
Proof.
  unfold price_int_of, scale.
  destruct (float_of_int _); cbn [py_bind]; discriminate.
Qed.

Lemma price_int_of_sign (x : float) (d : nat) (p : Z) :
  price_int_of x d = Return p -> if sign_bit x then p <= 0 else 0 <= p.
Proof.
  unfold price_int_of, scale, float_of_int. cbv zeta.
  destruct (is_finite (float_of_Z (10 ^ Z.of_nat d))) eqn:F; cbn [py_bind]; [|discriminate].
  intros H.
  assert (S : sign_bit (float_of_Z (10 ^ Z.of_nat d)) = false).
  { destruct (float_of_Z_sign (10 ^ Z.of_nat d)) as [E|E].
    - rewrite E in F. discriminate.
    - rewrite E. apply Z.ltb_ge. apply Z.pow_nonneg. lia. }
  destruct (fmul_sign x (float_of_Z (10 ^ Z.of_nat d))) as [E|E].
  - rewrite E in H. discriminate.
  - apply int_of_float_sign in H. rewrite E, S, xorb_false_r in H. exact H.
Qed.

Lemma quote_sign (v : value) (x : float) (d : nat) (p : Z) :
  to_float v = Return x -> price_int_of x d = Return p ->
  if negative_quote v then p <= 0 else 0 <= p.
Proof.
  intros Hf Hp. destruct (to_float_sign v x Hf) as [->|<-].
  - now apply price_int_of_nan in Hp.
  - now apply price_int_of_sign in Hp.
Qed.

Lemma reciprocal_sign (rate q : float) :
  fdiv (float_of_Z 1) rate = Return q -> q = S754_nan \/ sign_bit q = sign_bit rate.
Proof.
  unfold fdiv. destruct (is_zero rate) eqn:Z0; [discriminate|]. intros [= <-].
  destruct (float_of_Z 1) as [s|s| |s m e] eqn:E1; vm_compute in E1; try discriminate E1.
  injection E1 as <- _ _.
  destruct rate as [s'|s'| |s' m' e']; cbn [SFdiv sign_bit is_zero] in *;
    try discriminate; try (left; reflexivity); try (right; reflexivity).
  destruct (SFdiv_core_binary _ _ _ _ _ _) as [[mz ez] lz].
  apply round_aux_sign.
Qed.

(** X19. The price of an entry has the sign of the quoted number, and the
    constructors do not look at it: when CEX, OKX or Binance build an entry
    from a record, its price is at least 0 if the quoted price ("last",
    "markPrice") is written without a minus sign, and at most 0 if it is
    written with one, the sign of a string being read after the white
    space that [float] ignores; for Coinbase the same holds of the quoted
    rate, whose reciprocal is taken. A negative quote is not rejected. *)
Theorem price_has_sign_of_quote (a : Asset) (record quoted : value) (e : Entry) :
  (exists self,
     getitem record "last" = Return quoted
     /\ Cex._construct self a record = Return e)
  \/ (exists self expiry,
        getitem record "last" = Return quoted
        /\ Okx._construct self a record expiry = Return e)
  \/ (exists self volume_arr,
        getitem record "markPrice" = Return quoted
        /\ Binance.construct_one self a volume_arr record = Return e)
  \/ (exists self rates,
        (data <- getitem record "data" ;; getitem data "rates") = Return rates
        /\ getitem rates (fst (pair a)) = Return quoted
        /\ Coinbase._construct self a record = Return (ItemEntry e)) ->
  if negative_quote quoted then price e <= 0 else 0 <= price e.
Proof.
  intros [(self & Hq & H)|[(self & expiry & Hq & H)|[(self & vol & Hq & H)
         |(self & rates & Hr & Hq & H)]]].
  - unfold Cex._construct in H. cbv zeta in H. rewrite Hq in H.
    bind_cases H. injection H as <-. cbn [price py_bind] in *.
    eapply quote_sign; eassumption.
  - unfold Okx._construct in H. cbv zeta in H. rewrite Hq in H.
    bind_cases H. injection H as <-. cbn [price py_bind] in *.
    eapply quote_sign; eassumption.
  - unfold Binance.construct_one in H. cbv zeta in H. rewrite Hq in H.
    bind_cases H. injection H as <-. cbn [price py_bind] in *.
    eapply quote_sign; eassumption.
  - unfold Coinbase._construct in H. cbv zeta in H. rewrite Hr in H.
    cbn [py_bind] in H.
    destruct (str_in (fst (pair a)) rates) as [[|]|]; cbn [py_bind] in H;
      try discriminate H.
    rewrite Hq in H. cbn [py_bind] in H.
    destruct (to_float quoted) as [rate|] eqn:Hf; cbn [py_bind] in H; [|discriminate H].
    destruct (fdiv (float_of_Z 1) rate) as [q|] eqn:Hd; cbn [py_bind] in H;
      [|discriminate H].
    destruct (price_int_of q (decimals a)) as [p|] eqn:Hp; cbn [py_bind] in H;
      [|discriminate H].
    injection H as <-. cbn [price].
    destruct (reciprocal_sign rate q Hd) as [->|Hs].
    + now apply price_int_of_nan in Hp.
    + destruct (to_float_sign quoted rate Hf) as [->|<-].
      * unfold fdiv in Hd. cbn [is_zero] in Hd. injection Hd as <-.
        destruct (float_of_Z 1) as [s|s| |s m e] eqn:E1; vm_compute in E1;
          try discriminate E1.
        cbn [SFdiv] in Hp. now apply price_int_of_nan in Hp.
      * apply price_int_of_sign in Hp. rewrite Hs in Hp. exact Hp.
Qed.

(** ** Where an entry comes from *)

Lemma Forall2_In_right {A B} (P : A -> B -> Prop) (l : list A) (r : list B) (y : B) :
  Forall2 P l r -> In y r -> exists x, In x l /\ P x y.
Proof.
  induction 1 as [|x y' l r HP HF IH]; [contradiction|].
  intros [->|Hin].
  - exists x. split; [now left|exact HP].
  - destruct (IH Hin) as (x' & Hx & Hp). exists x'. split; [now right|exact Hp].
Qed.

Lemma for_each_invariant {A B} (Inv : B -> Prop) (f : B -> A -> py B) (l : list A) :
  (forall acc x acc', Inv acc -> f acc x = Return acc' -> Inv acc') ->
  forall acc r, Inv acc -> for_each f l acc = Return r -> Inv r.
Proof.
  intros Hf. induction l as [|a l IH]; intros acc r Hacc; cbn [for_each].
  - now intros [= <-].
  - destruct (f acc a) as [acc'|] eqn:E; cbn [py_bind]; [|discriminate].
    apply IH. exact (Hf acc a acc' Hacc E).
Qed.

Lemma cex_stamp self a e :
  Cex._fetch_pair_sync self a = Return (ItemEntry e) ->
  stamped SPOT Cex.SOURCE (Cex.publisher self) a e.
Proof.
  unfold Cex._fetch_pair_sync. cbv zeta.
  destruct (_ =? 404); [discriminate|]. intros H.
  bind_cases H. if_case H; [discriminate H|]. bind_cases H.
  injection H as <-.
  match goal with E : Cex._construct _ _ _ = Return _ |- _ =>
    unfold Cex._construct in E; cbv zeta in E; bind_cases E; injection E as <-
  end.
  repeat split.
Qed.

Lemma coinbase_stamp self a e :
  Coinbase._fetch_pair_sync self a = Return (ItemEntry e) ->
  stamped SPOT Coinbase.SOURCE (Coinbase.publisher self) a e.
Proof.
  unfold Coinbase._fetch_pair_sync. cbv zeta.
  destruct (_ =? 404); [discriminate|]. intros H.
  destruct (json_loads _) as [result|]; cbn [py_bind] in H; [|discriminate H].
  unfold Coinbase._construct in H. cbv zeta in H.
  bind_cases H. if_case H; [|discriminate H]. bind_cases H.
  injection H as <-. repeat split.
Qed.

Lemma okx_stamp self a l :
  Okx._fetch_pair_sync self a = Return (PairEntries l) ->
  Forall (stamped FUTURE Okx.SOURCE (Okx.publisher self) a) l.
Proof.
  unfold Okx._fetch_pair_sync. cbv zeta.
  destruct (_ =? 404); [discriminate|]. intros H.
  bind_cases H. if_case H; [discriminate H|]. bind_cases H.
  destruct (1 <? _)%nat; [|injection H as <-; constructor].
  bind_cases H. injection H as <-.
  match goal with E : Okx.construct_all _ _ _ _ _ = Return _ |- _ =>
    unfold Okx.construct_all in E; revert E
  end.
  apply for_each_invariant; [|constructor].
  intros acc i acc' Hacc Hstep. bind_cases Hstep. injection Hstep as <-.
  apply Forall_app. split; [exact Hacc|]. constructor; [|constructor].
  match goal with E : Okx._construct _ _ _ _ = Return _ |- _ =>
    unfold Okx._construct in E; cbv zeta in E; bind_cases E; injection E as <-
  end.
  repeat split. discriminate.
Qed.

Lemma binance_stamp self a l :
  Binance._fetch_pair_sync self a = Return (PairEntries l) ->
  Forall (stamped FUTURE Binance.SOURCE (Binance.publisher self) a) l.
Proof.
  unfold Binance._fetch_pair_sync. cbv zeta.
  destruct (_ =? 404); [discriminate|]. intros H.
  bind_cases H. injection H as <-.
  match goal with E : Binance._construct _ _ _ _ = Return _ |- _ =>
    unfold Binance._construct in E; revert E
  end.
  apply for_each_invariant; [|constructor].
  intros acc data acc' Hacc Hstep. bind_cases Hstep. injection Hstep as <-.
  apply Forall_app. split; [exact Hacc|]. constructor; [|constructor].
  match goal with E : Binance.construct_one _ _ _ _ = Return _ |- _ =>
    unfold Binance.construct_one in E; cbv zeta in E; bind_cases E; injection E as <-
  end.
  repeat split. discriminate.
Qed.

Lemma spot_origin (fetch_pair : Asset -> py item) (assets : list Asset)
  (items : list item) (e : Entry) :
  Forall2 (fun a it => fetch_pair a = Return it) (filter is_spot assets) items ->
  In (ItemEntry e) items ->
  exists a, In a assets /\ asset_type a = "SPOT" /\ fetch_pair a = Return (ItemEntry e).
Proof.
  intros F Hin. destruct (Forall2_In_right _ _ _ _ F Hin) as (a & Ha & Hp).
  apply filter_In in Ha. destruct Ha as [Ha Hs].
  exists a. repeat split; [exact Ha| |exact Hp]. now apply String.eqb_eq.
Qed.

Lemma future_origin (fetch_pair : Asset -> py pair_result) (assets : list Asset)
  (groups : list pair_result) (e : Entry) :
  Forall2 (fun a g => fetch_pair a = Return g) (filter is_future assets) groups ->
  In (ItemEntry e) (flat_map items_of groups) ->
  exists a l, In a assets /\ asset_type a = "FUTURE"
              /\ fetch_pair a = Return (PairEntries l) /\ In e l.
Proof.
  intros F Hin. apply in_flat_map in Hin. destruct Hin as (g & Hg & He).
  destruct (Forall2_In_right _ _ _ _ F Hg) as (a & Ha & Hp).
  apply filter_In in Ha. destruct Ha as [Ha Hs].
  destruct g as [err|l]; cbn [items_of] in He.
  - destruct He as [He|[]]. discriminate He.
  - apply in_map_iff in He. destruct He as (e' & [= ->] & He).
    exists a, l. repeat split; try assumption. now apply String.eqb_eq.
Qed.

(** X20. Every entry a sequential fetch returns comes from a configured
    asset of the fetcher's kind: an entry in the result of [fetch_sync] of
    CEX, Coinbase, OKX or Binance carries the fetcher's SOURCE and the
    publisher of the fetcher, and there is an asset in the fetcher's list
    whose type is the kind of the entry (SPOT for CEX and Coinbase, FUTURE
    for OKX and Binance) and whose pair gives the pair id of the entry; a
    spot entry has expiry 0. *)
Theorem entries_come_from_configured_assets (assets : list Asset)
  (publisher_name source_name : string) (items : list item) (e : Entry) :
  (source_name = Cex.SOURCE
   /\ Cex.fetch_sync (Cex.mkFetcher assets publisher_name) = Return items)
  \/ (source_name = Coinbase.SOURCE
      /\ Coinbase.fetch_sync (Coinbase.mkFetcher assets publisher_name) = Return items)
  \/ (source_name = Okx.SOURCE
      /\ Okx.fetch_sync (Okx.mkFetcher assets publisher_name) = Return items)
  \/ (source_name = Binance.SOURCE
      /\ Binance.fetch_sync (Binance.mkFetcher assets publisher_name) = Return items) ->
  In (ItemEntry e) items ->
  source e = source_name
  /\ publisher e = publisher_name
  /\ exists a,
       In a assets
       /\ asset_type a = kind_name (kind e)
       /\ pair_id e = currency_pair_to_pair_id (fst (pair a)) (snd (pair a))
       /\ (kind e = SPOT -> expiry_timestamp e = 0).
Proof.
  intros [(-> & H)|[(-> & H)|[(-> & H)|(-> & H)]]] Hin.
  - pose proof (spot_fetch_sync (Cex._fetch_pair_sync (Cex.mkFetcher assets publisher_name))
                  assets items) as S.
    apply (proj1 S) in H.
    destruct (spot_origin _ _ _ _ H Hin) as (a & Ha & Ht & Hp).
    apply cex_stamp in Hp. destruct Hp as (Hk & Hs & Hpub & Hid & Hx).
    split; [exact Hs|]. split; [exact Hpub|]. exists a. rewrite Hk.
    split; [exact Ha|]. split; [exact Ht|]. split; [exact Hid|exact Hx].
  - pose proof (spot_fetch_sync
                  (Coinbase._fetch_pair_sync (Coinbase.mkFetcher assets publisher_name))
                  assets items) as S.
    apply (proj1 S) in H.
    destruct (spot_origin _ _ _ _ H Hin) as (a & Ha & Ht & Hp).
    apply coinbase_stamp in Hp. destruct Hp as (Hk & Hs & Hpub & Hid & Hx).
    split; [exact Hs|]. split; [exact Hpub|]. exists a. rewrite Hk.
    split; [exact Ha|]. split; [exact Ht|]. split; [exact Hid|exact Hx].
  - pose proof (future_fetch (Okx._fetch_pair_sync (Okx.mkFetcher assets publisher_name))
                  Okx.collect assets items okx_collect) as S.
    apply (proj1 S) in H. destruct H as (groups & F & ->).
    destruct (future_origin _ _ _ _ F Hin) as (a & l & Ha & Ht & Hp & He).
    apply okx_stamp in Hp. rewrite Forall_forall in Hp.
    destruct (Hp e He) as (Hk & Hs & Hpub & Hid & Hx).
    split; [exact Hs|]. split; [exact Hpub|]. exists a. rewrite Hk.
    split; [exact Ha|]. split; [exact Ht|]. split; [exact Hid|exact Hx].
  - pose proof (future_fetch
                  (Binance._fetch_pair_sync (Binance.mkFetcher assets publisher_name))
                  Binance.collect assets items binance_collect) as S.
    apply (proj1 S) in H. destruct H as (groups & F & ->).
    destruct (future_origin _ _ _ _ F Hin) as (a & l & Ha & Ht & Hp & He).
    apply binance_stamp in Hp. rewrite Forall_forall in Hp.
    destruct (Hp e He) as (Hk & Hs & Hpub & Hid & Hx).
    split; [exact Hs|]. split; [exact Hpub|]. exists a. rewrite Hk.
    split; [exact Ha|]. split; [exact Ht|]. split; [exact Hid|exact Hx].
Qed.

(** ** A rate of zero *)

Lemma getitem_str_in (v x : value) (k : string) :
  getitem v k = Return x -> str_in k v = Return true.
Proof.
  destruct v as [| | | | | |d]; cbn [getitem str_in]; try discriminate.
  destruct (lookup k d); [reflexivity|discriminate].
Qed.

(** X21. Coinbase does not guard the division: when the answer lists the
    base currency with a rate that converts to the float zero ("0", 0,
    "0.0", "-0.0"), the pair fetch raises ZeroDivisionError instead of
    returning a FetchFailure; [fetch_sync] over any asset list holding
    this spot asset then raises as well, while [fetch] keeps the exception
    among its results at the place of the asset. *)
Theorem coinbase_zero_rate_raises (a : Asset) (result rates quoted : value)
  (rate : float) :
  let resp := http_get (Coinbase.format_url (fst (pair a)) (snd (pair a))) in
  status resp <> 404 ->
  body resp = Some result ->
  (data <- getitem result "data" ;; getitem data "rates") = Return rates ->
  getitem rates (fst (pair a)) = Return quoted ->
  to_float quoted = Return rate ->
  is_zero rate = true ->
  (forall self, Coinbase._fetch_pair_sync self a = Raise ZeroDivisionError)
  /\ (is_spot a = true ->
      forall self, In a (Coinbase.assets self) ->
      exists e, Coinbase.fetch_sync self = Raise e)
  /\ (is_spot a = true ->
      json_content_type (content_type resp) = true ->
      forall self, In a (Coinbase.assets self) ->
      In (Raise ZeroDivisionError) (Coinbase.fetch self)).
Proof.
  intros resp Hs Hb Hr Hq Hf Hz.
  assert (C : forall self, Coinbase._construct self a result = Raise ZeroDivisionError).
  { intros self. unfold Coinbase._construct. cbv zeta. rewrite Hr. cbn [py_bind].
    rewrite (getitem_str_in _ _ _ Hq). cbn [py_bind]. rewrite Hq. cbn [py_bind].
    rewrite Hf. cbn [py_bind]. unfold fdiv. rewrite Hz. reflexivity. }
  assert (Sync : forall self, Coinbase._fetch_pair_sync self a = Raise ZeroDivisionError).
  { intros self. unfold Coinbase._fetch_pair_sync. cbv zeta.
    change (Coinbase.BASE_URL ++ snd (pair a))%string
      with (Coinbase.format_url (fst (pair a)) (snd (pair a))).
    fold resp. destruct (Z.eqb_spec (status resp) 404); [contradiction|].
    unfold json_loads. rewrite Hb. cbn [py_bind]. apply C. }
  split; [exact Sync|]. split.
  - intros Hspot self Hin. unfold Coinbase.fetch_sync.
    apply (for_each_raises _ _ a Hin). intros acc.
    unfold is_spot in Hspot. rewrite Hspot. cbn [negb]. rewrite Sync.
    eexists. reflexivity.
  - intros Hspot Hj self Hin. unfold Coinbase.fetch.
    rewrite (fold_gather is_spot). cbn [app].
    apply in_map_iff. exists a. split; [|apply filter_In; now split].
    unfold Coinbase._fetch_pair. cbv zeta.
    change (Coinbase.BASE_URL ++ snd (pair a))%string
      with (Coinbase.format_url (fst (pair a)) (snd (pair a))).
    fold resp. destruct (Z.eqb_spec (status resp) 404); [contradiction|].
    unfold aiohttp_json. rewrite Hj. unfold json_loads. rewrite Hb. cbn [py_bind].
    apply C.
Qed.

(** ** The first exception *)

Lemma for_each_first_raise {A X} (keep : A -> bool) (g : A -> py X)
  (h : X -> list item) (f : list item -> A -> py (list item)) :
  (forall acc a,
     f acc a = if negb (keep a) then Return acc
               else py_bind (g a) (fun x => Return (acc ++ h x))) ->
  forall l acc e,
    for_each f l acc = Raise e
    <-> exists pre a post,
          l = pre ++ a :: post
          /\ keep a = true
          /\ g a = Raise e
          /\ Forall (fun b => keep b = true -> exists x, g b = Return x) pre.
Proof.
  intros Hf. induction l as [|b l IH]; intros acc e; cbn [for_each].
  - split; [discriminate|]. intros ([|b0 pre0] & a & post & E & _); discriminate E.
  - rewrite Hf. destruct (keep b) eqn:K; cbn [negb].
    + destruct (g b) as [x|e0] eqn:G; cbn [py_bind].
      * rewrite IH. split.
        -- intros (pre & a & post & -> & Ka & Ga & F).
           exists (b :: pre), a, post. repeat split; try assumption.
           constructor; [|exact F]. intros _. now exists x.
        -- intros ([|b' pre] & a & post & E & Ka & Ga & F); injection E as <- E.
           ++ congruence.
           ++ exists pre, a, post. inversion F; subst. now repeat split.
      * split.
        -- intros [= <-]. exists [], b, l. repeat split; try assumption. constructor.
        -- intros ([|b' pre] & a & post & E & Ka & Ga & F); injection E as <- E.
           ++ congruence.
           ++ inversion F as [|? ? Hb]; subst. destruct (Hb K) as (x & Hx). congruence.
    + cbn [py_bind]. rewrite IH. split.
      * intros (pre & a & post & -> & Ka & Ga & F).
        exists (b :: pre), a, post. repeat split; try assumption.
        constructor; [|exact F]. congruence.
      * intros ([|b' pre] & a & post & E & Ka & Ga & F); injection E as <- E.
        -- congruence.
        -- exists pre, a, post. inversion F; subst. now repeat split.
Qed.

(** X25. [fetch_sync] stops at the first exception: for each of the four
    fetchers it raises [e] exactly when the asset list splits into assets
    whose pair fetches all return (those of the fetcher's kind; the others
    are skipped), an asset of the fetcher's kind whose pair fetch raises
    [e], and a rest that is never fetched; nothing is returned for the
    assets already fetched. *)
Theorem fetch_sync_first_exception (e : exn) :
  let first_raise {S X} (keep : Asset -> bool) (assets : S -> list Asset)
        (fetch_pair : S -> Asset -> py X) (self : S) :=
    exists pre a post,
      assets self = pre ++ a :: post
      /\ keep a = true
      /\ fetch_pair self a = Raise e
      /\ Forall (fun b => keep b = true -> exists x, fetch_pair self b = Return x) pre in
  (forall self,
     Cex.fetch_sync self = Raise e
     <-> first_raise is_spot Cex.assets Cex._fetch_pair_sync self)
  /\ (forall self,
        Coinbase.fetch_sync self = Raise e
        <-> first_raise is_spot Coinbase.assets Coinbase._fetch_pair_sync self)
  /\ (forall self,
        Okx.fetch_sync self = Raise e
        <-> first_raise is_future Okx.assets Okx._fetch_pair_sync self)
  /\ (forall self,
        Binance.fetch_sync self = Raise e
        <-> first_raise is_future Binance.assets Binance._fetch_pair_sync self).
Proof.
  cbv zeta. split; [|split; [|split]]; intros self.
  - unfold Cex.fetch_sync.
    apply (for_each_first_raise is_spot (Cex._fetch_pair_sync self) (fun x => [x])).
    reflexivity.
  - unfold Coinbase.fetch_sync.
    apply (for_each_first_raise is_spot (Coinbase._fetch_pair_sync self) (fun x => [x])).
    reflexivity.
  - unfold Okx.fetch_sync.
    apply (for_each_first_raise is_future (Okx._fetch_pair_sync self) items_of).
    apply future_shape. apply okx_collect.
  - unfold Binance.fetch_sync.
    apply (for_each_first_raise is_future (Binance._fetch_pair_sync self) items_of).
    apply future_shape. apply binance_collect.
Qed.

End WithWorld.

Lemma all_pairs_not_found_witness :
  @Okx.fetch_sync DemoWorld.down (Okx.mkFetcher Tests.SAMPLE_FUTURE_ASSETS "PRAGMA")
  = Return [ItemError (mkFetchError "No data found for BTC/USD from OKX");
            ItemError (mkFetchError "No data found for ETH/USD from OKX")].
Proof.
  assert (H : forall url, status (@http_get DemoWorld.down url) = 404)
    by (intros url; reflexivity).
  exact (proj1 (proj2 (proj2 (proj2 (proj2 (proj2
    (@all_pairs_not_found DemoWorld.down Tests.SAMPLE_FUTURE_ASSETS "PRAGMA" H))))))).
Defined.

Lemma sync_and_async_agree_witness :
  @Binance.fetch DemoWorld.up (Binance.mkFetcher Tests.SAMPLE_FUTURE_ASSETS "PRAGMA")
  = @Binance.fetch_sync DemoWorld.up
      (Binance.mkFetcher Tests.SAMPLE_FUTURE_ASSETS "PRAGMA").
Proof.
  assert (H : forall url,
             status (@http_get DemoWorld.up url) = 404
             \/ (is_json (content_type (@http_get DemoWorld.up url)) = true
                 /\ @json_content_type DemoWorld.up
                      (content_type (@http_get DemoWorld.up url)) = true
                 /\ body (@http_get DemoWorld.up url) <> None)).
  { intros url.
    cbn [http_get DemoWorld.up DemoWorld.world DemoWorld.answers DemoWorld.answer].
    repeat (destruct (String.eqb url _);
            [right; split; [reflexivity|split; [reflexivity|discriminate]]|]).
    left. reflexivity. }
  exact (proj2 (proj2 (proj2 (@sync_and_async_agree DemoWorld.up H)))
           (Binance.mkFetcher Tests.SAMPLE_FUTURE_ASSETS "PRAGMA")).
Defined.

Lemma cex_invalid_symbols_is_not_found_witness :
  @Cex._fetch_pair_sync Scenarios.cex_invalid
    (Cex.mkFetcher [DemoWorld.btc_spot] "PRAGMA") DemoWorld.btc_spot
  = Return (ItemError (mkFetchError "No data found for BTC/USD from CEX")).
Proof.
  refine (proj1 (@cex_invalid_symbols_is_not_found Scenarios.cex_invalid
                   (Cex.mkFetcher [DemoWorld.btc_spot] "PRAGMA") DemoWorld.btc_spot
                   Scenarios.invalid_pair _ _ _)).
  - vm_compute. lia.
  - reflexivity.
  - reflexivity.
Defined.

Lemma okx_unknown_instrument_is_not_found_witness :
  @Okx._fetch_pair_sync Scenarios.okx_unknown
    (Okx.mkFetcher [DemoWorld.btc_future] "PRAGMA") DemoWorld.btc_future
  = Return (PairError (mkFetchError "No data found for BTC/USD from OKX")).
Proof.
  refine (proj1 (@okx_unknown_instrument_is_not_found Scenarios.okx_unknown
                   (Okx.mkFetcher [DemoWorld.btc_future] "PRAGMA") DemoWorld.btc_future
                   Scenarios.unknown_underlying _ _ _)).
  - vm_compute. lia.
  - reflexivity.
  - left. reflexivity.
Defined.

Lemma okx_single_instrument_dropped_witness :
  @Okx._fetch_pair_sync Scenarios.okx_single
    (Okx.mkFetcher [DemoWorld.btc_future] "PRAGMA") DemoWorld.btc_future
  = Return (PairEntries []).
Proof.
  refine (proj1 (@okx_single_instrument_dropped Scenarios.okx_single
                   (Okx.mkFetcher [DemoWorld.btc_future] "PRAGMA") DemoWorld.btc_future
                   Scenarios.one_instrument
                   [DemoWorld.okx_instrument "BTC-USD-231229" "42000.5"] _ _ _ _ _)).
  - vm_compute. lia.
  - reflexivity.
  - reflexivity.
  - reflexivity.
  - simpl. lia.
Defined.

Lemma okx_expiry_not_found_raises_witness :
  exists e,
    @Okx._fetch_pair_sync Scenarios.okx_no_expiry
      (Okx.mkFetcher [DemoWorld.btc_future] "PRAGMA") DemoWorld.btc_future
    = Raise e.
Proof.
  refine (@okx_expiry_not_found_raises Scenarios.okx_no_expiry
            (Okx.mkFetcher [DemoWorld.btc_future] "PRAGMA") DemoWorld.btc_future
            Scenarios.two_instruments
            [DemoWorld.okx_instrument "BTC-USD-231229" "42000.5";
             DemoWorld.okx_instrument "BTC-USD-240329" "42100.5"]
            0 (DemoWorld.okx_instrument "BTC-USD-231229" "42000.5")
            (VStr "BTC-USD-231229") _ _ _ _ _ _ _ _).
  - vm_compute. lia.
  - reflexivity.
  - reflexivity.
  - reflexivity.
  - simpl. lia.
  - reflexivity.
  - reflexivity.
  - reflexivity.
Defined.

Lemma binance_entries_of_index_witness :
  @Binance._fetch_pair_sync DemoWorld.up
    (Binance.mkFetcher [DemoWorld.btc_future] "PRAGMA") DemoWorld.btc_future
  = Return (PairEntries [])
  <-> Forall2
        (fun data e =>
           @Binance.construct_one DemoWorld.up
             (Binance.mkFetcher [DemoWorld.btc_future] "PRAGMA") DemoWorld.btc_future
             (inr [(VStr "BTCUSD", VStr "1000.0")]) data
           = Return e)
        (filter (symbol_contains "BTCUSD") Scenarios.index_records) [].
Proof.
  refine (proj1 (@binance_entries_of_index DemoWorld.up
                   (Binance.mkFetcher [DemoWorld.btc_future] "PRAGMA")
                   DemoWorld.btc_future Scenarios.index_records
                   (inr [(VStr "BTCUSD", VStr "1000.0")]) _ _ _ _) []).
  - vm_compute. lia.
  - reflexivity.
  - repeat constructor.
  - reflexivity.
Defined.

Lemma binance_volume_join_witness :
  exists volume_arr,
    Binance.select_volumes "BTCUSD" (VList Scenarios.volume_records) = Return volume_arr
    /\ (forall symbol,
          contains "BTCUSD" symbol = true ->
          Binance.retrieve_volume symbol (inr volume_arr)
          = Return (listed_volume symbol Scenarios.volume_records))
    /\ (forall symbol,
          find (symbol_is symbol) Scenarios.volume_records = None ->
          listed_volume symbol Scenarios.volume_records = VInt 0).
Proof.
  refine (binance_volume_join "BTCUSD" Scenarios.volume_records _).
  repeat constructor.
Defined.

Lemma binance_volume_not_found_witness :
  exists e,
    @Binance._fetch_pair_sync Scenarios.binance_no_volumes
      (Binance.mkFetcher [DemoWorld.btc_future] "PRAGMA") DemoWorld.btc_future
    = Raise e.
Proof.
  refine (proj2 (@binance_volume_not_found Scenarios.binance_no_volumes
                   (Binance.mkFetcher [DemoWorld.btc_future] "PRAGMA")
                   DemoWorld.btc_future Scenarios.index_records _ _ _ _) _).
  - vm_compute. lia.
  - reflexivity.
  - repeat constructor.
  - reflexivity.
  - vm_compute. discriminate.
Defined.

Lemma binance_undated_suffix_raises_witness :
  exists e,
    @Binance.construct_one DemoWorld.up
      (Binance.mkFetcher [DemoWorld.btc_future] "PRAGMA") DemoWorld.btc_future
      (inr []) Scenarios.perpetual
    = Raise e.
Proof.
  refine (proj2 (@binance_undated_suffix_raises DemoWorld.up
                   (Binance.mkFetcher [DemoWorld.btc_future] "PRAGMA")
                   DemoWorld.btc_future (inr []) Scenarios.perpetual
                   "BTCUSD" "PERP" _ _ _ _)).
  - vm_compute. discriminate.
  - reflexivity.
  - reflexivity.
  - reflexivity.
Defined.


Lemma binance_two_digit_year_pivot_witness :
  exists t,
    Binance.expiry_of ("BTCUSD" ++ "_" ++ yymmdd 99 12 31) "BTCUSD" = Return t
    /\ (99 <= 68 -> y2k + 8 * 3600 <= t)
    /\ (99 = 69 -> t < 0)
    /\ (70 <= 99 -> 8 * 3600 <= t < y2k).
Proof.
  refine (binance_two_digit_year_pivot "BTCUSD" "BTCUSD" 99 12 31 _ _ _).
  - reflexivity.
  - reflexivity.
  - vm_compute. discriminate.
Defined.

Lemma price_has_sign_of_quote_witness : price Scenarios.cex_negative_entry <= 0.
Proof.
  refine (@price_has_sign_of_quote DemoWorld.up DemoWorld.btc_spot
            (DemoWorld.cex_btc " -42000.12") (VStr " -42000.12")
            Scenarios.cex_negative_entry _).
  left. exists (Cex.mkFetcher [DemoWorld.btc_spot] "PRAGMA").
  split; vm_compute; reflexivity.
Defined.

Lemma entries_come_from_configured_assets_witness :
  source Scenarios.cex_entry = "CEX"
  /\ publisher Scenarios.cex_entry = "PRAGMA"
  /\ exists a,
       In a [DemoWorld.btc_spot]
       /\ asset_type a = kind_name (kind Scenarios.cex_entry)
       /\ pair_id Scenarios.cex_entry
          = @currency_pair_to_pair_id DemoWorld.up (fst (pair a)) (snd (pair a))
       /\ (kind Scenarios.cex_entry = SPOT -> expiry_timestamp Scenarios.cex_entry = 0).
Proof.
  refine (@entries_come_from_configured_assets DemoWorld.up [DemoWorld.btc_spot]
            "PRAGMA" "CEX" [ItemEntry Scenarios.cex_entry] Scenarios.cex_entry _ _).
  - left. split; vm_compute; reflexivity.
  - simpl. left. reflexivity.
Defined.

Lemma coinbase_zero_rate_raises_witness :
  @Coinbase._fetch_pair_sync Scenarios.coinbase_zero
    (Coinbase.mkFetcher Tests.SAMPLE_ASSETS "PRAGMA") DemoWorld.btc_spot
  = Raise ZeroDivisionError.
Proof.
  refine (proj1 (@coinbase_zero_rate_raises Scenarios.coinbase_zero DemoWorld.btc_spot
                   Scenarios.zero_rates (VDict [("BTC", VStr "0.0")]) (VStr "0.0")
                   (S754_zero false) _ _ _ _ _ _)
            (Coinbase.mkFetcher Tests.SAMPLE_ASSETS "PRAGMA")).
  - vm_compute. lia.
  - reflexivity.
  - reflexivity.
  - reflexivity.
  - reflexivity.
  - reflexivity.
Defined.

Lemma okx_entries_of_listing_witness :
  @Okx._fetch_pair_sync DemoWorld.up
    (Okx.mkFetcher [DemoWorld.btc_future] "PRAGMA") DemoWorld.btc_future
  = Return (PairEntries [])
  <-> Forall2
        (fun instrument e =>
           exists id expiry,
             getitem instrument "instId" = Return id
             /\ @Okx.fetch_sync_expiry_timestamp DemoWorld.up
                  (Okx.mkFetcher [DemoWorld.btc_future] "PRAGMA") DemoWorld.btc_future id
                = Return expiry
             /\ @Okx._construct DemoWorld.up
                  (Okx.mkFetcher [DemoWorld.btc_future] "PRAGMA") DemoWorld.btc_future
                  instrument expiry
                = Return e)
        [DemoWorld.okx_instrument "BTC-USD-231229" "42000.5";
         DemoWorld.okx_instrument "BTC-USD-240329" "42100.5"] [].
Proof.
  refine (proj1 (@okx_entries_of_listing DemoWorld.up
                   (Okx.mkFetcher [DemoWorld.btc_future] "PRAGMA")
                   DemoWorld.btc_future Scenarios.two_instruments
                   [DemoWorld.okx_instrument "BTC-USD-231229" "42000.5";
                    DemoWorld.okx_instrument "BTC-USD-240329" "42100.5"]
                   _ _ _ _ _) []).
  - vm_compute. lia.
  - reflexivity.
  - reflexivity.
  - reflexivity.
  - simpl. lia.
Defined.

End FetcherExtras.

(** * The test helpers *)
Module TestsExtras.
Import Tests.

Lemma mem_In (x : string) (argv : list string) : mem x argv = true <-> In x argv.
Proof.
  unfold mem. rewrite existsb_exists. split.
  - intros (y & Hy & E). apply String.eqb_eq in E. now subst.
  - intros H. exists x. split; [exact H|apply String.eqb_refl].
Qed.

Lemma mem_not_In (x : string) (argv : list string) : mem x argv = false <-> ~ In x argv.
Proof.
  rewrite <- mem_In. destruct (mem x argv); split; congruence.
Qed.

(** X22. [find_repo_root] returns the nearest directory holding
    pyproject.toml among the start directory and its ancestors, the
    filesystem root excluded: it returns a directory exactly when that
    directory is not the root, holds the file, and no directory from the
    start up to it does; it raises ValueError exactly when no directory
    from the start up to the root (excluded) holds the file, so a
    pyproject.toml in the root itself is never found. *)
Theorem find_repo_root_nearest (is_file : Path -> string -> bool)
  (start_directory : Path) :
  (forall root,
     find_repo_root is_file start_directory = Return root
     <-> exists below,
           start_directory = below ++ root
           /\ root <> []
           /\ is_file root "pyproject.toml" = true
           /\ forall k, (k < length below)%nat ->
                        is_file (skipn k start_directory) "pyproject.toml" = false)
  /\ (find_repo_root is_file start_directory
      = Raise (ValueError "Repository root not found!")
      <-> forall k, (k < length start_directory)%nat ->
                    is_file (skipn k start_directory) "pyproject.toml" = false).
Proof.
  induction start_directory as [|d p IH].
  - split.
    + intros root. cbn [find_repo_root]. split; [discriminate|].
      intros (below & E & Hne & _). symmetry in E. apply app_eq_nil in E.
      now destruct E.
    + cbn [find_repo_root]. split; [|reflexivity]. intros _ k Hk. cbn in Hk. lia.
  - destruct IH as [IH1 IH2]. cbn [find_repo_root].
    destruct (is_file (d :: p) "pyproject.toml") eqn:F.
    + split.
      * intros root. split.
        -- intros [= <-]. exists []. repeat split; [discriminate|exact F|].
           intros k Hk. cbn in Hk. lia.
        -- intros ([|d' b'] & E & Hne & Hf & Hall).
           ++ cbn in E. now subst.
           ++ specialize (Hall 0%nat ltac:(cbn; lia)). cbn [skipn] in Hall. congruence.
      * split; [discriminate|]. intros Hall.
        specialize (Hall 0%nat ltac:(cbn; lia)). cbn [skipn] in Hall. congruence.
    + split.
      * intros root. rewrite IH1. split.
        -- intros (below & E & Hne & Hf & Hall). exists (d :: below).
           repeat split; [cbn; now rewrite E|exact Hne|exact Hf|].
           intros [|k] Hk; [exact F|]. cbn [skipn]. apply Hall. cbn in Hk. lia.
        -- intros ([|d' b'] & E & Hne & Hf & Hall).
           ++ cbn in E. subst root. congruence.
           ++ injection E as <- E. exists b'. repeat split; try assumption.
              intros k Hk. apply (Hall (S k)). cbn. lia.
      * rewrite IH2. split.
        -- intros Hall [|k] Hk; [exact F|]. cbn [skipn]. apply Hall. cbn in Hk. lia.
        -- intros Hall k Hk. apply (Hall (S k)). cbn. lia.
Qed.

(** X23. Which client fixtures the tests run with: [net_to_clients] gives
    both clients, the gateway first, exactly when the command line holds
    none of the two client options and none of the four network words; the
    full node client alone exactly when --client=full_node is given and
    --client=gateway is not; and the gateway client alone in every other
    case, so --client=gateway wins over --client=full_node. *)
Theorem net_to_clients_cases (argv : list string) :
  let options := ["--client=gateway"; "--client=full_node"; "--net=integration";
                  "--net=testnet"; "testnet"; "integration"] in
  (net_to_clients argv = ["gateway_client"; "full_node_client"]
   <-> forall o, In o options -> ~ In o argv)
  /\ (net_to_clients argv = ["full_node_client"]
      <-> In "--client=full_node" argv /\ ~ In "--client=gateway" argv)
  /\ (net_to_clients argv = ["gateway_client"]
      <-> In "--client=gateway" argv
          \/ (~ In "--client=full_node" argv
              /\ exists o, In o (skipn 2 options) /\ In o argv)).
Proof.
  cbv zeta. unfold net_to_clients, isdisjoint. cbn [existsb skipn app].
  destruct (mem "--client=gateway" argv) eqn:G;
    destruct (mem "--client=full_node" argv) eqn:N;
    destruct (mem "--net=integration" argv) eqn:I1;
    destruct (mem "--net=testnet" argv) eqn:T1;
    destruct (mem "testnet" argv) eqn:T2;
    destruct (mem "integration" argv) eqn:I2;
    cbn [orb negb];
    repeat match goal with
           | H : mem _ _ = true |- _ => apply mem_In in H
           | H : mem _ _ = false |- _ => apply mem_not_In in H
           end;
    (split; [|split]); (split; [intros E|intros E]);
    try discriminate E; try reflexivity;
    try (exfalso; eapply E; [|eassumption]; cbn; tauto);
    try (intros o Ho; cbn in Ho; repeat destruct Ho as [<-|Ho]; assumption || contradiction);
    try tauto;
    try (right; split; [assumption|eexists; split; [|eassumption]; cbn; tauto]);
    try (destruct E as [E|(E1 & o & Ho & E2)]; [contradiction|];
         cbn in Ho; intuition (subst; contradiction)).
Qed.

End TestsExtras.
